(** * gFunc: model extraction and consistency analysis (graph.py)

    A shallow embedding of [graph.py]: the type resolver, the per-file
    extractor, the folder aggregator, the inconsistency detector and the
    label/diagram builders, followed by the properties proved about them.

    Conventions.
    - A Python [str] is a [string] (a sequence of bytes; the two characters
      the code inspects, '[' and ']', are ASCII).
    - A Python [dict] is an insertion-ordered association list with one
      binding per key ([dict_set] overwrites in place or appends), since the
      code iterates over dictionaries and the iteration order is visible in
      its results.
    - A Python [set] of strings is a [gset string]; where the code
      iterates over a set (the report writer), the set object is the list
      of its elements in the order it lists them.
    - A raised exception is the [Raise] branch of [result]. *)

From Stdlib Require Import Ascii.
From stdpp Require Import gmap strings list.

Set Warnings "-register-all,-clear-no-such-hyp".

(** ** Python string primitives used by the code *)

Module PyStr.

(** [c in s] for a one-character [c]. *)
Fixpoint contains (c : ascii) (s : string) : bool :=
  match s with
  | EmptyString => false
  | String a s' => if Ascii.eqb a c then true else contains c s'
  end.

(** [s.split(c)] for a one-character separator: [n] occurrences of the
    separator give [n + 1] pieces. *)
Fixpoint split (c : ascii) (s : string) : list string :=
  match s with
  | EmptyString => [EmptyString]
  | String a s' =>
      if Ascii.eqb a c then EmptyString :: split c s'
      else match split c s' with
           | [] => [String a EmptyString]
           | p :: ps => String a p :: ps
           end
  end.

(** [s.rstrip(c)] for a one-character set: every trailing [c] is removed. *)
Fixpoint rstrip (c : ascii) (s : string) : string :=
  match s with
  | EmptyString => EmptyString
  | String a s' =>
      match rstrip c s' with
      | EmptyString => if Ascii.eqb a c then EmptyString else String a EmptyString
      | r => String a r
      end
  end.

(** [l[-1]] and [l[1]] on the result of [split]; the index is always in
    range where the code uses it (see [split_nonempty] and
    [split_second]), so the default is never returned. *)
Definition item_last (l : list string) : string := default EmptyString (last l).
Definition item_1 (l : list string) : string := default EmptyString (l !! 1).

(** Truthiness of a string: the empty string is falsy. *)
Definition truthy (s : string) : bool :=
  match s with EmptyString => false | _ => true end.

(** [s.endswith(suffix)]. *)
Definition endswith (s suffix : string) : bool :=
  let n := String.length s in
  let k := String.length suffix in
  if Nat.leb k n then String.eqb (String.substring (n - k) k s) suffix else false.

(** [s.startswith(c)] for a one-character prefix. *)
Definition startswith (s : string) (c : ascii) : bool :=
  match s with
  | String a _ => Ascii.eqb a c
  | EmptyString => false
  end.

End PyStr.

(** ** Insertion-ordered dictionaries *)

Abbreviation dict V := (list (string * V)) (only parsing).

Section Dict.
Context {V : Type}.

(** [d.get(k)] / [d[k]] *)
Fixpoint dict_get (k : string) (d : list (string * V)) : option V :=
  match d with
  | [] => None
  | (k', v) :: d' => if String.eqb k k' then Some v else dict_get k d'
  end.

(** [k in d] *)
Definition dict_in (k : string) (d : list (string * V)) : bool :=
  match dict_get k d with Some _ => true | None => false end.

(** [d[k] = v]: an existing key keeps its position, a new key goes last. *)
Fixpoint dict_set (k : string) (v : V) (d : list (string * V)) : list (string * V) :=
  match d with
  | [] => [(k, v)]
  | (k', v') :: d' =>
      if String.eqb k k' then (k', v) :: d' else (k', v') :: dict_set k v d'
  end.

(** [d.update(items)], and a dict comprehension as [dict_update [] items]. *)
Definition dict_update (d : list (string * V)) (items : list (string * V))
  : list (string * V) :=
  fold_left (fun acc kv => dict_set kv.1 kv.2 acc) items d.

Definition dict_keys (d : list (string * V)) : list string := d.*1.

End Dict.

(** The key sequence after [d[k] = v], as a function of the keys before. *)
Definition keys_add (k : string) (ks : list string) : list string :=
  if bool_decide (k ∈ ks) then ks else ks ++ [k].

(** ** Exceptions *)

Inductive exn :=
| SyntaxError (msg : string)
| KeyError (key : string)
| OtherError (msg : string).

(** [str(e)]; for a [KeyError] it is [repr] of the key, which is the key
    between single quotes when the key holds no quote, backslash or
    unprintable character. *)
Definition exn_str (e : exn) : string :=
  match e with
  | SyntaxError msg => msg
  | KeyError key => "'" +:+ key +:+ "'"
  | OtherError msg => msg
  end.

Inductive result (A : Type) :=
| Ok (a : A)
| Raise (e : exn).
Arguments Ok {A} a.
Arguments Raise {A} e.

#[global] Instance result_ret : MRet result := fun A a => Ok a.
#[global] Instance result_bind : MBind result := fun A B k r =>
  match r with
  | Ok a => k a
  | Raise e => Raise e
  end.

(** A [for] loop whose body may raise. *)
Fixpoint for_each {S A} (body : S -> A -> result S) (l : list A) (s : S) : result S :=
  match l with
  | [] => Ok s
  | x :: l' => s' ← body s x; for_each body l' s'
  end.

(** ** The syntax tree (the shapes of Python's [ast] the code inspects)

    Nodes are those of [ast] in Python 3.9 and later, where the argument
    of a subscript is the expression itself. *)

Inductive expr :=
| Name (id : string)
| Attribute (value : expr) (attr : string)
| Subscript (value : expr) (slice : expr)
| Tuple (elts : list expr)
| Constant (repr : string)
| OtherExpr.

Inductive stmt :=
| ClassDef (name : string) (bases : list expr) (body : list stmt)
| FunctionDef (name : string)
| AnnAssign (target : expr) (annotation : expr)
| OtherStmt.

(** ** Type resolver ([resolve_type], graph.py lines 19-40)

    The test [hasattr(annotation, "slice")] of line 29 holds of every
    subscript node and is left out. *)

Definition recognized_container (container_type : string) : bool :=
  bool_decide (container_type ∈ ["List"; "Optional"; "Dict"]).

Fixpoint resolve_type (annotation : expr) : string :=
  match annotation with
  | Name id => id
  | Subscript value slice =>
      match value with
      | Name container_type =>
          if recognized_container container_type then
            match slice with
            | Name id => container_type +:+ "[" +:+ id +:+ "]"
            | Subscript _ _ => container_type +:+ "[" +:+ resolve_type slice +:+ "]"
            | Attribute _ attr => container_type +:+ "[" +:+ attr +:+ "]"
            | _ => "ComplexType"
            end
          else "ComplexType"
      | _ => "ComplexType"
      end
  | Attribute _ attr => attr
  | _ => "Unknown"
  end.

(** ** Normalization ([normalize_type], graph.py lines 113-121) *)

Definition normalize_type (attr_type : string) : string :=
  if PyStr.contains "[" attr_type
  then PyStr.rstrip "]" (PyStr.item_1 (PyStr.split "[" attr_type))
  else attr_type.

(** ** File extractor ([extract_classes_with_nested_models], lines 9-85) *)

(** [(attr_name, attr_type, is_nested)] *)
Definition FieldRecord : Type := string * string * bool.
(** [(class_name, attr_name, inner_model)] *)
Definition NestedReference : Type := string * string * string.
(** What the code reads of a class node: [node.bases] and [node.body]. *)
Definition class_node : Type := list expr * list stmt.

(** The four values the extractor and the aggregator return. *)
Record extraction := Extraction {
  classes : dict (list FieldRecord);
  base_models : gset string;
  nested_relationships : list NestedReference;
  file_to_class_map : dict string
}.

Definition empty_extraction : extraction := Extraction [] ∅ [] [].

(** [{node.name: node for node in tree.body if isinstance(node, ast.ClassDef)}] *)
Definition class_items (tree : list stmt) : list (string * class_node) :=
  omap (fun node =>
          match node with
          | ClassDef name bases body => Some (name, (bases, body))
          | _ => None
          end) tree.

Definition class_definitions (tree : list stmt) : dict class_node :=
  dict_update [] (class_items tree).

(** One turn of the loop over [node.bases] (lines 56-60). *)
Definition check_base (is_base_model : bool) (base : expr) : bool :=
  match base with
  | Name id => if String.eqb id "BaseModel" then true else is_base_model
  | Attribute _ attr => if String.eqb attr "BaseModel" then true else is_base_model
  | _ => is_base_model
  end.

(** Lines 69-73: [None] is Python's [None]. *)
Definition inner_model_of (class_definitions : dict class_node) (attr_type : string)
  : option string :=
  if PyStr.contains "[" attr_type
  then Some (PyStr.rstrip "]" (PyStr.item_last (PyStr.split "[" attr_type)))
  else if dict_in attr_type class_definitions then Some attr_type
  else None.

(** [if inner_model:] (line 75): [None] and the empty string are falsy. *)
Definition inner_model_truthy (inner_model : option string) : bool :=
  match inner_model with
  | Some s => PyStr.truthy s
  | None => false
  end.

(** One turn of the loop over [node.body] (lines 63-79); the state is the
    class's [attributes] and the shared [nested_relationships]. *)
Definition scan_child (class_definitions : dict class_node) (class_name : string)
    (st : list FieldRecord * list NestedReference) (child : stmt)
  : list FieldRecord * list NestedReference :=
  let '(attributes, nested_relationships) := st in
  match child with
  | AnnAssign (Name attr_name) annotation =>
      let attr_type := resolve_type annotation in
      let inner_model := inner_model_of class_definitions attr_type in
      if inner_model_truthy inner_model then
        (attributes ++ [(attr_name, attr_type, true)],
         nested_relationships ++ [(class_name, attr_name, default "" inner_model)])
      else
        (attributes ++ [(attr_name, attr_type, false)], nested_relationships)
  | _ => st
  end.

(** One turn of the loop over [class_definitions.items()] (lines 48-83). *)
Definition scan_class (file_path : string) (class_definitions : dict class_node)
    (st : extraction) (item : string * class_node) : extraction :=
  let '(class_name, (bases, body)) := item in
  let file_to_class_map := dict_set class_name file_path (file_to_class_map st) in
  let is_base_model := fold_left check_base bases false in
  let '(attributes, nested_relationships) :=
    fold_left (scan_child class_definitions class_name) body
              ([], nested_relationships st) in
  {| classes := dict_set class_name attributes (classes st);
     base_models := if is_base_model then base_models st ∪ {[class_name]}
                    else base_models st;
     nested_relationships := nested_relationships;
     file_to_class_map := file_to_class_map |}.

(** The body of the [with] block, once the file is parsed. *)
Definition extract_tree (file_path : string) (tree : list stmt) : extraction :=
  let class_definitions := class_definitions tree in
  fold_left (scan_class file_path class_definitions) class_definitions empty_extraction.

(** ** Inconsistency detector ([find_inconsistent_attributes], lines 124-144) *)

Record summary_entry := SummaryEntry {
  types : gset string;
  files : gset string
}.

(** One turn of the inner loop (lines 132-135); [attribute_types] and
    [attribute_files] are [defaultdict]s, and [class_to_file_map[class_name]]
    raises [KeyError] on a missing key. *)
Definition record_attribute (class_to_file_map : dict string) (class_name : string)
    (st : dict (gset string) * dict (list string)) (attr : FieldRecord)
  : result (dict (gset string) * dict (list string)) :=
  let '(attribute_types, attribute_files) := st in
  let '(attr_name, attr_type, _) := attr in
  let normalized_type := normalize_type attr_type in
  let attribute_types :=
    dict_set attr_name (default ∅ (dict_get attr_name attribute_types) ∪ {[normalized_type]})
             attribute_types in
  match dict_get class_name class_to_file_map with
  | None => Raise (KeyError class_name)
  | Some file =>
      Ok (attribute_types,
          dict_set attr_name (default [] (dict_get attr_name attribute_files) ++ [file])
                   attribute_files)
  end.

Definition index_attributes (classes : dict (list FieldRecord)) (class_to_file_map : dict string)
  : result (dict (gset string) * dict (list string)) :=
  for_each (fun st '(class_name, attributes) =>
              for_each (record_attribute class_to_file_map class_name) attributes st)
           classes ([], []).

Definition more_than_one (item : string * gset string) : bool :=
  Nat.ltb 1 (size item.2).

Definition find_inconsistent_attributes (classes : dict (list FieldRecord))
    (class_to_file_map : dict string)
  : result (gset string * dict summary_entry) :=
  '(attribute_types, attribute_files) ← index_attributes classes class_to_file_map;
  let inconsistent_attributes : gset string :=
    list_to_set (List.filter more_than_one attribute_types).*1 in
  let inconsistency_summary :=
    dict_update []
      ((fun '(name, types) =>
          (name, {| types := types;
                    files := list_to_set (default [] (dict_get name attribute_files)) |}))
         <$> List.filter more_than_one attribute_types) in
  mret (inconsistent_attributes, inconsistency_summary).

(** ** Folder-wide diagram ([generate_inconsistent_model_diagram], lines 225-258) *)

(** What the code hands to the rendering backend: [dot.attr], [dot.node]
    and [dot.edge] calls, in call order. *)
Inductive dot_stmt :=
| DotAttr (attrs : list (string * string))
| DotNode (name label : string) (attrs : list (string * string))
| DotEdge (tail head : string) (attrs : list (string * string)).

Definition layout_attrs : dot_stmt :=
  DotAttr [("rankdir", "LR"); ("splines", "spline"); ("nodesep", "1"); ("ranksep", "1.2")].

(** One turn of the loop over a class's attributes (lines 242-248). *)
Definition attr_row (inconsistent_attributes : gset string) (attr : FieldRecord) : string :=
  let '(attr_name, attr_type, is_nested) := attr in
  if bool_decide (attr_name ∈ inconsistent_attributes) then
    "<TR><TD ALIGN='LEFT' BGCOLOR='#FFC0C0'><B>" +:+ attr_name +:+ ": " +:+ attr_type
      +:+ "</B></TD></TR>"
  else if is_nested then
    "<TR><TD ALIGN='LEFT' BGCOLOR='lightyellow'><B>" +:+ attr_name +:+ ": " +:+ attr_type
      +:+ "</B></TD></TR>"
  else
    "<TR><TD ALIGN='LEFT'>" +:+ attr_name +:+ ": " +:+ attr_type +:+ "</TD></TR>".

Definition table_open : string := "<<TABLE BORDER='0' CELLBORDER='1' CELLSPACING='0'>".
Definition table_close : string := "</TABLE>>".
Definition header_row (title : string) : string :=
  "<TR><TD BGCOLOR='lightblue'><B>" +:+ title +:+ "</B></TD></TR>".

(** Lines 240-249: the label is built by appending to one string. *)
Definition class_label (inconsistent_attributes : gset string) (class_name : string)
    (attributes : list FieldRecord) : string :=
  let label := table_open in
  let label := label +:+ header_row class_name in
  let label :=
    fold_left (fun label attr => label +:+ attr_row inconsistent_attributes attr)
              attributes label in
  label +:+ table_close.

Definition tree_edge_attrs : list (string * string) :=
  [("color", "darkgreen"); ("arrowhead", "vee"); ("arrowsize", "1")].

Definition folder_graph (classes : dict (list FieldRecord))
    (relationships : list NestedReference) (inconsistent_attributes : gset string)
  : list dot_stmt :=
  let dot := [layout_attrs] in
  let dot :=
    fold_left (fun dot '(class_name, attributes) =>
                 dot ++ [DotNode class_name
                                 (class_label inconsistent_attributes class_name attributes)
                                 [("shape", "plaintext")]])
              classes dot in
  fold_left (fun dot '(parent, attr_name, child) =>
               dot ++ [DotEdge parent child (("label", attr_name) :: tree_edge_attrs)])
            relationships dot.

(** ** Per-file diagram (the graph of [generate_python_file_diagram], lines 279-322) *)

Definition method_row (name : string) : string :=
  "<TR><TD ALIGN='LEFT' BGCOLOR='lightyellow'>" +:+ name +:+ "()</TD></TR>".

Definition file_class_label (name : string) (body : list stmt) : string :=
  let class_label := table_open in
  let class_label := class_label +:+ header_row name in
  let class_label :=
    fold_left (fun class_label item =>
                 match item with
                 | FunctionDef name => class_label +:+ method_row name
                 | _ => class_label
                 end) body class_label in
  class_label +:+ table_close.

Definition file_function_label (name : string) : string :=
  table_open +:+ header_row (name +:+ "()") +:+ table_close.

(** First pass (lines 288-313); the state is the graph and the [classes]
    dictionary (the [functions] dictionary is written and never read). *)
Definition first_pass (file_name : string) (st : list dot_stmt * dict class_node) (node : stmt)
  : list dot_stmt * dict class_node :=
  let '(dot, classes) := st in
  match node with
  | ClassDef name bases body =>
      (dot ++ [DotNode ("class_" +:+ name) (file_class_label name body) [("shape", "plaintext")];
               DotEdge file_name ("class_" +:+ name) tree_edge_attrs],
       dict_set name (bases, body) classes)
  | FunctionDef name =>
      (dot ++ [DotNode ("func_" +:+ name) (file_function_label name) [("shape", "plaintext")];
               DotEdge file_name ("func_" +:+ name) tree_edge_attrs],
       classes)
  | _ => st
  end.

(** Second pass (lines 316-322). *)
Definition inheritance_edges (classes : dict class_node) (dot : list dot_stmt)
    (item : string * class_node) : list dot_stmt :=
  let '(class_name, (bases, _)) := item in
  fold_left (fun dot base =>
               match base with
               | Name base_name =>
                   if dict_in base_name classes then
                     dot ++ [DotEdge ("class_" +:+ base_name) ("class_" +:+ class_name)
                                     [("style", "dashed"); ("color", "darkgreen");
                                      ("arrowhead", "empty")]]
                   else dot
               | _ => dot
               end) bases dot.

Definition file_graph (file_name : string) (tree : list stmt) : list dot_stmt :=
  let dot := [layout_attrs] in
  let dot :=
    dot ++ [DotNode file_name ("<<B>" +:+ file_name +:+ ".py</B>>")
                    [("shape", "folder"); ("style", "filled"); ("fillcolor", "lightgrey")]] in
  let '(dot, classes) := fold_left (first_pass file_name) tree (dot, []) in
  fold_left (inheritance_edges classes) classes dot.

(** ** Files, the folder aggregator and the driver *)

(** [os.path.join(root, file)] (posixpath). *)
Definition os_path_join (a p : string) : string :=
  if PyStr.startswith p "/" then p
  else if negb (PyStr.truthy a) || PyStr.endswith a "/" then a +:+ p
  else a +:+ "/" +:+ p.

(** The paths the two [os.walk] loops visit, in visiting order: [walk] is
    the sequence of [(root, files)] that [os.walk] yields. *)
Definition py_files (walk : list (string * list string)) : list string :=
  '(root, files) ← walk;
  file ← files;
  if PyStr.endswith file ".py" then [os_path_join root file] else [].

(** Lines 105-108. *)
Definition merge (all : extraction) (e : extraction) : extraction :=
  {| classes := dict_update (classes all) (classes e);
     base_models := base_models all ∪ base_models e;
     nested_relationships := nested_relationships all ++ nested_relationships e;
     file_to_class_map := dict_update (file_to_class_map all) (file_to_class_map e) |}.

Section Run.
(** The collaborators the code calls and this development does not
    model: [ast.parse], the rendering backend ([Digraph.render]), the
    report writer ([save_html_report]),
    [os.path.splitext(os.path.basename(file_path))[0]] and
    [os.makedirs(output_dir, exist_ok=True)], which returns or raises (for
    instance [FileExistsError] when the path is a file). A file system is
    a function from paths to contents; the directory tree is not changed
    by others while the program runs, so [os.makedirs] has the same
    outcome each time it is called on a path. *)
Variable parse : string -> result (list stmt).
Variable render : list dot_stmt -> string -> result ().
Variable save_html_report : dict summary_entry -> result (list string).
Variable file_stem : string -> string.
Variable makedirs : string -> result ().

Definition extract_classes_with_nested_models (fs : string -> string) (file_path : string)
  : result extraction :=
  tree ← parse (fs file_path);
  mret (extract_tree file_path tree).

(** [analyze_models_folder] (lines 88-110). *)
Definition analyze_models_folder (fs : string -> string) (walk : list (string * list string))
  : result extraction :=
  for_each (fun all '(root, files) =>
              for_each (fun all file =>
                          if PyStr.endswith file ".py" then
                            let file_path := os_path_join root file in
                            e ← extract_classes_with_nested_models fs file_path;
                            mret (merge all e)
                          else mret all)
                       files all)
           walk empty_extraction.

(** [generate_inconsistent_model_diagram] (lines 225-258): the printed
    lines, or the exception of [os.makedirs] or of the backend. *)
Definition generate_inconsistent_model_diagram (classes : dict (list FieldRecord))
    (relationships : list NestedReference) (inconsistent_attributes : gset string)
  : result (list string) :=
  _ ← makedirs "visual";
  let output_file := os_path_join "visual" "folder_model_diagram" in
  _ ← render (folder_graph classes relationships inconsistent_attributes) output_file;
  mret ["Folder-wide diagram saved as " +:+ output_file +:+ ".png"].

(** The [try] statement of [generate_python_file_diagram] (lines 275-328)
    with the names bound before it (lines 268-273, which raise nothing):
    everything from the parse on is inside [try], and [except Exception]
    prints and goes on. The result is what the statement prints. *)
Definition try_file_diagram (fs : string -> string) (file_path : string) : list string :=
  let file_name := file_stem file_path in
  let output_file := os_path_join "visual" ("python_" +:+ file_name) in
  let attempt : result (list string) :=
    tree ← parse (fs file_path);
    _ ← render (file_graph file_name tree) output_file;
    mret ["Python file structure diagram saved as " +:+ output_file +:+ ".png"] in
  match attempt with
  | Ok printed => printed
  | Raise e => ["Error generating diagram for " +:+ file_path +:+ ": " +:+ exn_str e]
  end.

(** [generate_python_file_diagram] (lines 261-328): [os.makedirs] (line
    266) is called before the [try] statement, so its exception is not
    caught there. The printed lines, or that exception. *)
Definition generate_python_file_diagram (fs : string -> string) (file_path : string)
  : result (list string) :=
  _ ← makedirs "visual";
  mret (try_file_diagram fs file_path).

(** The loop of lines 355-360: what it prints, or the exception that
    ends it. *)
Definition diagram_loop (fs : string -> string) (walk : list (string * list string))
  : result (list string) :=
  for_each (fun printed '(root, files) =>
              for_each (fun printed file =>
                          if PyStr.endswith file ".py" then
                            lines ← generate_python_file_diagram fs (os_path_join root file);
                            mret (printed ++ lines)
                          else mret printed)
                       files printed)
           walk [].

(** The driver (lines 340-360) for one folder: [fs] is the file system
    during the analysis and [fs'] the file system when the per-file
    diagrams are drawn. The result is what was printed, or the exception
    that ended the run. *)
Definition run (fs fs' : string -> string) (walk : list (string * list string))
  : result (list string) :=
  _ ← makedirs "visual";
  all ← analyze_models_folder fs walk;
  '(inconsistent_attributes, inconsistency_summary) ←
    find_inconsistent_attributes (classes all) (file_to_class_map all);
  printed1 ← save_html_report inconsistency_summary;
  printed2 ← generate_inconsistent_model_diagram (classes all) (nested_relationships all)
               inconsistent_attributes;
  printed3 ← diagram_loop fs' walk;
  mret (printed1 ++ printed2 ++ printed3).

End Run.

(** ** The spec's reading of "the inner type of a generic descriptor"

    Stated from the specification's words, for comparison with what
    [normalize_type] and [inner_model_of] compute: the substring strictly
    between the first '[' and the last ']'. *)

Module SpecWords.

(** What follows the first occurrence of [c]. *)
Fixpoint after_first (c : ascii) (s : string) : string :=
  match s with
  | EmptyString => EmptyString
  | String a s' => if Ascii.eqb a c then s' else after_first c s'
  end.

(** What precedes the last occurrence of [c] (all of [s] if there is none). *)
Fixpoint before_last (c : ascii) (s : string) : string :=
  match s with
  | EmptyString => EmptyString
  | String a s' =>
      if PyStr.contains c s' then String a (before_last c s')
      else if Ascii.eqb a c then EmptyString
      else String a s'
  end.

Definition between_brackets (s : string) : string :=
  before_last "]" (after_first "[" s).

(** Normalization for comparison (4.1): "if the descriptor contains a
    generic wrapper, strip to the single inner type between the first '['
    and the last ']'; otherwise return the descriptor unchanged". *)
Definition normalize (s : string) : string :=
  if PyStr.contains "[" s then between_brackets s else s.

End SpecWords.

(** ** The resolver's contract, rule by rule

    Stated from the specification's words, for comparison with
    [resolve_type]. *)

Definition recognized_names : list string := ["List"; "Optional"; "Dict"].

(** "a bare name, a further subscript, or a qualified attribute" *)
Definition inner_shape (slice : expr) : Prop :=
  match slice with
  | Name _ | Subscript _ _ | Attribute _ _ => True
  | _ => False
  end.

Definition generic_shape (value slice : expr) : Prop :=
  exists outer, value = Name outer /\ outer ∈ recognized_names /\ inner_shape slice.

Definition unhandled_shape (annotation : expr) : Prop :=
  match annotation with
  | Name _ | Subscript _ _ | Attribute _ _ => False
  | _ => True
  end.

Inductive resolves_to : expr -> string -> Prop :=
| resolves_name id :
    resolves_to (Name id) id
| resolves_attribute value attr :
    resolves_to (Attribute value attr) attr
| resolves_generic outer slice inner :
    outer ∈ recognized_names ->
    inner_shape slice ->
    resolves_to slice inner ->
    resolves_to (Subscript (Name outer) slice) (outer +:+ "[" +:+ inner +:+ "]")
| resolves_complex value slice :
    ~ generic_shape value slice ->
    resolves_to (Subscript value slice) "ComplexType"
| resolves_unknown annotation :
    unhandled_shape annotation ->
    resolves_to annotation "Unknown".

(** ** The innermost type of an annotation

    The name the resolver puts innermost in its descriptor: the descriptor
    itself when it is not of the form [Outer[Inner]]. *)

Fixpoint core_name (annotation : expr) : string :=
  match annotation with
  | Subscript (Name container_type) slice =>
      if recognized_container container_type then
        match slice with
        | Name id => id
        | Subscript _ _ => core_name slice
        | Attribute _ attr => attr
        | _ => "ComplexType"
        end
      else "ComplexType"
  | _ => resolve_type annotation
  end.

Definition bracket_free (s : string) : bool :=
  negb (PyStr.contains "[" s) && negb (PyStr.contains "]" s).

(** The identifiers the resolver copies into its descriptor hold no
    bracket (true of every identifier Python's parser produces). *)
Fixpoint plain_names (annotation : expr) : bool :=
  match annotation with
  | Name id => bracket_free id
  | Attribute _ attr => bracket_free attr
  | Subscript _ slice => plain_names slice
  | _ => true
  end.

(** A string made of [c] only. *)
Fixpoint all_char (c : ascii) (s : string) : bool :=
  match s with
  | EmptyString => true
  | String a s' => Ascii.eqb a c && all_char c s'
  end.

(** ** Sample inputs *)

(** [List[Optional[Foo]]] and [List[str]], as the parser gives them. *)
Definition list_optional_foo : expr :=
  Subscript (Name "List") (Subscript (Name "Optional") (Name "Foo")).
Definition list_str : expr := Subscript (Name "List") (Name "str").

(** A file with [class Foo: pass] and [class A: x: List[Optional[Foo]]]. *)
Definition sample_nested_tree : list stmt :=
  [ClassDef "Foo" [] [OtherStmt];
   ClassDef "A" [] [AnnAssign (Name "x") list_optional_foo]].

(** [List[Optional[Bar]]]. *)
Definition list_optional_bar : expr :=
  Subscript (Name "List") (Subscript (Name "Optional") (Name "Bar")).

(** A file with [class A: x: List[Optional[Foo]]] and
    [class B: x: List[Optional[Bar]]]. *)
Definition sample_conflict_tree : list stmt :=
  [ClassDef "A" [] [AnnAssign (Name "x") list_optional_foo];
   ClassDef "B" [] [AnnAssign (Name "x") list_optional_bar]].

(** A file with only [class A: xs: List[str]]. *)
Definition sample_list_str_tree : list stmt :=
  [ClassDef "A" [] [AnnAssign (Name "xs") list_str]].

(** ** The extractor's result, class by class

    What one class body contributes: its fields in body order and its
    NestedReferences. The loops of [scan_class] compute exactly these
    ([scan_children], [scan_classes]). *)

Definition field_of (class_definitions : dict class_node) (child : stmt) : option FieldRecord :=
  match child with
  | AnnAssign (Name attr_name) annotation =>
      let attr_type := resolve_type annotation in
      Some (attr_name, attr_type,
            inner_model_truthy (inner_model_of class_definitions attr_type))
  | _ => None
  end.

Definition ref_of (class_definitions : dict class_node) (class_name : string) (child : stmt)
  : option NestedReference :=
  match child with
  | AnnAssign (Name attr_name) annotation =>
      let inner_model := inner_model_of class_definitions (resolve_type annotation) in
      if inner_model_truthy inner_model
      then Some (class_name, attr_name, default "" inner_model)
      else None
  | _ => None
  end.

Definition class_fields (class_definitions : dict class_node) (body : list stmt)
  : list FieldRecord :=
  omap (field_of class_definitions) body.

Definition class_refs (class_definitions : dict class_node) (class_name : string)
    (body : list stmt) : list NestedReference :=
  omap (ref_of class_definitions class_name) body.

(** The names of the annotated fields of a class body, in declaration order. *)
Definition annotated_names (body : list stmt) : list string :=
  omap (fun child =>
          match child with
          | AnnAssign (Name attr_name) _ => Some attr_name
          | _ => None
          end) body.

Definition is_base_marker (base : expr) : bool :=
  match base with
  | Name id => String.eqb id "BaseModel"
  | Attribute _ attr => String.eqb attr "BaseModel"
  | _ => false
  end.

(** The classes of [l] with a base named [BaseModel]. *)
Definition base_names (l : list (string * class_node)) : list string :=
  (List.filter (fun kv => existsb is_base_marker kv.2.1) l).*1.

Definition field_name (attr : FieldRecord) : string := attr.1.1.
Definition ref_source (r : NestedReference) : string := r.1.1.

(** The node drawn for a class and the edge drawn for a NestedReference. *)
Definition node_of (inconsistent_attributes : gset string)
    (item : string * list FieldRecord) : dot_stmt :=
  DotNode item.1 (class_label inconsistent_attributes item.1 item.2) [("shape", "plaintext")].

Definition edge_of (r : NestedReference) : dot_stmt :=
  DotEdge r.1.1 r.2 (("label", r.1.2) :: tree_edge_attrs).

(** The rows of a label, joined. *)
Definition join_rows (rows : list string) : string := foldr String.append "" rows.

(** ** The rows of a class's label, as the specification describes them

    Stated from the specification's words (4.5): "a header row with the
    class name, then one row per field showing [name: type], with three
    mutually exclusive visual classifications per field: inconsistent (if
    the field's name is in the inconsistent set), nested (if the field was
    marked is-nested and not inconsistent), or plain". *)

Inductive row_class := Inconsistent | Nested | Plain.

Definition classify (inconsistent_attributes : gset string) (attr : FieldRecord)
  : row_class :=
  if bool_decide (attr.1.1 ∈ inconsistent_attributes) then Inconsistent
  else if attr.2 then Nested
  else Plain.

(** The text a field's row shows. *)
Definition field_text (attr : FieldRecord) : string := attr.1.1 +:+ ": " +:+ attr.1.2.

(** A table row of one cell: bold on a red ground, bold on a yellow
    ground, or plain. *)
Definition styled_row (c : row_class) (text : string) : string :=
  match c with
  | Inconsistent =>
      "<TR><TD ALIGN='LEFT' BGCOLOR='#FFC0C0'><B>" +:+ text +:+ "</B></TD></TR>"
  | Nested =>
      "<TR><TD ALIGN='LEFT' BGCOLOR='lightyellow'><B>" +:+ text +:+ "</B></TD></TR>"
  | Plain => "<TR><TD ALIGN='LEFT'>" +:+ text +:+ "</TD></TR>"
  end.

(** What the annotated fields of a class body declare, as [name: type]
    with the type resolved, in declaration order. *)
Definition declared_texts (body : list stmt) : list string :=
  omap (fun child =>
          match child with
          | AnnAssign (Name attr_name) annotation =>
              Some (attr_name +:+ ": " +:+ resolve_type annotation)
          | _ => None
          end) body.

(** Two dictionaries that differ only in the value bound to the first
    occurrence of [n]. *)
Inductive differ_at {V} (n : string) : list (string * V) -> list (string * V) -> Prop :=
| differ_here v v' d : differ_at n ((n, v) :: d) ((n, v') :: d)
| differ_skip kv d d' : kv.1 ≠ n -> differ_at n d d' -> differ_at n (kv :: d) (kv :: d').

(** ** The aggregator, file by file *)

(** One turn of the aggregator's loops on a file it visits. *)
Definition merge_file (parse : string -> result (list stmt)) (fs : string -> string)
    (all : extraction) (file_path : string) : result extraction :=
  e ← extract_classes_with_nested_models parse fs file_path;
  mret (merge all e).

(** [e] is what the extractor returns for the file at [file_path]. *)
Definition extracted (parse : string -> result (list stmt)) (fs : string -> string)
    (file_path : string) (e : extraction) : Prop :=
  exists tree, parse (fs file_path) = Ok tree /\ e = extract_tree file_path tree.

(** The file at [file_path] parses and defines a top-level class [n]. *)
Definition defines (parse : string -> result (list stmt)) (fs : string -> string)
    (file_path n : string) : Prop :=
  exists tree, parse (fs file_path) = Ok tree /\ n ∈ dict_keys (class_definitions tree).

(** One turn of the diagram loop on a file it visits. *)
Definition draw_file (parse : string -> result (list stmt))
    (render : list dot_stmt -> string -> result ()) (file_stem : string -> string)
    (makedirs : string -> result ()) (fs : string -> string)
    (printed : list string) (file_path : string) : result (list string) :=
  lines ← generate_python_file_diagram parse render file_stem makedirs fs file_path;
  mret (printed ++ lines).

(** ** What the detector records

    The values of [normalize_type], and the files, recorded for an
    attribute name over every (class, field) pair of the class table. *)

(** Every (class, field) pair, as [(class_name, attr_name, attr_type)], in
    the order the detector's loops visit them. *)
Definition attr_occurrences (classes : dict (list FieldRecord))
  : list (string * string * string) :=
  '(class_name, attributes) ← classes;
  '(attr_name, attr_type, _) ← attributes;
  [(class_name, attr_name, attr_type)].

Definition types_of (name : string) (occs : list (string * string * string)) : list string :=
  o ← occs; if String.eqb o.1.2 name then [normalize_type o.2] else [].

Definition files_of (class_to_file_map : dict string) (name : string)
    (occs : list (string * string * string)) : list string :=
  o ← occs;
  if String.eqb o.1.2 name then option_list (dict_get o.1.1 class_to_file_map) else [].

Definition observed_types (name : string) (classes : dict (list FieldRecord)) : gset string :=
  list_to_set (types_of name (attr_occurrences classes)).

Definition observed_files (class_to_file_map : dict string) (name : string)
    (classes : dict (list FieldRecord)) : gset string :=
  list_to_set (files_of class_to_file_map name (attr_occurrences classes)).

(** ** What the detector should report

    Stated from the specification's words (4.1, 4.4 and the glossary):
    the normalized types of an attribute name are the descriptors of the
    fields of that name with their container stripped, which is
    [SpecWords.normalize] and not what [normalize_type] returns. *)

Definition spec_types_of (name : string) (occs : list (string * string * string))
  : list string :=
  o ← occs; if String.eqb o.1.2 name then [SpecWords.normalize o.2] else [].

Definition spec_observed_types (name : string) (classes : dict (list FieldRecord))
  : gset string :=
  list_to_set (spec_types_of name (attr_occurrences classes)).

(** A descriptor with at most one container: a bracket-free string or
    [Outer[Inner]] with a bracket-free [Inner]. *)
Definition single_level (attr_type : string) : Prop :=
  PyStr.contains "[" attr_type = false
  \/ exists outer inner, attr_type = outer +:+ "[" +:+ inner +:+ "]"
                         /\ PyStr.contains "[" outer = false /\ bracket_free inner = true.

(** One turn of the detector's inner loop, on a (class, field) pair. *)
Definition record_occurrence (class_to_file_map : dict string)
    (st : dict (gset string) * dict (list string)) (o : string * string * string)
  : result (dict (gset string) * dict (list string)) :=
  record_attribute class_to_file_map o.1.1 st (o.1.2, o.2, false).

(** What [dict_get] finds for a name, given what was recorded for it. *)
Definition recorded {A B} (f : list A -> B) (l : list A) : option B :=
  match l with
  | [] => None
  | _ => Some (f l)
  end.

(** ** Sample runs *)

(** Two classes that type [name] differently, in two files. *)
Definition sample_classes : dict (list FieldRecord) :=
  [("User", [("name", "str", false)]); ("Order", [("name", "int", false)])].
Definition sample_file_map : dict string :=
  [("User", "models/user.py"); ("Order", "models/order.py")].

(** A stand-in for the parser: the text [class A: x: int], the text
    [class A: y: str], and anything else a syntax error. *)
Definition toy_parse (source : string) : result (list stmt) :=
  if String.eqb source "class A: x: int"
  then Ok [ClassDef "A" [] [AnnAssign (Name "x") (Name "int")]]
  else if String.eqb source "class A: y: str"
  then Ok [ClassDef "A" [] [AnnAssign (Name "y") (Name "str")]]
  else Raise (SyntaxError "invalid syntax").

Definition toy_render (dot : list dot_stmt) (output_file : string) : result () := Ok ().

(** A folder [m] with [a.py], [b.py] and a text file. *)
Definition sample_walk : list (string * list string) := [("m", ["a.py"; "notes.txt"; "b.py"])].

Definition sample_fs (file_path : string) : string :=
  if String.eqb file_path "m/a.py" then "class A: x: int"
  else if String.eqb file_path "m/b.py" then "class A: y: str"
  else "".

(** The same folder with [b.py] damaged. *)
Definition broken_fs (file_path : string) : string :=
  if String.eqb file_path "m/b.py" then "class A(" else sample_fs file_path.

Definition toy_report (summary : dict summary_entry) : result (list string) := Ok [].

(** The output directory can be made, or is in the way as a file. *)
Definition toy_makedirs (output_dir : string) : result () := Ok ().
Definition blocked_makedirs (output_dir : string) : result () :=
  Raise (OtherError ("[Errno 17] File exists: '" +:+ output_dir +:+ "'")).

Definition toy_stem (file_path : string) : string :=
  if String.eqb file_path "m/a.py" then "a"
  else if String.eqb file_path "m/b.py" then "b"
  else file_path.

(** What the aggregator returns on the sample folder. *)
Definition sample_all : extraction :=
  {| classes := [("A", [("y", "str", false)])];
     base_models := ∅;
     nested_relationships := [];
     file_to_class_map := [("A", "m/b.py")] |}.

(** A folder of two model files. [user.py] defines [User(BaseModel)],
    with a field of class [Profile], and [Profile(BaseModel)]; [order.py],
    visited second, defines [User] again, with no base and no reference,
    and [Order(pydantic.BaseModel)] with a field of class [User]. *)
Definition models_walk : list (string * list string) := [("m", ["user.py"; "order.py"])].

Definition models_fs (file_path : string) : string :=
  if String.eqb file_path "m/user.py" then "user.py: User(BaseModel), Profile(BaseModel)"
  else if String.eqb file_path "m/order.py" then "order.py: User, Order(pydantic.BaseModel)"
  else "".

Definition user_tree : list stmt :=
  [ClassDef "User" [Name "BaseModel"]
     [AnnAssign (Name "name") (Name "str");
      AnnAssign (Name "profile") (Subscript (Name "Optional") (Name "Profile"))];
   ClassDef "Profile" [Name "BaseModel"] [AnnAssign (Name "age") (Name "int")]].

Definition order_tree : list stmt :=
  [ClassDef "User" [] [AnnAssign (Name "name") (Name "int")];
   ClassDef "Order" [Attribute (Name "pydantic") "BaseModel"]
     [AnnAssign (Name "buyer") (Name "User")]].

Definition models_parse (source : string) : result (list stmt) :=
  if String.eqb source "user.py: User(BaseModel), Profile(BaseModel)" then Ok user_tree
  else if String.eqb source "order.py: User, Order(pydantic.BaseModel)" then Ok order_tree
  else Raise (SyntaxError "invalid syntax").

(** What the aggregator returns on that folder. *)
Definition models_all : extraction :=
  {| classes := [("User", [("name", "int", false)]);
                 ("Profile", [("age", "int", false)]);
                 ("Order", [("buyer", "User", true)])];
     base_models := {["User"; "Profile"; "Order"]};
     nested_relationships := [("User", "profile", "Profile"); ("Order", "buyer", "User")];
     file_to_class_map := [("User", "m/order.py"); ("Profile", "m/user.py");
                           ("Order", "m/order.py")] |}.

(** Two classes with a field each, for a class-to-file map that knows
    neither. *)
Definition unmapped_classes : dict (list FieldRecord) :=
  [("A", [("x", "int", false)]); ("B", [("y", "str", false)])].

(** A class body with two annotated fields among other statements. *)
Definition sample_body : list stmt :=
  [AnnAssign (Name "a") (Name "int"); OtherStmt; FunctionDef "m";
   AnnAssign (Attribute (Name "self") "c") (Name "int");
   AnnAssign (Name "b") (Subscript (Name "List") (Name "P"))].

(** ** Views used by the further properties *)

(** The (class, field) pairs of a class table whose field is marked nested. *)
Definition flagged_fields (classes : dict (list FieldRecord)) : list (string * string) :=
  '(class_name, attributes) ← classes;
  '(attr_name, attr_type, is_nested) ← attributes;
  if (is_nested : bool) then [(class_name, attr_name)] else [].

(** The (class, field) pair a NestedReference leaves from. *)
Definition ref_field (r : NestedReference) : string * string := (r.1.1, r.1.2).

(** The annotation is a recognized container subscripted by a name, a
    subscript or an attribute. *)
Definition generic_annotation (annotation : expr) : Prop :=
  exists outer slice, annotation = Subscript (Name outer) slice
                      /\ outer ∈ recognized_names /\ inner_shape slice.

(** The file defines a top-level class [n]. *)
Definition top_level_class (tree : list stmt) (n : string) : Prop :=
  exists bases body, ClassDef n bases body ∈ tree.

(** A base written [BaseModel] or [<anything>.BaseModel]. *)
Definition names_base_model (base : expr) : Prop :=
  base = Name "BaseModel" \/ exists value, base = Attribute value "BaseModel".

(** A class whose field names a class defined further down the file. *)
Definition sample_forward_tree : list stmt :=
  [ClassDef "User" [] [AnnAssign (Name "name") (Name "str");
                       AnnAssign (Name "profile") (Name "Profile")];
   ClassDef "Profile" [Attribute (Name "pydantic") "BaseModel"] []].

(** The detector needs the file of a class only if the class has a field. *)
Definition has_file (class_to_file_map : dict string) (item : string * list FieldRecord)
  : Prop :=
  item.2 = [] \/ item.1 ∈ dict_keys class_to_file_map.

(** Two fields called [name], in any classes of the table, whose
    normalized types differ. *)
Definition conflicting_fields (classes : dict (list FieldRecord)) (name : string) : Prop :=
  exists class1 attributes1 type1 nested1 class2 attributes2 type2 nested2,
    (class1, attributes1) ∈ classes /\ (name, type1, nested1) ∈ attributes1
    /\ (class2, attributes2) ∈ classes /\ (name, type2, nested2) ∈ attributes2
    /\ normalize_type type1 ≠ normalize_type type2.

(** ** Views of the per-file graph *)

(** What the first pass draws for one top-level statement. *)
Definition child_stmts (file_name : string) (node : stmt) : list dot_stmt :=
  match node with
  | ClassDef name bases body =>
      [DotNode ("class_" +:+ name) (file_class_label name body) [("shape", "plaintext")];
       DotEdge file_name ("class_" +:+ name) tree_edge_attrs]
  | FunctionDef name =>
      [DotNode ("func_" +:+ name) (file_function_label name) [("shape", "plaintext")];
       DotEdge file_name ("func_" +:+ name) tree_edge_attrs]
  | _ => []
  end.

Definition dashed_attrs : list (string * string) :=
  [("style", "dashed"); ("color", "darkgreen"); ("arrowhead", "empty")].

(** The inheritance edge from [base_name] to [class_name]. *)
Definition inheritance_edge (base_name class_name : string) : dot_stmt :=
  DotEdge ("class_" +:+ base_name) ("class_" +:+ class_name) dashed_attrs.

(** What the second pass draws for one class of the file. *)
Definition inheritance_of (classes : dict class_node) (item : string * class_node)
  : list dot_stmt :=
  base ← item.2.1;
  match base with
  | Name base_name =>
      if dict_in base_name classes then [inheritance_edge base_name item.1] else []
  | _ => []
  end.

Definition file_node (file_name : string) : dot_stmt :=
  DotNode file_name ("<<B>" +:+ file_name +:+ ".py</B>>")
          [("shape", "folder"); ("style", "filled"); ("fillcolor", "lightgrey")].

(** The methods of a class body, in body order. *)
Definition method_names (body : list stmt) : list string :=
  omap (fun item => match item with FunctionDef name => Some name | _ => None end) body.

(** A node called [name] is drawn. *)
Definition draws (dot : list dot_stmt) (name : string) : Prop :=
  exists label attrs, DotNode name label attrs ∈ dot.

(** A renderer that fails on the graph of the file whose stem is [b]. *)
Definition picky_render (dot : list dot_stmt) (output_file : string) : result () :=
  if String.eqb output_file "visual/python_b"
  then Raise (OtherError "dot: not found")
  else Ok ().

(** ** Report writer ([save_html_report], graph.py lines 147-220)

    The file system, the browser and the runtime are taken as given:
    [os.makedirs], the template's text if [template.html] exists,
    [str.replace], [repr] of the two values the chart block prints and
    [os.path.abspath]. Reading the template and writing the report are
    taken to succeed. A Python [int] counter is a [nat]. *)

Module Report.

(** A [set] object as the report writer meets it: its elements in the
    order in which iterating over it lists them, each element once. The
    order belongs to the object, not to its value: two sets with the same
    elements may list them differently. A set that is not changed lists
    its elements in the same order each time, as [details['types']] does
    at lines 175 and 184. *)
Definition set_object : Type := list string.

(** A value of the summary: [{"types": ..., "files": ...}]. *)
Record details := Details {
  types : set_object;
  files : set_object
}.

Record dataset := Dataset {
  label : string;
  data : list nat;
  backgroundColor : string
}.

(** What the call does: the file it writes (path and text), the URL it
    opens, and what it prints. *)
Record effects := Effects {
  written : option (string * string);
  opened : option string;
  printed : list string
}.

Definition nl : string := String "010" "".

Definition colors : list string :=
  ["rgba(75, 192, 192, 0.7)"; "rgba(255, 99, 132, 0.7)"; "rgba(54, 162, 235, 0.7)";
   "rgba(255, 206, 86, 0.7)"; "rgba(153, 102, 255, 0.7)"].

(** [sep.join(items)] *)
Fixpoint join (sep : string) (items : list string) : string :=
  match items with
  | [] => ""
  | [x] => x
  | x :: rest => x +:+ sep +:+ join sep rest
  end.

(** [type_data[t][index] += 1] on the [defaultdict] whose default is
    [[0] * n]; the index is in range wherever the code uses it. *)
Definition bump (n index : nat) (type_data : dict (list nat)) (t : string)
  : dict (list nat) :=
  dict_set t (alter S index (default (replicate n 0) (dict_get t type_data))) type_data.

Section Writer.
(** [set_order adds] is the order in which the set [type_labels], built
    from the empty set by the calls [type_labels.add(t)] for [t] in
    [adds], lists its elements at line 190. *)
Variable set_order : list string -> list string.
Variable makedirs : string -> result ().
Variable py_replace : string -> string -> string -> string.
Variable repr_attributes : list string -> string.
Variable repr_datasets : list dataset -> string.
Variable abspath : string -> string.

(** The f-string of lines 181-187. *)
Definition table_row (attr_name : string) (details : details) : string :=
  let formatted_files := join "<br>" (files details) in
  nl +:+ "            <tr>" +:+ nl
     +:+ "                <td>" +:+ attr_name +:+ "</td>" +:+ nl
     +:+ "                <td>" +:+ join ", " (types details) +:+ "</td>" +:+ nl
     +:+ "                <td>" +:+ formatted_files +:+ "</td>" +:+ nl
     +:+ "            </tr>" +:+ nl
     +:+ "        ".

(** The loop state of lines 166-187: [table_rows], [attributes],
    [type_labels] (as the calls of [add] made on it so far), [type_data],
    and the [index] that [enumerate] counts. *)
Record tables := Tables {
  table_rows : string;
  attributes : list string;
  type_labels : list string;
  type_data : dict (list nat);
  index : nat
}.

(** One turn of the loop over the summary's items (lines 171-187). *)
Definition scan_entry (n : nat) (st : tables) (item : string * details) : tables :=
  let '(attr_name, details) := item in
  let attributes := attributes st ++ [attr_name] in
  let '(type_labels, type_data) :=
    fold_left (fun '(type_labels, type_data) t =>
                 (type_labels ++ [t], bump n (index st) type_data t))
              (types details) (type_labels st, type_data st) in
  {| table_rows := table_rows st +:+ table_row attr_name details;
     attributes := attributes;
     type_labels := type_labels;
     type_data := type_data;
     index := S (index st) |}.

Definition report_tables (inconsistency_summary : dict details) : tables :=
  fold_left (scan_entry (length inconsistency_summary)) inconsistency_summary
            (Tables "" [] [] [] 0).

(** Lines 190-199: [type_labels = list(type_labels)], then one dataset
    per label. *)
Definition make_datasets (n : nat) (type_labels : list string) (type_data : dict (list nat))
  : list dataset :=
  (fold_left (fun '(datasets, i) type_label =>
                (datasets ++ [{| label := type_label;
                                 data := default (replicate n 0)
                                                 (dict_get type_label type_data);
                                 backgroundColor :=
                                   default "" (colors !! (i mod length colors)) |}],
                 S i))
             (set_order type_labels) ([], 0)).1.

(** The f-string of lines 202-208. *)
Definition chart_data (attributes : list string) (datasets : list dataset) : string :=
  nl +:+ "        const labels = " +:+ repr_attributes attributes +:+ ";" +:+ nl
     +:+ "        const data = {" +:+ nl
     +:+ "            labels: labels," +:+ nl
     +:+ "            datasets: " +:+ repr_datasets datasets +:+ nl
     +:+ "        };" +:+ nl
     +:+ "    ".

(** [template] is the text of [template.html], or [None] when the file
    does not exist. The result is what the call does, or the exception of
    [os.makedirs]. *)
Definition save_html_report (template : option string)
    (inconsistency_summary : dict details) : result effects :=
  _ ← makedirs "visual";
  let template_file := "template.html" in
  let output_file := os_path_join "visual" "inconsistencies_report.html" in
  match template with
  | None =>
      mret (Effects None None ["Template file '" +:+ template_file +:+ "' not found."])
  | Some html_content =>
      let t := report_tables inconsistency_summary in
      let datasets :=
        make_datasets (length inconsistency_summary) (type_labels t) (type_data t) in
      let html_content := py_replace html_content "{{TABLE_ROWS}}" (table_rows t) in
      let html_content :=
        py_replace html_content "{{CHART_DATA}}" (chart_data (attributes t) datasets) in
      mret (Effects (Some (output_file, html_content))
                    (Some ("file://" +:+ abspath output_file))
                    ["HTML report saved to " +:+ output_file
                       +:+ " and opened in the browser."])
  end.

End Writer.

(** Whether type [t] is one of the types of a summary entry. *)
Definition indicator (t : string) (item : string * details) : nat :=
  if bool_decide (t ∈ types item.2) then 1 else 0.

(** The types of all entries, in the order the loop meets them. *)
Definition all_types (inconsistency_summary : dict details) : list string :=
  item ← inconsistency_summary; types item.2.

(** A summary as the detector hands it over: every set lists each of
    its elements once. *)
Definition well_formed (inconsistency_summary : dict details) : Prop :=
  Forall (fun item => NoDup (types item.2)) inconsistency_summary.

(** A summary of two names; the second set lists [int] before [UUID]. *)
Definition sample_summary : dict details :=
  [("name", {| types := ["str"; "int"]; files := ["m/user.py"; "m/order.py"] |});
   ("id", {| types := ["int"; "UUID"]; files := ["m/order.py"; "m/user.py"] |})].

(** A runtime whose sets list their elements latest first. *)
Definition latest_first (adds : list string) : list string := reverse (remove_dups adds).

End Report.

(** What the report loop has computed after the entries [done] of a
    summary of [n] entries. *)
Definition tables_after (n : nat) (done : dict Report.details) (st : Report.tables) : Prop :=
  Report.index st = length done
  /\ Report.attributes st = dict_keys done
  /\ Report.type_labels st = Report.all_types done
  /\ forall t, dict_get t (Report.type_data st)
               = if bool_decide (t ∈ Report.all_types done)
                 then Some ((Report.indicator t <$> done)
                              ++ replicate (n - length done) 0)
                 else None.

(** * Properties *)

(** ** Strings *)

Section StringFacts.
Implicit Types (c a : ascii) (s t : string).

Lemma app_cons a s t : String a s +:+ t = String a (s +:+ t).
Proof. reflexivity. Qed.

Lemma app_empty_l t : EmptyString +:+ t = t.
Proof. reflexivity. Qed.

Lemma app_assoc_str s t u : (s +:+ t) +:+ u = s +:+ (t +:+ u).
Proof.
  induction s as [|a s IH]; [done|].
  by rewrite !app_cons, IH.
Qed.

Lemma app_empty_r s : s +:+ EmptyString = s.
Proof. induction s as [|a s IH]; [done|]. by rewrite app_cons, IH. Qed.

Lemma contains_app c s t :
  PyStr.contains c (s +:+ t) = PyStr.contains c s || PyStr.contains c t.
Proof.
  induction s as [|a s IH]; [done|].
  rewrite app_cons. simpl. by destruct (Ascii.eqb a c).
Qed.

Lemma split_nonempty c s : PyStr.split c s ≠ [].
Proof.
  destruct s as [|a s]; simpl; [done|].
  destruct (Ascii.eqb a c); [done|].
  by destruct (PyStr.split c s).
Qed.

(** The index [1] is in range whenever the separator occurs. *)
Lemma split_second c s :
  PyStr.contains c s = true -> is_Some (PyStr.split c s !! 1).
Proof.
  induction s as [|a s IH]; simpl; [done|].
  destruct (Ascii.eqb a c).
  - intros _. pose proof (split_nonempty c s).
    destruct (PyStr.split c s); [done|]. by eexists.
  - intros H. destruct (IH H) as [x Hx].
    destruct (PyStr.split c s) as [|p [|q ps]]; simplify_eq/=. by eexists.
Qed.

Lemma split_no_sep c s : PyStr.contains c s = false -> PyStr.split c s = [s].
Proof.
  induction s as [|a s IH]; simpl; [done|].
  destruct (Ascii.eqb a c); [done|].
  intros H. by rewrite (IH H).
Qed.

Lemma split_app c s t :
  PyStr.split c (s +:+ String c t) = PyStr.split c s ++ PyStr.split c t.
Proof.
  induction s as [|a s IH].
  - rewrite app_empty_l. simpl. by rewrite Ascii.eqb_refl.
  - rewrite app_cons. simpl. rewrite IH.
    destruct (Ascii.eqb a c); [done|].
    pose proof (split_nonempty c s).
    by destruct (PyStr.split c s).
Qed.

Lemma item_last_app (l1 l2 : list string) :
  l2 ≠ [] -> PyStr.item_last (l1 ++ l2) = PyStr.item_last l2.
Proof.
  intros H. unfold PyStr.item_last. rewrite last_app.
  destruct (last l2) eqn:E; [done|].
  apply last_None in E. done.
Qed.

Lemma rstrip_no_char c s : PyStr.contains c s = false -> PyStr.rstrip c s = s.
Proof.
  induction s as [|a s IH]; simpl; [done|].
  destruct (Ascii.eqb a c) eqn:E; [done|].
  intros H. rewrite (IH H). by destruct s.
Qed.

Lemma rstrip_app c s t :
  PyStr.rstrip c (s +:+ t) =
    match PyStr.rstrip c t with
    | EmptyString => PyStr.rstrip c s
    | r => s +:+ r
    end.
Proof.
  induction s as [|a s IH].
  - rewrite app_empty_l. by destruct (PyStr.rstrip c t).
  - rewrite app_cons. simpl. rewrite IH.
    destruct (PyStr.rstrip c t) as [|b r]; [done|].
    rewrite app_cons. by destruct s.
Qed.

End StringFacts.

(** ** Lists *)

Lemma elem_of_List_filter {A} (f : A -> bool) (l : list A) (x : A) :
  x ∈ List.filter f l <-> f x = true /\ x ∈ l.
Proof. rewrite !list_elem_of_In, List.filter_In. tauto. Qed.

(** ** Dictionaries *)

Section DictFacts.
Context {V : Type}.
Implicit Types (k : string) (v : V) (d l : list (string * V)).

Lemma dict_get_set_eq k v d : dict_get k (dict_set k v d) = Some v.
Proof.
  induction d as [|[k' v'] d IH]; simpl.
  - by rewrite String.eqb_refl.
  - destruct (String.eqb_spec k k') as [->|Hne]; simpl.
    + by rewrite String.eqb_refl.
    + by destruct (String.eqb_spec k k').
Qed.

Lemma dict_get_set_ne k k' v d : k ≠ k' -> dict_get k' (dict_set k v d) = dict_get k' d.
Proof.
  intros Hne. induction d as [|[k0 v0] d IH]; simpl.
  - by destruct (String.eqb_spec k' k) as [->|].
  - destruct (String.eqb_spec k k0) as [->|]; simpl.
    + by destruct (String.eqb_spec k' k0) as [->|].
    + by rewrite IH.
Qed.

Lemma dict_get_None k d : dict_get k d = None <-> k ∉ dict_keys d.
Proof.
  unfold dict_keys. induction d as [|[k' v'] d IH]; simpl.
  - split; [intros _; apply not_elem_of_nil|done].
  - rewrite not_elem_of_cons. destruct (String.eqb_spec k k') as [->|Hne].
    + split; [done|]. by intros [? _].
    + rewrite IH. split; [done|]. by intros [_ ?].
Qed.

Lemma dict_get_is_Some k d : is_Some (dict_get k d) <-> k ∈ dict_keys d.
Proof.
  rewrite <-not_eq_None_Some, dict_get_None.
  destruct (decide (k ∈ dict_keys d)); naive_solver.
Qed.

Lemma dict_in_true k d : dict_in k d = true <-> k ∈ dict_keys d.
Proof.
  rewrite <-dict_get_is_Some. unfold dict_in.
  destruct (dict_get k d); split; done.
Qed.

Lemma dict_get_elem_of k v d : dict_get k d = Some v -> (k, v) ∈ d.
Proof.
  induction d as [|[k' v'] d IH]; simpl; [done|].
  destruct (String.eqb_spec k k') as [->|].
  - intros [= ->]. apply list_elem_of_here.
  - intros H. apply list_elem_of_further. auto.
Qed.

Lemma dict_get_unique k v d : NoDup (dict_keys d) -> (k, v) ∈ d -> dict_get k d = Some v.
Proof.
  unfold dict_keys. induction d as [|[k' v'] d IH].
  - intros _ H. by apply elem_of_nil in H.
  - rewrite fmap_cons, NoDup_cons, elem_of_cons. cbn [fst dict_get].
    intros [Hk' Hnd] [Heq|Hin].
    + simplify_eq. by rewrite String.eqb_refl.
    + destruct (String.eqb_spec k k') as [->|]; [|by apply IH].
      exfalso. apply Hk'. apply list_elem_of_fmap. by exists (k', v).
Qed.

Lemma dict_keys_set k v d : dict_keys (dict_set k v d) = keys_add k (dict_keys d).
Proof.
  unfold dict_keys, keys_add. induction d as [|[k' v'] d IH].
  - case_bool_decide as H; [by apply elem_of_nil in H|done].
  - cbn [dict_set]. destruct (String.eqb_spec k k') as [->|Hne].
    + clear IH. rewrite !fmap_cons. cbn [fst].
      case_bool_decide as H; [done|]. exfalso. apply H, list_elem_of_here.
    + rewrite !fmap_cons, IH. cbn [fst]. destruct (decide (k ∈ d.*1)) as [Hin|Hnin].
      * rewrite (bool_decide_eq_true_2 (k ∈ d.*1)) by done.
        by rewrite (bool_decide_eq_true_2 (k ∈ k' :: d.*1))
          by (by apply list_elem_of_further).
      * rewrite (bool_decide_eq_false_2 (k ∈ d.*1)) by done.
        by rewrite (bool_decide_eq_false_2 (k ∈ k' :: d.*1))
          by (by apply not_elem_of_cons).
Qed.

Lemma dict_set_fresh k v d : k ∉ dict_keys d -> dict_set k v d = d ++ [(k, v)].
Proof.
  unfold dict_keys. induction d as [|[k' v'] d IH]; simpl; [done|].
  rewrite not_elem_of_cons. intros [Hne Hnin].
  destruct (String.eqb_spec k k'); [done|]. by rewrite IH.
Qed.

Lemma dict_update_app d l1 l2 :
  dict_update d (l1 ++ l2) = dict_update (dict_update d l1) l2.
Proof. unfold dict_update. apply fold_left_app. Qed.

Lemma dict_update_fresh d l : NoDup (dict_keys (d ++ l)) -> dict_update d l = d ++ l.
Proof.
  revert d. induction l as [|[k v] l IH]; intros d Hnd; simpl.
  - by rewrite app_nil_r.
  - change (dict_update d ((k, v) :: l)) with (dict_update (dict_set k v d) l).
    assert (k ∉ dict_keys d) as Hk.
    { unfold dict_keys in *. rewrite fmap_app in Hnd. simpl in Hnd.
      apply NoDup_app in Hnd as (_ & Hd & _). intros Hin.
      apply (Hd k Hin). apply list_elem_of_here. }
    rewrite (dict_set_fresh _ _ _ Hk), IH; rewrite <-?app_assoc; done.
Qed.

Lemma dict_keys_update d l :
  dict_keys (dict_update d l) = fold_left (fun ks k => keys_add k ks) l.*1 (dict_keys d).
Proof.
  revert d. induction l as [|[k v] l IH]; intros d; [done|].
  change (dict_update d ((k, v) :: l)) with (dict_update (dict_set k v d) l).
  by rewrite IH, dict_keys_set.
Qed.

Lemma dict_get_update_None k d l :
  dict_get k l = None -> dict_get k (dict_update d l) = dict_get k d.
Proof.
  revert d. induction l as [|[k' v'] l IH]; intros d; [done|]. simpl.
  destruct (String.eqb_spec k k') as [->|Hne]; [done|]. intros H.
  change (dict_update d ((k', v') :: l)) with (dict_update (dict_set k' v' d) l).
  rewrite (IH _ H). by apply dict_get_set_ne.
Qed.

(** The last binding of a key wins. *)
Lemma dict_get_update_last k v d l1 l2 :
  dict_get k l2 = None -> dict_get k (dict_update d (l1 ++ (k, v) :: l2)) = Some v.
Proof.
  intros H. rewrite dict_update_app.
  change (dict_update ?d0 ((k, v) :: l2)) with (dict_update (dict_set k v d0) l2).
  rewrite (dict_get_update_None _ _ _ H). apply dict_get_set_eq.
Qed.

Lemma dict_get_update_Some k v d l :
  NoDup (dict_keys l) -> dict_get k l = Some v -> dict_get k (dict_update d l) = Some v.
Proof.
  intros Hnd Hget. apply dict_get_elem_of in Hget as Hin.
  apply list_elem_of_split in Hin as (l1 & l2 & ->).
  apply dict_get_update_last. apply dict_get_None.
  unfold dict_keys in *. rewrite fmap_app in Hnd. simpl in Hnd.
  apply NoDup_app in Hnd as (_ & _ & Hnd). by apply NoDup_cons in Hnd as [? _].
Qed.

Lemma dict_get_update_origin k v d l :
  dict_get k (dict_update d l) = Some v -> dict_get k d = Some v \/ (k, v) ∈ l.
Proof.
  revert d. induction l as [|[k' v'] l IH]; intros d; [by left|].
  change (dict_update d ((k', v') :: l)) with (dict_update (dict_set k' v' d) l).
  intros [Hd|Hin]%IH; [|right; by apply list_elem_of_further].
  destruct (decide (k' = k)) as [->|Hne].
  - rewrite dict_get_set_eq in Hd. simplify_eq. right. apply list_elem_of_here.
  - left. by rewrite dict_get_set_ne in Hd.
Qed.

Lemma NoDup_keys_add k (ks : list string) : NoDup ks -> NoDup (keys_add k ks).
Proof.
  intros Hnd. unfold keys_add. case_bool_decide; [done|].
  apply NoDup_app. split_and!; [done| |apply NoDup_singleton].
  intros x Hx ->%list_elem_of_singleton. done.
Qed.

Lemma NoDup_dict_update d l : NoDup (dict_keys d) -> NoDup (dict_keys (dict_update d l)).
Proof.
  rewrite dict_keys_update. generalize (dict_keys d) as ks.
  induction (l.*1) as [|k ks' IH]; intros ks Hnd; [done|].
  simpl. apply IH. by apply NoDup_keys_add.
Qed.

End DictFacts.

Lemma dict_get_fmap {V W} (f : string -> V -> W) k (d : list (string * V)) :
  dict_get k ((fun kv => (kv.1, f kv.1 kv.2)) <$> d) = f k <$> dict_get k d.
Proof.
  induction d as [|[k' v'] d IH]; simpl; [done|].
  by destruct (String.eqb_spec k k') as [->|].
Qed.

Lemma dict_keys_fmap {V W} (f : string -> V -> W) (d : list (string * V)) :
  dict_keys ((fun kv => (kv.1, f kv.1 kv.2)) <$> d) = dict_keys d.
Proof. unfold dict_keys. rewrite <-list_fmap_compose. by apply list_fmap_ext. Qed.

(** ** Type resolver *)

Lemma recognized_container_spec outer :
  recognized_container outer = true <-> outer ∈ recognized_names.
Proof. unfold recognized_container. apply bool_decide_eq_true. Qed.

Lemma resolve_type_generic outer slice :
  outer ∈ recognized_names -> inner_shape slice ->
  resolve_type (Subscript (Name outer) slice)
  = outer +:+ "[" +:+ resolve_type slice +:+ "]".
Proof.
  intros Hrec%recognized_container_spec Hshape.
  destruct slice; try done; cbn [resolve_type]; by rewrite Hrec.
Qed.

Lemma resolve_type_complex value slice :
  ~ generic_shape value slice -> resolve_type (Subscript value slice) = "ComplexType".
Proof.
  intros Hno. destruct value as [outer| | | | |]; try done.
  cbn [resolve_type]. destruct (recognized_container outer) eqn:Hrec; [|done].
  apply recognized_container_spec in Hrec.
  destruct slice; try done; exfalso; apply Hno; by exists outer.
Qed.

Lemma classic_generic value slice :
  generic_shape value slice \/ ~ generic_shape value slice.
Proof.
  destruct value as [outer| | | | |];
    try (right; intros (? & ? & _); discriminate).
  destruct (decide (outer ∈ recognized_names)) as [Hrec|Hrec].
  - destruct slice; try (left; by exists outer);
      right; intros (? & _ & _ & []).
  - right. intros (? & [= <-] & ? & _). done.
Qed.

Lemma resolve_type_sound annotation : resolves_to annotation (resolve_type annotation).
Proof.
  induction annotation as [id|value _ attr|value _ slice IH|elts|repr|].
  - apply resolves_name.
  - apply resolves_attribute.
  - destruct (classic_generic value slice) as [(outer & -> & Hrec & Hshape)|Hno].
    + rewrite resolve_type_generic by done. by apply resolves_generic.
    + rewrite resolve_type_complex by done. by apply resolves_complex.
  - by apply resolves_unknown.
  - by apply resolves_unknown.
  - by apply resolves_unknown.
Qed.

Lemma resolve_type_complete annotation s :
  resolves_to annotation s -> s = resolve_type annotation.
Proof.
  induction 1 as [id|value attr|outer slice inner Hrec Hshape _ IH|value slice Hno|a Hun].
  - done.
  - done.
  - rewrite resolve_type_generic by done. by rewrite IH.
  - by rewrite resolve_type_complex.
  - by destruct a.
Qed.

(** C3. Type resolution is total and follows the spec's rules: every
    annotation resolves to a string, namely the one the rules name (a bare
    name to itself, a qualified attribute to its trailing name, a recognized
    generic over a name, subscript or attribute to [Outer[Inner]] with
    [Inner] resolved recursively, any other subscript to [ComplexType], any
    other shape to [Unknown]), and to no other. *)
Theorem resolve_type_total (annotation : expr) :
  (exists s, resolve_type annotation = s /\ resolves_to annotation s)
  /\ (forall s, resolves_to annotation s <-> s = resolve_type annotation).
Proof.
  split.
  - exists (resolve_type annotation). split; [done|apply resolve_type_sound].
  - intros s. split; [apply resolve_type_complete|].
    intros ->. apply resolve_type_sound.
Qed.

(** ** Normalization *)

Lemma normalize_type_plain s : PyStr.contains "[" s = false -> normalize_type s = s.
Proof. intros H. unfold normalize_type. by rewrite H. Qed.

Lemma generic_descriptor_shape outer inner t :
  (outer +:+ "[" +:+ inner +:+ "]") +:+ t = outer +:+ String "[" (inner +:+ String "]" t).
Proof. by rewrite !app_assoc_str. Qed.

Lemma all_char_rstrip c t : all_char c t = true -> PyStr.rstrip c t = EmptyString.
Proof.
  induction t as [|a t IH]; simpl; [done|].
  intros [Ha Ht]%andb_true_iff. by rewrite (IH Ht), Ha.
Qed.

Lemma all_char_contains c c' t :
  Ascii.eqb c c' = false -> all_char c t = true -> PyStr.contains c' t = false.
Proof.
  intros Hne. induction t as [|a t IH]; simpl; [done|].
  intros [Ha Ht]%andb_true_iff. apply Ascii.eqb_eq in Ha as ->.
  by rewrite Hne, IH.
Qed.

Lemma bracket_free_spec s :
  bracket_free s = true <-> PyStr.contains "[" s = false /\ PyStr.contains "]" s = false.
Proof.
  unfold bracket_free. rewrite andb_true_iff, !negb_true_iff. done.
Qed.

(** On a single-level descriptor [Outer[Inner]] the code and the spec's
    words agree: both give [Inner]. *)
Lemma normalize_type_single_level outer inner :
  PyStr.contains "[" outer = false -> bracket_free inner = true ->
  normalize_type (outer +:+ "[" +:+ inner +:+ "]") = inner.
Proof.
  intros Houter [Hopen Hclose]%bracket_free_spec.
  pose proof (generic_descriptor_shape outer inner EmptyString) as Hshape.
  rewrite app_empty_r in Hshape. rewrite Hshape.
  unfold normalize_type.
  assert (PyStr.contains "[" (outer +:+ String "[" (inner +:+ "]")) = true) as ->.
  { rewrite contains_app. apply orb_true_r. }
  rewrite split_app, (split_no_sep _ outer Houter).
  rewrite (split_no_sep _ (inner +:+ "]")) by (by rewrite contains_app, Hopen).
  change (PyStr.item_1 ([outer] ++ [inner +:+ "]"])) with (inner +:+ "]").
  rewrite rstrip_app. change (PyStr.rstrip "]" "]") with EmptyString.
  by apply rstrip_no_char.
Qed.

Lemma after_first_app c s t :
  PyStr.contains c s = false -> SpecWords.after_first c (s +:+ String c t) = t.
Proof.
  induction s as [|a s IH].
  - intros _. rewrite app_empty_l. simpl. by rewrite Ascii.eqb_refl.
  - rewrite app_cons. simpl. destruct (Ascii.eqb a c); [done|]. apply IH.
Qed.

Lemma before_last_app c s :
  PyStr.contains c s = false -> SpecWords.before_last c (s +:+ String c EmptyString) = s.
Proof.
  induction s as [|a s IH].
  - intros _. rewrite app_empty_l. simpl. by rewrite Ascii.eqb_refl.
  - rewrite app_cons. simpl. destruct (Ascii.eqb a c); [done|]. intros H.
    rewrite contains_app, H. simpl. rewrite Ascii.eqb_refl. by rewrite (IH H).
Qed.

Lemma between_brackets_single_level outer inner :
  PyStr.contains "[" outer = false -> bracket_free inner = true ->
  SpecWords.between_brackets (outer +:+ "[" +:+ inner +:+ "]") = inner.
Proof.
  intros Houter [Hopen Hclose]%bracket_free_spec.
  pose proof (generic_descriptor_shape outer inner EmptyString) as Hshape.
  rewrite app_empty_r in Hshape. rewrite Hshape.
  unfold SpecWords.between_brackets.
  rewrite after_first_app by done. by apply before_last_app.
Qed.

(** C4. On the descriptor the resolver gives for [List[Optional[Foo]]],
    [normalize_type] returns [Optional]: the piece between the first and
    the second '[', not the substring between the first '[' and the last
    ']' (which is [Optional[Foo]]). *)
Theorem normalize_type_nested_generic :
  resolve_type list_optional_foo = "List[Optional[Foo]]"
  /\ normalize_type "List[Optional[Foo]]" = "Optional"
  /\ SpecWords.between_brackets "List[Optional[Foo]]" = "Optional[Foo]".
Proof. by vm_compute. Qed.

(** ** Nested-model detection *)

Lemma last_segment_plain x t :
  bracket_free x = true -> all_char "]" t = true ->
  PyStr.rstrip "]" (PyStr.item_last (PyStr.split "[" (x +:+ t))) = x.
Proof.
  intros [Hopen Hclose]%bracket_free_spec Ht.
  rewrite split_no_sep.
  2:{ rewrite contains_app, Hopen. by apply (all_char_contains "]"). }
  change (PyStr.item_last [x +:+ t]) with (x +:+ t).
  rewrite rstrip_app, (all_char_rstrip _ _ Ht). by apply rstrip_no_char.
Qed.

Lemma last_segment_generic outer inner t :
  PyStr.item_last (PyStr.split "[" ((outer +:+ "[" +:+ inner +:+ "]") +:+ t))
  = PyStr.item_last (PyStr.split "[" (inner +:+ String "]" t)).
Proof.
  rewrite generic_descriptor_shape, split_app.
  apply item_last_app, split_nonempty.
Qed.

(** After the last '[' of a resolved descriptor, and before the closing
    brackets, stands the innermost name. *)
Lemma last_segment_core annotation :
  plain_names annotation = true ->
  forall t, all_char "]" t = true ->
  PyStr.rstrip "]" (PyStr.item_last (PyStr.split "[" (resolve_type annotation +:+ t)))
  = core_name annotation.
Proof.
  induction annotation as [id|value _ attr|value _ slice IH|elts|repr|];
    intros Hplain t Ht; try (by apply last_segment_plain).
  destruct value as [outer| | | | |]; try (by apply last_segment_plain).
  cbn [resolve_type core_name].
  destruct (recognized_container outer); [|by apply last_segment_plain].
  assert (all_char "]" (String "]" t) = true) as Ht' by done.
  destruct slice as [id|value' attr|value' slice'|elts|repr|];
    try (by apply last_segment_plain).
  - rewrite last_segment_generic. by apply last_segment_plain.
  - rewrite last_segment_generic. by apply last_segment_plain.
  - rewrite last_segment_generic. by apply IH.
Qed.

Lemma inner_model_generic (cds : dict class_node) attr_type :
  PyStr.contains "[" attr_type = true ->
  inner_model_of cds attr_type
  = Some (PyStr.rstrip "]" (PyStr.item_last (PyStr.split "[" attr_type))).
Proof. intros H. unfold inner_model_of. by rewrite H. Qed.

Lemma scan_child_generic (cds : dict class_node) class_name attributes rels attr_name annotation :
  PyStr.contains "[" (resolve_type annotation) = true ->
  let attr_type := resolve_type annotation in
  let target := PyStr.rstrip "]" (PyStr.item_last (PyStr.split "[" attr_type)) in
  scan_child cds class_name (attributes, rels) (AnnAssign (Name attr_name) annotation)
  = if PyStr.truthy target
    then (attributes ++ [(attr_name, attr_type, true)],
          rels ++ [(class_name, attr_name, target)])
    else (attributes ++ [(attr_name, attr_type, false)], rels).
Proof.
  intros H. cbn [scan_child]. rewrite (inner_model_generic _ _ H).
  cbn [inner_model_truthy default from_option]. done.
Qed.

Lemma nested_target_core (cds : dict class_node) class_name attr_name attributes rels
    annotation :
  PyStr.contains "[" (resolve_type annotation) = true ->
  plain_names annotation = true ->
  PyStr.truthy (core_name annotation) = true ->
  dict_in (core_name annotation) cds = true ->
  scan_child cds class_name (attributes, rels) (AnnAssign (Name attr_name) annotation)
  = (attributes ++ [(attr_name, resolve_type annotation, true)],
     rels ++ [(class_name, attr_name, core_name annotation)]).
Proof.
  intros Hgen Hplain Htruthy Hin.
  rewrite (scan_child_generic _ _ _ _ _ _ Hgen). cbn zeta.
  pose proof (last_segment_core annotation Hplain EmptyString eq_refl) as Hcore.
  rewrite app_empty_r in Hcore. by rewrite Hcore, Htruthy.
Qed.

(** C5, as the code has it. For a field whose resolved descriptor holds a
    '[', the inner model is what follows the last '[' of the descriptor,
    its trailing ']' removed: every NestedReference recorded for the field
    has that target, exactly one is recorded when that target is a
    collected class, for a descriptor built by the resolver from plain
    identifiers it is the innermost name ([Foo] for [List[Optional[Foo]]]),
    and for a single-level descriptor [Outer[Inner]] it is the substring
    between the first '[' and the last ']'. *)
Theorem nested_target_is_last_segment (cds : dict class_node)
    (class_name attr_name : string) (attributes : list FieldRecord)
    (rels : list NestedReference) (annotation : expr) :
  PyStr.contains "[" (resolve_type annotation) = true ->
  let attr_type := resolve_type annotation in
  let target := PyStr.rstrip "]" (PyStr.item_last (PyStr.split "[" attr_type)) in
  let out := scan_child cds class_name (attributes, rels)
                        (AnnAssign (Name attr_name) annotation) in
  inner_model_of cds attr_type = Some target
  /\ (exists new, out.2 = rels ++ new
                  /\ forall r, r ∈ new -> r = (class_name, attr_name, target))
  /\ (dict_in target cds = true -> PyStr.truthy target = true ->
      out = (attributes ++ [(attr_name, attr_type, true)],
             rels ++ [(class_name, attr_name, target)]))
  /\ (plain_names annotation = true -> target = core_name annotation)
  /\ (forall outer inner,
        attr_type = outer +:+ "[" +:+ inner +:+ "]" ->
        PyStr.contains "[" outer = false -> bracket_free inner = true ->
        target = inner /\ SpecWords.between_brackets attr_type = inner).
Proof.
  intros H attr_type target out. split_and!.
  - by apply inner_model_generic.
  - subst out. rewrite (scan_child_generic _ _ _ _ _ _ H). fold attr_type. fold target.
    destruct (PyStr.truthy target).
    + exists [(class_name, attr_name, target)]. split; [done|].
      by intros r ->%list_elem_of_singleton.
    + exists []. split; [by rewrite app_nil_r|]. by intros r ?%elem_of_nil.
  - intros _ Htruthy. subst out. rewrite (scan_child_generic _ _ _ _ _ _ H).
    fold attr_type. fold target. by rewrite Htruthy.
  - intros Hplain. subst target attr_type.
    rewrite <-(last_segment_core annotation Hplain EmptyString) by done.
    by rewrite app_empty_r.
  - intros outer inner Hty Houter Hinner. subst target. rewrite Hty. split.
    + rewrite <-(app_empty_r (outer +:+ "[" +:+ inner +:+ "]")).
      rewrite last_segment_generic. by apply last_segment_plain.
    + by apply between_brackets_single_level.
Qed.

Lemma nested_target_is_last_segment_witness :
  PyStr.contains "[" (resolve_type list_optional_foo) = true
  /\ (scan_child (class_definitions sample_nested_tree) "A" ([], [])
                 (AnnAssign (Name "x") list_optional_foo)).2
     = [("A", "x", "Foo")].
Proof.
  split; [reflexivity|].
  pose proof (nested_target_is_last_segment (class_definitions sample_nested_tree)
                "A" "x" [] [] list_optional_foo eq_refl) as (_ & _ & Hout & _).
  rewrite Hout; reflexivity.
Defined.

(** C5, as the claim words it, fails: for [x: List[Optional[Foo]]] the
    recorded target is [Foo], while the substring between the first '[' and
    the last ']' of the descriptor is [Optional[Foo]]. *)
Lemma nested_target_not_between_brackets :
  ~ (forall (cds : dict class_node) class_name attr_name attributes rels annotation,
        PyStr.contains "[" (resolve_type annotation) = true ->
        forall r, r ∈ (scan_child cds class_name (attributes, rels)
                                  (AnnAssign (Name attr_name) annotation)).2 ->
                  r ∈ rels
                  \/ r.2 = SpecWords.between_brackets (resolve_type annotation)).
Proof.
  intros Hclaim.
  destruct (Hclaim (class_definitions sample_nested_tree) "A" "x" [] [] list_optional_foo
                   eq_refl ("A", "x", "Foo")) as [Hin|Heq].
  - vm_compute. apply list_elem_of_here.
  - by apply elem_of_nil in Hin.
  - vm_compute in Heq. discriminate.
Qed.

(** A generic field over a collected class: one NestedReference, and the
    field is marked nested. *)
Lemma generic_field_of_known_class (cds : dict class_node) class_name attr_name
    attributes rels outer foo :
  outer ∈ recognized_names -> bracket_free foo = true -> PyStr.truthy foo = true ->
  dict_in foo cds = true ->
  scan_child cds class_name (attributes, rels)
             (AnnAssign (Name attr_name) (Subscript (Name outer) (Name foo)))
  = (attributes ++ [(attr_name, outer +:+ "[" +:+ foo +:+ "]", true)],
     rels ++ [(class_name, attr_name, foo)]).
Proof.
  intros Hrec Hfree Htruthy Hin.
  set (annotation := Subscript (Name outer) (Name foo)).
  assert (resolve_type annotation = outer +:+ "[" +:+ foo +:+ "]") as Hty.
  { unfold annotation. by rewrite (resolve_type_generic outer (Name foo)). }
  assert (PyStr.contains "[" (resolve_type annotation) = true) as Hgen.
  { rewrite Hty, !contains_app. simpl. by rewrite !orb_true_r. }
  pose proof (nested_target_core cds class_name attr_name attributes rels annotation Hgen)
    as Hcore.
  assert (core_name annotation = foo) as Hfoo.
  { unfold annotation. cbn [core_name].
    by apply recognized_container_spec in Hrec as ->. }
  rewrite Hty, Hfoo in Hcore. by apply Hcore.
Qed.

(** C2. For [class A: xs: List[str]] in a file that defines no class
    [str], the extractor marks the field nested and records the
    NestedReference [(A, xs, str)]: the generic branch never consults the
    class table. *)
Theorem list_of_unknown_class_marked_nested :
  resolve_type list_str = "List[str]"
  /\ dict_in "str" (class_definitions sample_list_str_tree) = false
  /\ classes (extract_tree "a.py" sample_list_str_tree)
     = [("A", [("xs", "List[str]", true)])]
  /\ nested_relationships (extract_tree "a.py" sample_list_str_tree)
     = [("A", "xs", "str")].
Proof. by vm_compute. Qed.

(** ** File extractor *)

Lemma scan_children (cds : dict class_node) class_name body attributes rels :
  fold_left (scan_child cds class_name) body (attributes, rels)
  = (attributes ++ class_fields cds body, rels ++ class_refs cds class_name body).
Proof.
  revert attributes rels. induction body as [|child body IH]; intros attributes rels.
  - by rewrite !app_nil_r.
  - cbn [fold_left]. unfold class_fields, class_refs in *.
    destruct child as [| |target annotation|]; try apply IH.
    destruct target as [attr_name| | | | |]; try apply IH.
    cbn [scan_child omap list_omap field_of ref_of].
    destruct (inner_model_truthy (inner_model_of cds (resolve_type annotation)));
      rewrite IH; cbn [omap]; by rewrite <-?app_assoc.
Qed.

Lemma check_bases bases flag :
  fold_left check_base bases flag = flag || existsb is_base_marker bases.
Proof.
  revert flag. induction bases as [|base bases IH]; intros flag; simpl.
  - by rewrite orb_false_r.
  - rewrite IH. destruct base; simpl; try done;
      match goal with |- context [String.eqb ?a ?b] => destruct (String.eqb a b) end;
      by rewrite ?orb_true_r, ?orb_true_l.
Qed.

Lemma scan_classes file_path (cds l : dict class_node) (st : extraction) :
  fold_left (scan_class file_path cds) l st
  = {| classes :=
         dict_update (classes st) ((fun kv => (kv.1, class_fields cds kv.2.2)) <$> l);
       base_models := base_models st ∪ list_to_set (base_names l);
       nested_relationships :=
         nested_relationships st ++ (l ≫= fun kv => class_refs cds kv.1 kv.2.2);
       file_to_class_map :=
         dict_update (file_to_class_map st) ((fun kv => (kv.1, file_path)) <$> l) |}.
Proof.
  revert st. induction l as [|[class_name [bases body]] l IH]; intros st.
  - destruct st. cbn. f_equal; [set_solver|by rewrite app_nil_r].
  - cbn [fold_left]. rewrite IH. unfold scan_class at 1 2 3 4.
    rewrite scan_children, check_bases. cbn [orb app classes base_models
      nested_relationships file_to_class_map fst snd].
    rewrite fmap_cons, bind_cons, fmap_cons. cbn [fst snd].
    f_equal.
    + unfold base_names. cbn [List.filter snd fst].
      destruct (existsb is_base_marker bases); [rewrite fmap_cons|]; set_solver.
    + by rewrite <-app_assoc.
Qed.

Lemma class_definitions_NoDup tree : NoDup (dict_keys (class_definitions tree)).
Proof. apply NoDup_dict_update. apply NoDup_nil_2. Qed.

Lemma extract_tree_eq file_path tree :
  let cds := class_definitions tree in
  extract_tree file_path tree
  = {| classes := (fun kv => (kv.1, class_fields cds kv.2.2)) <$> cds;
       base_models := list_to_set (base_names cds);
       nested_relationships := cds ≫= (fun kv => class_refs cds kv.1 kv.2.2);
       file_to_class_map := (fun kv => (kv.1, file_path)) <$> cds |}.
Proof.
  intros cds. unfold extract_tree. fold cds. rewrite scan_classes.
  pose proof (class_definitions_NoDup tree) as Hnd. fold cds in Hnd.
  cbn [classes base_models nested_relationships file_to_class_map empty_extraction].
  rewrite !dict_update_fresh; rewrite ?app_nil_l.
  - f_equal. set_solver.
  - by rewrite (dict_keys_fmap (fun _ _ => file_path)).
  - by rewrite (dict_keys_fmap (fun _ node => class_fields cds node.2)).
Qed.

Lemma extract_tree_classes file_path tree n :
  dict_get n (classes (extract_tree file_path tree))
  = (fun node => class_fields (class_definitions tree) node.2)
      <$> dict_get n (class_definitions tree).
Proof.
  rewrite extract_tree_eq. cbn [classes].
  apply (dict_get_fmap (fun _ node => class_fields (class_definitions tree) node.2)).
Qed.

Lemma extract_tree_file_map file_path tree n :
  dict_get n (file_to_class_map (extract_tree file_path tree))
  = (fun _ => file_path) <$> dict_get n (class_definitions tree).
Proof.
  rewrite extract_tree_eq. cbn [file_to_class_map].
  apply (dict_get_fmap (fun _ _ => file_path)).
Qed.

Lemma extract_tree_keys file_path tree :
  dict_keys (classes (extract_tree file_path tree)) = dict_keys (class_definitions tree)
  /\ dict_keys (file_to_class_map (extract_tree file_path tree))
     = dict_keys (class_definitions tree).
Proof.
  rewrite extract_tree_eq. cbn [classes file_to_class_map]. split.
  - apply (dict_keys_fmap (fun _ node => class_fields (class_definitions tree) node.2)).
  - apply (dict_keys_fmap (fun _ _ => file_path)).
Qed.
(** ** Duplicate class names within one file *)

Section Shadowing.
Context {V : Type}.
Implicit Types (d l : list (string * V)).

Lemma differ_at_set n (v1 v2 : V) d : differ_at n (dict_set n v1 d) (dict_set n v2 d).
Proof.
  induction d as [|[k v] d IH]; cbn [dict_set].
  - apply differ_here.
  - destruct (String.eqb_spec n k) as [->|Hne]; [apply differ_here|].
    apply differ_skip; [cbn [fst]; congruence|done].
Qed.

Lemma differ_at_set_other n k (v : V) d d' :
  k ≠ n -> differ_at n d d' -> differ_at n (dict_set k v d) (dict_set k v d').
Proof.
  intros Hne. induction 1 as [v1 v2 d|[k0 v0] d d' Hk0 Hdiff IH]; cbn [dict_set].
  - destruct (String.eqb_spec k n); [done|]. apply differ_here.
  - destruct (String.eqb_spec k k0) as [->|]; by apply differ_skip.
Qed.

Lemma differ_at_set_same n (v : V) d d' :
  differ_at n d d' -> dict_set n v d = dict_set n v d'.
Proof.
  induction 1 as [v1 v2 d|[k0 v0] d d' Hk0 Hdiff IH]; cbn [dict_set].
  - by rewrite String.eqb_refl.
  - cbn [fst] in Hk0. destruct (String.eqb_spec n k0) as [->|]; [done|]. by rewrite IH.
Qed.

(** A binding that a later item overwrites leaves no trace. *)
Lemma dict_update_differ n d d' l :
  n ∈ dict_keys l -> differ_at n d d' -> dict_update d l = dict_update d' l.
Proof.
  unfold dict_keys. revert d d'. induction l as [|[k v] l IH]; intros d d'.
  - by intros ?%elem_of_nil.
  - rewrite fmap_cons, elem_of_cons. cbn [fst]. intros Hin Hdiff.
    change (dict_update ?d0 ((k, v) :: l)) with (dict_update (dict_set k v d0) l).
    destruct (decide (k = n)) as [->|Hne].
    + by rewrite (differ_at_set_same n v d d').
    + apply IH; [|by apply differ_at_set_other]. by destruct Hin as [->|].
Qed.

Lemma dict_update_shadowed n (v1 v2 : V) d l1 l2 :
  n ∈ dict_keys l2 ->
  dict_update d (l1 ++ (n, v1) :: l2) = dict_update d (l1 ++ (n, v2) :: l2).
Proof.
  intros Hin. rewrite !dict_update_app.
  change (dict_update ?d0 ((n, ?v) :: l2)) with (dict_update (dict_set n v d0) l2).
  apply (dict_update_differ n); [done|apply differ_at_set].
Qed.

End Shadowing.

Lemma class_items_app tree1 tree2 :
  class_items (tree1 ++ tree2) = class_items tree1 ++ class_items tree2.
Proof. apply omap_app. Qed.

Lemma class_items_class name bases body tree :
  class_items (ClassDef name bases body :: tree) = (name, (bases, body)) :: class_items tree.
Proof. done. Qed.

Lemma class_definitions_shadowed pre n bases body bases' body' rest :
  n ∈ dict_keys (class_items rest) ->
  class_definitions (pre ++ ClassDef n bases body :: rest)
  = class_definitions (pre ++ ClassDef n bases' body' :: rest).
Proof.
  intros Hin. unfold class_definitions.
  rewrite !class_items_app, !class_items_class. by apply dict_update_shadowed.
Qed.

Lemma class_definitions_last pre n bases body post :
  n ∉ dict_keys (class_items post) ->
  dict_get n (class_definitions (pre ++ ClassDef n bases body :: post)) = Some (bases, body).
Proof.
  intros Hnin. unfold class_definitions.
  rewrite class_items_app, class_items_class.
  apply dict_get_update_last. by apply dict_get_None.
Qed.

Lemma class_refs_source (cds : dict class_node) class_name body r :
  r ∈ class_refs cds class_name body -> ref_source r = class_name.
Proof.
  unfold class_refs. intros (child & _ & Href)%list_elem_of_omap.
  destruct child as [| |target annotation|]; try done.
  destruct target; try done. cbn [ref_of] in Href.
  destruct (inner_model_truthy _); by simplify_eq.
Qed.

Lemma base_models_spec file_path tree n :
  n ∈ base_models (extract_tree file_path tree)
  <-> exists node, dict_get n (class_definitions tree) = Some node
                   /\ existsb is_base_marker node.1 = true.
Proof.
  rewrite extract_tree_eq. cbn [base_models]. unfold base_names.
  rewrite elem_of_list_to_set, list_elem_of_fmap.
  pose proof (class_definitions_NoDup tree) as Hnd.
  split.
  - intros ([k node] & -> & [Hbase Hin]%elem_of_List_filter).
    exists node. split; [by apply dict_get_unique|done].
  - intros (node & Hget%dict_get_elem_of & Hbase).
    exists (n, node). split; [done|]. by apply elem_of_List_filter.
Qed.

Lemma nested_relationships_spec file_path tree r :
  r ∈ nested_relationships (extract_tree file_path tree)
  <-> exists node, dict_get (ref_source r) (class_definitions tree) = Some node
                   /\ r ∈ class_refs (class_definitions tree) (ref_source r) node.2.
Proof.
  rewrite extract_tree_eq. cbn [nested_relationships].
  rewrite list_elem_of_bind.
  pose proof (class_definitions_NoDup tree) as Hnd.
  split.
  - intros ([k node] & Hr & Hin). cbn [fst snd] in Hr.
    rewrite (class_refs_source _ _ _ _ Hr). exists node.
    split; [by apply dict_get_unique|done].
  - intros (node & Hget%dict_get_elem_of & Hr). by exists (ref_source r, node).
Qed.

(** C10. When a file defines a class name twice, the last definition is
    the one extracted: the class's FieldRecords, its base-model flag and
    the NestedReferences leaving it are those of the last definition, and
    the extraction result is the same whatever the earlier definition's
    bases and body are. *)
Theorem duplicate_class_last_wins (file_path : string) (pre mid post : list stmt)
    (n : string) (bases1 bases2 : list expr) (body1 body2 : list stmt) :
  n ∉ dict_keys (class_items post) ->
  let tree := pre ++ ClassDef n bases1 body1 :: mid ++ ClassDef n bases2 body2 :: post in
  let cds := class_definitions tree in
  let e := extract_tree file_path tree in
  dict_get n cds = Some (bases2, body2)
  /\ dict_get n (classes e) = Some (class_fields cds body2)
  /\ (n ∈ base_models e <-> existsb is_base_marker bases2 = true)
  /\ (forall r, r ∈ nested_relationships e -> ref_source r = n ->
                r ∈ class_refs cds n body2)
  /\ (forall bases1' body1',
        extract_tree file_path
          (pre ++ ClassDef n bases1' body1' :: mid ++ ClassDef n bases2 body2 :: post)
        = e).
Proof.
  intros Hlast tree cds e.
  assert (dict_get n cds = Some (bases2, body2)) as Hget.
  { subst cds tree.
    replace (pre ++ ClassDef n bases1 body1 :: mid ++ ClassDef n bases2 body2 :: post)
      with ((pre ++ ClassDef n bases1 body1 :: mid) ++ ClassDef n bases2 body2 :: post)
      by (by rewrite <-app_assoc).
    by apply class_definitions_last. }
  split_and!.
  - done.
  - subst e. rewrite extract_tree_classes. fold cds. by rewrite Hget.
  - subst e. rewrite base_models_spec. fold cds. rewrite Hget. split.
    + by intros (node & [= <-] & Hbase).
    + intros Hbase. by exists (bases2, body2).
  - intros r (node & Hnode & Hr)%nested_relationships_spec Hsrc.
    fold cds in Hnode, Hr. rewrite Hsrc, Hget in Hnode. rewrite Hsrc in Hr.
    by simplify_eq.
  - intros bases1' body1'. subst e tree. unfold extract_tree.
    rewrite (class_definitions_shadowed pre n bases1' body1' bases1 body1); [done|].
    rewrite class_items_app, class_items_class. unfold dict_keys.
    rewrite fmap_app, fmap_cons. apply elem_of_app. right. apply list_elem_of_here.
Qed.

Lemma duplicate_class_last_wins_witness :
  dict_get "A"
    (classes (extract_tree "m.py"
                [ClassDef "A" [Name "BaseModel"] [AnnAssign (Name "x") (Name "int")];
                 ClassDef "B" [] [];
                 ClassDef "A" [] [AnnAssign (Name "y") (Name "B")]]))
  = Some [("y", "B", true)].
Proof.
  refine (proj1 (proj2 (duplicate_class_last_wins "m.py" [] [ClassDef "B" [] []] [] "A"
                          [Name "BaseModel"] [] [AnnAssign (Name "x") (Name "int")]
                          [AnnAssign (Name "y") (Name "B")] _))).
  vm_compute. apply not_elem_of_nil.
Defined.

(** ** Loops that may raise *)

Lemma result_bind_Ok {A B} (a : A) (k : A -> result B) : (Ok a ≫= k) = k a.
Proof. done. Qed.

Lemma result_bind_Raise {A B} e (k : A -> result B) : (Raise e ≫= k) = Raise e.
Proof. done. Qed.

Lemma for_each_app {S A} (body : S -> A -> result S) l1 l2 s :
  for_each body (l1 ++ l2) s = s' ← for_each body l1 s; for_each body l2 s'.
Proof.
  revert s. induction l1 as [|x l1 IH]; intros s; [done|].
  cbn [app for_each]. destruct (body s x) as [s'|e]; [exact (IH _)|done].
Qed.

Lemma for_each_raise {S A} (body : S -> A -> result S) l1 x l2 s :
  (forall s', exists e, body s' x = Raise e) ->
  exists e, for_each body (l1 ++ x :: l2) s = Raise e.
Proof.
  intros Hx. rewrite for_each_app.
  destruct (for_each body l1 s) as [s'|e]; [|by exists e].
  destruct (Hx s') as [e He]. exists e. cbn. by rewrite He.
Qed.

(** ** Folder aggregator *)

Section Aggregator.
Variable parse : string -> result (list stmt).
Variable fs : string -> string.

Lemma analyze_inner_flat root files all :
  for_each (fun all file =>
              if PyStr.endswith file ".py" then
                e ← extract_classes_with_nested_models parse fs (os_path_join root file);
                mret (merge all e)
              else mret all) files all
  = for_each (merge_file parse fs)
             (file ← files; if PyStr.endswith file ".py" then [os_path_join root file] else [])
             all.
Proof.
  revert all. induction files as [|file files IH]; intros all; [done|].
  rewrite bind_cons. cbn [for_each]. destruct (PyStr.endswith file ".py").
  - cbn [app for_each].
    change (merge_file parse fs all (os_path_join root file))
      with (e ← extract_classes_with_nested_models parse fs (os_path_join root file);
            mret (merge all e)).
    destruct (extract_classes_with_nested_models parse fs (os_path_join root file));
      [exact (IH _)|done].
  - exact (IH _).
Qed.

(** The two nested loops visit [py_files walk], in order. *)
Lemma analyze_flat walk :
  analyze_models_folder parse fs walk
  = for_each (merge_file parse fs) (py_files walk) empty_extraction.
Proof.
  unfold analyze_models_folder, py_files. generalize empty_extraction as all.
  induction walk as [|[root files] walk IH]; intros all; [done|].
  rewrite bind_cons, for_each_app. cbn [for_each].
  rewrite analyze_inner_flat.
  destruct (for_each _ _ all) as [all'|e]; [exact (IH _)|done].
Qed.

Lemma merge_file_parsed all file_path tree :
  parse (fs file_path) = Ok tree ->
  merge_file parse fs all file_path = Ok (merge all (extract_tree file_path tree)).
Proof.
  intros H. unfold merge_file, extract_classes_with_nested_models. by rewrite H.
Qed.

Lemma merge_file_unparsed all file_path e :
  parse (fs file_path) = Raise e -> merge_file parse fs all file_path = Raise e.
Proof.
  intros H. unfold merge_file, extract_classes_with_nested_models. by rewrite H.
Qed.

Lemma merge_file_Ok all file_path all' :
  merge_file parse fs all file_path = Ok all' <->
  exists e, extracted parse fs file_path e /\ all' = merge all e.
Proof.
  unfold merge_file, extract_classes_with_nested_models, extracted.
  destruct (parse (fs file_path)) as [tree|e]; cbn; split.
  - intros [= <-]. eauto.
  - by intros (e & (tree' & [= <-] & ->) & ->).
  - done.
  - by intros (? & (? & ? & _) & _).
Qed.

Lemma for_each_merge_Ok l all all' :
  for_each (merge_file parse fs) l all = Ok all' <->
  exists es, Forall2 (extracted parse fs) l es /\ all' = fold_left merge es all.
Proof.
  revert all. induction l as [|p l IH]; intros all; cbn [for_each].
  - split.
    + intros [= <-]. by exists [].
    + by intros (es & ->%Forall2_nil_inv_l & ->).
  - destruct (merge_file parse fs all p) as [all1|e] eqn:Hp; cbn.
    + apply merge_file_Ok in Hp as (e & He & ->). rewrite IH. split.
      * intros (es & Hes & ->). exists (e :: es). by split; [constructor|].
      * intros (es & (e' & es' & He' & Hes' & ->)%Forall2_cons_inv_l & ->).
        destruct He as (t & Ht & ->), He' as (t' & Ht' & ->).
        rewrite Ht in Ht'. simplify_eq. by exists es'.
    + split; [done|].
      intros (es & (e' & es' & He' & _ & _)%Forall2_cons_inv_l & _).
      assert (merge_file parse fs all p = Ok (merge all e')) as Hok
        by (apply merge_file_Ok; eauto).
      by rewrite Hp in Hok.
Qed.

Lemma analyze_Ok walk all :
  analyze_models_folder parse fs walk = Ok all <->
  exists es, Forall2 (extracted parse fs) (py_files walk) es
             /\ all = fold_left merge es empty_extraction.
Proof. rewrite analyze_flat. apply for_each_merge_Ok. Qed.

Lemma analyze_raise walk l1 p l2 e :
  py_files walk = l1 ++ p :: l2 -> parse (fs p) = Raise e ->
  exists e', analyze_models_folder parse fs walk = Raise e'.
Proof.
  intros Hwalk Hp. rewrite analyze_flat, Hwalk. apply for_each_raise.
  intros all. exists e. by apply merge_file_unparsed.
Qed.

Lemma for_each_merge_total l all :
  Forall (fun q => exists tree, parse (fs q) = Ok tree) l ->
  exists all', for_each (merge_file parse fs) l all = Ok all'.
Proof.
  intros Hl. revert all.
  induction Hl as [|q l [tree Hq] _ IH]; intros all; [by exists all|].
  cbn [for_each]. rewrite (merge_file_parsed _ _ _ Hq). exact (IH _).
Qed.

(** The aggregation returns when every visited file parses. *)
Lemma analyze_total walk :
  Forall (fun q => exists tree, parse (fs q) = Ok tree) (py_files walk) ->
  exists all, analyze_models_folder parse fs walk = Ok all.
Proof. rewrite analyze_flat. apply for_each_merge_total. Qed.

Lemma analyze_raise_first walk l1 p l2 e :
  py_files walk = l1 ++ p :: l2 ->
  Forall (fun q => exists tree, parse (fs q) = Ok tree) l1 ->
  parse (fs p) = Raise e ->
  analyze_models_folder parse fs walk = Raise e.
Proof.
  intros Hwalk Hl1 Hp. rewrite analyze_flat, Hwalk, for_each_app.
  destruct (for_each_merge_total l1 empty_extraction Hl1) as [all ->].
  rewrite result_bind_Ok. cbn [for_each]. by rewrite (merge_file_unparsed _ _ _ Hp).
Qed.

End Aggregator.

(** ** Merging extractions *)

Section MergeFacts.
Context {V : Type}.
Variable proj : extraction -> list (string * V).
Hypothesis proj_merge :
  forall all e, proj (merge all e) = dict_update (proj all) (proj e).

Lemma merge_fold_absent n es all :
  Forall (fun e => dict_get n (proj e) = None) es ->
  dict_get n (proj (fold_left merge es all)) = dict_get n (proj all).
Proof.
  intros Hes. revert all. induction Hes as [|e es He _ IH]; intros all; [done|].
  cbn [fold_left]. rewrite IH, proj_merge. by apply dict_get_update_None.
Qed.

(** The last file that binds [n] decides its entry. *)
Lemma merge_fold_last n v es1 e es2 all :
  NoDup (dict_keys (proj e)) -> dict_get n (proj e) = Some v ->
  Forall (fun e' => dict_get n (proj e') = None) es2 ->
  dict_get n (proj (fold_left merge (es1 ++ e :: es2) all)) = Some v.
Proof.
  intros Hnd Hget Hes2. rewrite fold_left_app. cbn [fold_left].
  rewrite (merge_fold_absent _ _ _ Hes2), proj_merge.
  by apply dict_get_update_Some.
Qed.

Lemma merge_fold_keys es all :
  dict_keys (proj (fold_left merge es all))
  = fold_left (fun ks k => keys_add k ks) (es ≫= fun e => dict_keys (proj e))
              (dict_keys (proj all)).
Proof.
  revert all. induction es as [|e es IH]; intros all; [done|].
  cbn [fold_left]. rewrite IH, proj_merge, dict_keys_update, bind_cons.
  by rewrite fold_left_app.
Qed.

Lemma merge_fold_NoDup es all :
  NoDup (dict_keys (proj all)) -> NoDup (dict_keys (proj (fold_left merge es all))).
Proof.
  revert all. induction es as [|e es IH]; intros all Hnd; [done|].
  cbn [fold_left]. apply IH. rewrite proj_merge. by apply NoDup_dict_update.
Qed.

(** Every entry of the merged table is an entry of some file's table. *)
Lemma merge_fold_origin n v es all :
  dict_get n (proj (fold_left merge es all)) = Some v ->
  dict_get n (proj all) = Some v \/ exists e, e ∈ es /\ (n, v) ∈ proj e.
Proof.
  revert all. induction es as [|e es IH]; intros all; [by left|].
  cbn [fold_left]. intros [Hall|(e' & He' & Hv)]%IH.
  - rewrite proj_merge in Hall. apply dict_get_update_origin in Hall as [Hall|Hin].
    + by left.
    + right. exists e. split; [apply list_elem_of_here|done].
  - right. exists e'. split; [by apply list_elem_of_further|done].
Qed.

End MergeFacts.

(** ** Inconsistency detector *)

Section Detector.
Variable class_to_file_map : dict string.
Implicit Types (st : list (string * gset string) * list (string * list string)).

Lemma index_inner_flat class_name (attributes : list FieldRecord) st :
  for_each (record_attribute class_to_file_map class_name) attributes st
  = for_each (record_occurrence class_to_file_map)
             ('(attr_name, attr_type, _) ← attributes;
              [(class_name, attr_name, attr_type)]) st.
Proof.
  revert st. induction attributes as [|[[attr_name attr_type] nested] attributes IH];
    intros st; [done|].
  rewrite bind_cons. cbn [app for_each].
  change (record_occurrence class_to_file_map st (class_name, attr_name, attr_type))
    with (record_attribute class_to_file_map class_name st (attr_name, attr_type, false)).
  assert (record_attribute class_to_file_map class_name st (attr_name, attr_type, nested)
          = record_attribute class_to_file_map class_name st (attr_name, attr_type, false))
    as -> by (by destruct st).
  destruct (record_attribute _ _ _ _); [exact (IH _)|done].
Qed.

Lemma index_flat (classes : dict (list FieldRecord)) :
  index_attributes classes class_to_file_map
  = for_each (record_occurrence class_to_file_map) (attr_occurrences classes) ([], []).
Proof.
  unfold index_attributes, attr_occurrences.
  generalize (@nil (string * gset string), @nil (string * list string)) as st.
  induction classes as [|[class_name attributes] classes IH]; intros st; [done|].
  rewrite bind_cons, for_each_app. cbn [for_each].
  rewrite index_inner_flat.
  destruct (for_each _ _ st); [exact (IH _)|done].
Qed.

Lemma record_occurrence_Ok st o st' :
  record_occurrence class_to_file_map st o = Ok st' <->
  exists file, dict_get o.1.1 class_to_file_map = Some file
    /\ st' = (dict_set o.1.2 (default ∅ (dict_get o.1.2 st.1) ∪ {[normalize_type o.2]}) st.1,
              dict_set o.1.2 (default [] (dict_get o.1.2 st.2) ++ [file]) st.2).
Proof.
  destruct st as [attribute_types attribute_files], o as [[class_name attr_name] attr_type].
  unfold record_occurrence, record_attribute. cbn [fst snd].
  destruct (dict_get class_name class_to_file_map) as [file|]; split.
  - intros [= <-]. by exists file.
  - by intros (file' & [= <-] & ->).
  - done.
  - by intros (? & ? & _).
Qed.

Lemma types_of_snoc name occs o :
  types_of name (occs ++ [o])
  = types_of name occs ++ (if String.eqb o.1.2 name then [normalize_type o.2] else []).
Proof. unfold types_of. rewrite bind_app, bind_cons. cbn [mbind list_bind]. by rewrite app_nil_r. Qed.

Lemma files_of_snoc name occs o :
  files_of class_to_file_map name (occs ++ [o])
  = files_of class_to_file_map name occs
    ++ (if String.eqb o.1.2 name then option_list (dict_get o.1.1 class_to_file_map) else []).
Proof. unfold files_of. rewrite bind_app, bind_cons. cbn [mbind list_bind]. by rewrite app_nil_r. Qed.

Lemma recorded_snoc {A B} (f : list A -> B) (l : list A) (x : A) :
  recorded f (l ++ [x]) = Some (f (l ++ [x])).
Proof. by destruct l. Qed.

(** The loop invariant: after the pairs [occs], each name is bound to
    the set of normalized types, and to the list of files, recorded for
    it, and to nothing if it was not met. *)
Lemma index_invariant occs st :
  for_each (record_occurrence class_to_file_map) occs ([], []) = Ok st ->
  NoDup (dict_keys st.1)
  /\ forall name,
      dict_get name st.1 = recorded list_to_set (types_of name occs)
      /\ dict_get name st.2 = recorded id (files_of class_to_file_map name occs).
Proof.
  revert st. induction occs as [|o occs IH] using rev_ind; intros st.
  - intros [= <-]. split; [apply NoDup_nil_2|done].
  - rewrite for_each_app.
    destruct (for_each _ occs _) as [st0|e]; [|done].
    rewrite result_bind_Ok. cbn [for_each].
    destruct (record_occurrence class_to_file_map st0 o) as [st1|e] eqn:Ho; [|done].
    intros [= <-]. destruct (IH st0 eq_refl) as [Hnd Hinv].
    apply record_occurrence_Ok in Ho as (file & Hfile & ->). cbn [fst snd]. split.
    { rewrite dict_keys_set. by apply NoDup_keys_add. }
    intros name. rewrite types_of_snoc, files_of_snoc.
    destruct (Hinv name) as [Hty Hfl].
    destruct (String.eqb_spec o.1.2 name) as [->|Hne].
    + rewrite !dict_get_set_eq, !recorded_snoc, Hty, Hfl, Hfile. split; f_equal.
      * destruct (types_of name occs); cbn [recorded default from_option id];
          rewrite ?list_to_set_app_L; set_solver.
      * by destruct (files_of class_to_file_map name occs).
    + rewrite !dict_get_set_ne, !app_nil_r by done. done.
Qed.

Lemma index_total occs st :
  (forall o, o ∈ occs -> is_Some (dict_get o.1.1 class_to_file_map)) ->
  exists st', for_each (record_occurrence class_to_file_map) occs st = Ok st'.
Proof.
  revert st. induction occs as [|o occs IH]; intros st Hmap; [by exists st|].
  cbn [for_each].
  destruct (Hmap o) as [file Hfile]; [apply list_elem_of_here|].
  destruct (record_occurrence class_to_file_map st o) as [st1|e] eqn:Ho.
  - rewrite result_bind_Ok. apply IH. intros o' Ho'. apply Hmap.
    by apply list_elem_of_further.
  - assert (record_occurrence class_to_file_map st o
            = Ok (dict_set o.1.2 (default ∅ (dict_get o.1.2 st.1) ∪ {[normalize_type o.2]}) st.1,
                  dict_set o.1.2 (default [] (dict_get o.1.2 st.2) ++ [file]) st.2)) as Hok
      by (apply record_occurrence_Ok; eauto).
    by rewrite Ho in Hok.
Qed.

End Detector.

Lemma attr_occurrences_class (classes : dict (list FieldRecord)) o :
  o ∈ attr_occurrences classes -> o.1.1 ∈ dict_keys classes.
Proof.
  unfold attr_occurrences. intros ([class_name attributes] & Ho & Hin)%list_elem_of_bind.
  apply list_elem_of_bind in Ho as ([[attr_name attr_type] nested] & Ho & _).
  apply list_elem_of_singleton in Ho as ->.
  apply list_elem_of_fmap. by exists (class_name, attributes).
Qed.

(** The detector raises nothing when every class has an entry in the
    class-to-file map. *)
Lemma find_inconsistent_attributes_total (classes : dict (list FieldRecord))
    (class_to_file_map : dict string) :
  (forall class_name, class_name ∈ dict_keys classes ->
                      class_name ∈ dict_keys class_to_file_map) ->
  exists res, find_inconsistent_attributes classes class_to_file_map = Ok res.
Proof.
  intros Hkeys. unfold find_inconsistent_attributes. rewrite index_flat.
  destruct (index_total class_to_file_map (attr_occurrences classes) ([], []))
    as [[attribute_types attribute_files] ->].
  - intros o Ho. apply dict_get_is_Some, Hkeys. by apply attr_occurrences_class.
  - rewrite result_bind_Ok. by eexists.
Qed.
Section FilterFacts.
Context {V : Type}.
Implicit Types (d : list (string * V)) (P : string * V -> bool).

Lemma dict_keys_filter_elem k d P : k ∈ dict_keys (List.filter P d) -> k ∈ dict_keys d.
Proof.
  unfold dict_keys. rewrite !list_elem_of_fmap.
  intros (kv & -> & [_ Hin]%elem_of_List_filter). by exists kv.
Qed.

Lemma NoDup_keys_filter d P : NoDup (dict_keys d) -> NoDup (dict_keys (List.filter P d)).
Proof.
  induction d as [|[k v] d IH]; [done|].
  unfold dict_keys in *. rewrite fmap_cons, NoDup_cons. intros [Hk Hnd].
  cbn [List.filter]. destruct (P (k, v)); [|by apply IH].
  rewrite fmap_cons. apply NoDup_cons. split; [|by apply IH].
  intros Hin. by apply Hk, (dict_keys_filter_elem k d P).
Qed.

Lemma dict_get_filter k d P :
  NoDup (dict_keys d) ->
  dict_get k (List.filter P d)
  = v ← dict_get k d; if P (k, v) then Some v else None.
Proof.
  induction d as [|[k' v'] d IH]; [done|].
  unfold dict_keys in *. rewrite fmap_cons, NoDup_cons. intros [Hk' Hnd].
  cbn [List.filter dict_get fst].
  destruct (String.eqb_spec k k') as [->|Hne].
  - cbn. destruct (P (k', v')).
    + cbn [dict_get]. by rewrite String.eqb_refl.
    + apply dict_get_None. intros Hin. by apply Hk', (dict_keys_filter_elem k' d P).
  - rewrite <-(IH Hnd). destruct (P (k', v')); [|done].
    cbn [dict_get]. by destruct (String.eqb_spec k k').
Qed.

End FilterFacts.

Lemma more_than_one_spec name (T : gset string) :
  more_than_one (name, T) = true <-> 1 < size T.
Proof. unfold more_than_one. cbn [snd]. apply Nat.ltb_lt. Qed.

(** What the summary holds for a name: nothing, unless more than one
    normalized type was observed for it. *)
Lemma summary_lookup (classes : dict (list FieldRecord)) (class_to_file_map : dict string)
    inconsistent_attributes inconsistency_summary name :
  find_inconsistent_attributes classes class_to_file_map
  = Ok (inconsistent_attributes, inconsistency_summary) ->
  let T := observed_types name classes in
  let F := observed_files class_to_file_map name classes in
  dict_get name inconsistency_summary
  = (if more_than_one (name, T) then Some {| types := T; files := F |} else None)
  /\ (name ∈ inconsistent_attributes <-> more_than_one (name, T) = true).
Proof.
  intros Hfind T F. revert Hfind.
  unfold find_inconsistent_attributes. rewrite index_flat.
  destruct (for_each _ _ _) as [[attribute_types attribute_files]|e] eqn:Hindex; [|done].
  rewrite result_bind_Ok. intros [= <- <-].
  apply index_invariant in Hindex as [Hnd Hinv]. cbn [fst snd] in Hnd, Hinv.
  destruct (Hinv name) as [Hty Hfl]. fold (observed_types name classes) in *.
  set (entry_of := fun (name : string) (types : gset string) =>
         {| types := types;
            files := list_to_set (default [] (dict_get name attribute_files)) |}).
  assert (dict_get name (List.filter more_than_one attribute_types)
          = if more_than_one (name, T) then Some T else None) as Hfiltered.
  { rewrite dict_get_filter, Hty by done. subst T. unfold observed_types.
    by destruct (types_of name (attr_occurrences classes)). }
  assert (entry_of name T = {| types := T; files := F |}) as Hentry.
  { unfold entry_of. f_equal. subst F. unfold observed_files. rewrite Hfl.
    by destruct (files_of class_to_file_map name (attr_occurrences classes)). }
  split.
  - rewrite (list_fmap_ext _ (fun kv => (kv.1, entry_of kv.1 kv.2)))
      by (by intros ? [? ?]).
    rewrite dict_update_fresh.
    2:{ rewrite app_nil_l, (dict_keys_fmap entry_of). by apply NoDup_keys_filter. }
    rewrite app_nil_l, (dict_get_fmap entry_of), Hfiltered.
    destruct (more_than_one (name, T)); [|done]. cbn. by rewrite Hentry.
  - rewrite elem_of_list_to_set.
    change ((List.filter more_than_one attribute_types).*1)
      with (dict_keys (List.filter more_than_one attribute_types)).
    rewrite <-dict_get_is_Some, Hfiltered.
    destruct (more_than_one (name, T)); split; (done || by intros [? ?] || eauto).
Qed.

Lemma summary_characterised (classes : dict (list FieldRecord))
    (class_to_file_map : dict string) (inconsistent_attributes : gset string)
    (inconsistency_summary : dict summary_entry) :
  find_inconsistent_attributes classes class_to_file_map
  = Ok (inconsistent_attributes, inconsistency_summary) ->
  forall name,
    (name ∈ dict_keys inconsistency_summary <-> 1 < size (observed_types name classes))
    /\ (name ∈ inconsistent_attributes <-> 1 < size (observed_types name classes))
    /\ (forall entry,
          dict_get name inconsistency_summary = Some entry ->
          types entry = observed_types name classes
          /\ files entry = observed_files class_to_file_map name classes).
Proof.
  intros Hfind name.
  destruct (summary_lookup _ _ _ _ name Hfind) as [Hget Hin]. cbn zeta in Hget, Hin.
  rewrite <-more_than_one_spec with (name := name). split_and!.
  - rewrite <-dict_get_is_Some, Hget.
    destruct (more_than_one _); split; (done || by intros [? ?] || eauto).
  - done.
  - intros entry Hentry. rewrite Hget in Hentry.
    destruct (more_than_one _); by simplify_eq.
Qed.

(** With "normalized type" read as what [normalize_type] returns: on a
    class table whose classes all have an entry in the class-to-file map
    (as every aggregated table has), the detector returns, and a name is
    reported as inconsistent, and has an entry in the inconsistency summary,
    exactly when more than one distinct value of [normalize_type] was
    recorded for it over all classes; its entry then lists exactly those
    values, and the files of the classes that own such a field. *)
Lemma summary_of_recorded_types (classes : dict (list FieldRecord))
    (class_to_file_map : dict string) :
  (forall class_name, class_name ∈ dict_keys classes ->
                      class_name ∈ dict_keys class_to_file_map) ->
  exists inconsistent_attributes inconsistency_summary,
    find_inconsistent_attributes classes class_to_file_map
    = Ok (inconsistent_attributes, inconsistency_summary)
    /\ forall name,
        (name ∈ dict_keys inconsistency_summary
         <-> 1 < size (observed_types name classes))
        /\ (name ∈ inconsistent_attributes <-> 1 < size (observed_types name classes))
        /\ (forall entry,
              dict_get name inconsistency_summary = Some entry ->
              types entry = observed_types name classes
              /\ files entry = observed_files class_to_file_map name classes).
Proof.
  intros Hkeys.
  destruct (find_inconsistent_attributes_total _ _ Hkeys) as [[inc summary] Hfind].
  exists inc, summary. split; [done|]. by apply summary_characterised.
Qed.

(** On descriptors with at most one container, [normalize_type] is the
    specification's normalization, so on a class table that holds only
    such descriptors the detector records the specification's normalized
    types. *)
Lemma normalize_type_agrees attr_type :
  single_level attr_type -> normalize_type attr_type = SpecWords.normalize attr_type.
Proof.
  intros [Hplain|(outer & inner & -> & Houter & Hinner)].
  - unfold SpecWords.normalize. rewrite Hplain. by apply normalize_type_plain.
  - rewrite normalize_type_single_level by done.
    unfold SpecWords.normalize.
    assert (PyStr.contains "[" (outer +:+ "[" +:+ inner +:+ "]") = true) as ->.
    { rewrite contains_app. apply orb_true_r. }
    by rewrite between_brackets_single_level.
Qed.

Lemma spec_observed_types_single_level (classes : dict (list FieldRecord)) name :
  (forall o, o ∈ attr_occurrences classes -> single_level o.2) ->
  spec_observed_types name classes = observed_types name classes.
Proof.
  intros Hsingle. unfold spec_observed_types, observed_types, spec_types_of, types_of.
  f_equal. generalize dependent (attr_occurrences classes).
  induction l as [|o l IH]; intros Hsingle; [done|].
  rewrite !bind_cons, IH by (intros o' Ho'; by apply Hsingle, list_elem_of_further).
  by rewrite (normalize_type_agrees o.2) by apply Hsingle, list_elem_of_here.
Qed.

(** So on a class table that holds only descriptors with at most one
    container, the detector reports exactly the names with more than one
    distinct normalized type as the specification defines them, with
    exactly those types. *)
Lemma summary_exact_single_level (classes : dict (list FieldRecord))
    (class_to_file_map : dict string) :
  (forall class_name, class_name ∈ dict_keys classes ->
                      class_name ∈ dict_keys class_to_file_map) ->
  (forall o, o ∈ attr_occurrences classes -> single_level o.2) ->
  exists inconsistent_attributes inconsistency_summary,
    find_inconsistent_attributes classes class_to_file_map
    = Ok (inconsistent_attributes, inconsistency_summary)
    /\ forall name,
        (name ∈ dict_keys inconsistency_summary
         <-> 1 < size (spec_observed_types name classes))
        /\ (name ∈ inconsistent_attributes
            <-> 1 < size (spec_observed_types name classes))
        /\ (forall entry,
              dict_get name inconsistency_summary = Some entry ->
              types entry = spec_observed_types name classes
              /\ files entry = observed_files class_to_file_map name classes).
Proof.
  intros Hkeys Hsingle.
  destruct (summary_of_recorded_types classes class_to_file_map Hkeys)
    as (inc & summary & Hfind & Hexact).
  exists inc, summary. split; [exact Hfind|]. intros name.
  rewrite (spec_observed_types_single_level classes name Hsingle). apply Hexact.
Qed.

(** C1. Two classes of one file declare [x: List[Optional[Foo]]] and
    [x: List[Optional[Bar]]]. The name [x] has two distinct normalized
    types as the specification defines them ([Optional[Foo]] and
    [Optional[Bar]]), and two distinct core types ([Foo] and [Bar]); the
    detector records [Optional] for both fields and returns an empty set
    and an empty summary: [x] is not reported. *)
Theorem nested_conflict_not_reported :
  let e := extract_tree "m/models.py" sample_conflict_tree in
  classes e = [("A", [("x", "List[Optional[Foo]]", true)]);
               ("B", [("x", "List[Optional[Bar]]", true)])]
  /\ file_to_class_map e = [("A", "m/models.py"); ("B", "m/models.py")]
  /\ spec_types_of "x" (attr_occurrences (classes e)) = ["Optional[Foo]"; "Optional[Bar]"]
  /\ size (spec_observed_types "x" (classes e)) = 2
  /\ core_name list_optional_foo = "Foo" /\ core_name list_optional_bar = "Bar"
  /\ types_of "x" (attr_occurrences (classes e)) = ["Optional"; "Optional"]
  /\ size (observed_types "x" (classes e)) = 1
  /\ find_inconsistent_attributes (classes e) (file_to_class_map e) = Ok (∅, []).
Proof. cbn zeta. split_and!; by vm_compute. Qed.

(** ** Labels and graphs *)

Lemma label_rows (row : FieldRecord -> string) attributes label :
  fold_left (fun label attr => label +:+ row attr) attributes label
  = label +:+ join_rows (row <$> attributes).
Proof.
  revert label. induction attributes as [|attr attributes IH]; intros label.
  - cbn. by rewrite app_empty_r.
  - cbn [fold_left]. rewrite IH, fmap_cons. cbn [join_rows foldr].
    by rewrite app_assoc_str.
Qed.

Lemma class_label_rows inconsistent_attributes class_name attributes :
  class_label inconsistent_attributes class_name attributes
  = table_open +:+ header_row class_name
      +:+ join_rows (attr_row inconsistent_attributes <$> attributes) +:+ table_close.
Proof. unfold class_label. by rewrite label_rows, !app_assoc_str. Qed.

Lemma folder_graph_eq (classes : dict (list FieldRecord)) relationships
    inconsistent_attributes :
  folder_graph classes relationships inconsistent_attributes
  = [layout_attrs] ++ (node_of inconsistent_attributes <$> classes)
      ++ (edge_of <$> relationships).
Proof.
  unfold folder_graph. generalize [layout_attrs] as dot.
  induction classes as [|[class_name attributes] classes IH]; intros dot.
  - cbn [fold_left fmap list_fmap app].
    revert dot. induction relationships as [|[[parent attr_name] child] rels IH];
      intros dot; [by rewrite app_nil_r|].
    cbn [fold_left]. rewrite IH, fmap_cons, <-app_assoc. done.
  - cbn [fold_left]. rewrite IH, fmap_cons, <-!app_assoc. done.
Qed.

Lemma folder_graph_nodes (classes : dict (list FieldRecord)) relationships
    inconsistent_attributes class_name attributes :
  (class_name, attributes) ∈ classes ->
  DotNode class_name (class_label inconsistent_attributes class_name attributes)
          [("shape", "plaintext")]
  ∈ folder_graph classes relationships inconsistent_attributes.
Proof.
  intros Hin. rewrite folder_graph_eq, !elem_of_app. right. left.
  apply list_elem_of_fmap. by exists (class_name, attributes).
Qed.

Lemma class_fields_names (cds : dict class_node) body :
  field_name <$> class_fields cds body = annotated_names body.
Proof.
  unfold class_fields, annotated_names.
  induction body as [|child body IH]; [done|].
  destruct child as [| |target annotation|]; try apply IH.
  destruct target; try apply IH.
  cbn [omap list_omap field_of]. rewrite fmap_cons. cbn [omap] in IH. by rewrite IH.
Qed.

Lemma class_fields_texts (cds : dict class_node) body :
  field_text <$> class_fields cds body = declared_texts body.
Proof.
  unfold class_fields, declared_texts.
  induction body as [|child body IH]; [done|].
  destruct child as [| |target annotation|]; try apply IH.
  destruct target; try apply IH.
  cbn [omap list_omap field_of]. rewrite fmap_cons. cbn [omap] in IH. by rewrite IH.
Qed.

Lemma attr_row_styled inconsistent_attributes attr :
  attr_row inconsistent_attributes attr
  = styled_row (classify inconsistent_attributes attr) (field_text attr).
Proof.
  destruct attr as [[attr_name attr_type] is_nested].
  unfold attr_row, classify, field_text. cbn [fst snd].
  case_bool_decide; [|destruct is_nested]; cbn [styled_row];
    by rewrite !app_cons, !app_empty_l, !app_assoc_str.
Qed.

(** The label of a class, character for character. *)
Lemma class_label_text inconsistent_attributes class_name attributes :
  class_label inconsistent_attributes class_name attributes
  = "<<TABLE BORDER='0' CELLBORDER='1' CELLSPACING='0'>"
      +:+ "<TR><TD BGCOLOR='lightblue'><B>" +:+ class_name +:+ "</B></TD></TR>"
      +:+ join_rows ((fun attr => styled_row (classify inconsistent_attributes attr)
                                             (field_text attr)) <$> attributes)
      +:+ "</TABLE>>".
Proof.
  rewrite class_label_rows. unfold table_open, header_row, table_close.
  rewrite (list_fmap_ext (attr_row inconsistent_attributes)
             (fun attr => styled_row (classify inconsistent_attributes attr)
                                     (field_text attr)))
    by (intros; apply attr_row_styled).
  by rewrite !app_assoc_str.
Qed.

(** ** The run: aggregation, diagrams, and what a parse failure does *)

Section RunFacts.
Variable parse : string -> result (list stmt).
Variable render : list dot_stmt -> string -> result ().
Variable save_html_report : dict summary_entry -> result (list string).
Variable file_stem : string -> string.
Variable makedirs : string -> result ().

Local Abbreviation analyze := (analyze_models_folder parse).
Local Abbreviation lines := (try_file_diagram parse render file_stem).
Local Abbreviation diagram := (generate_python_file_diagram parse render file_stem makedirs).
Local Abbreviation diagrams := (diagram_loop parse render file_stem makedirs).
Local Abbreviation run_all := (run parse render save_html_report file_stem makedirs).
Local Abbreviation draw := (draw_file parse render file_stem makedirs).

Lemma diagram_inner_flat fs root files printed :
  for_each (fun printed file =>
              if PyStr.endswith file ".py" then
                lines ← diagram fs (os_path_join root file);
                mret (printed ++ lines)
              else mret printed) files printed
  = for_each (draw fs)
             (file ← files; if PyStr.endswith file ".py" then [os_path_join root file] else [])
             printed.
Proof.
  revert printed. induction files as [|file files IH]; intros printed; [done|].
  rewrite bind_cons. cbn [for_each]. destruct (PyStr.endswith file ".py").
  - cbn [app for_each].
    change (draw fs printed (os_path_join root file))
      with (lines ← diagram fs (os_path_join root file); mret (printed ++ lines)).
    destruct (diagram fs (os_path_join root file)); [exact (IH _)|done].
  - exact (IH _).
Qed.

(** The two nested loops visit [py_files walk], in order. *)
Lemma diagram_flat fs walk : diagrams fs walk = for_each (draw fs) (py_files walk) [].
Proof.
  unfold diagram_loop.
  enough (forall printed,
            for_each (fun printed '(root, files) =>
                        for_each (fun printed file =>
                                    if PyStr.endswith file ".py" then
                                      lines ← diagram fs (os_path_join root file);
                                      mret (printed ++ lines)
                                    else mret printed) files printed) walk printed
            = for_each (draw fs) (py_files walk) printed) as H by apply (H []).
  unfold py_files.
  induction walk as [|[root files] walk IH]; intros printed; [done|].
  rewrite bind_cons, for_each_app. cbn [for_each].
  rewrite diagram_inner_flat.
  destruct (for_each _ _ printed) as [printed'|e]; [exact (IH _)|done].
Qed.

(** Once the output directory is there, a file's diagram prints what its
    [try] statement prints, and the loop prints that file by file. *)
Lemma diagram_made fs file_path :
  makedirs "visual" = Ok () -> diagram fs file_path = Ok (lines fs file_path).
Proof. intros H. unfold generate_python_file_diagram. by rewrite H. Qed.

Lemma diagram_blocked fs file_path e :
  makedirs "visual" = Raise e -> diagram fs file_path = Raise e.
Proof. intros H. unfold generate_python_file_diagram. by rewrite H. Qed.

Lemma draw_made fs l printed :
  makedirs "visual" = Ok () ->
  for_each (draw fs) l printed = Ok (printed ++ (l ≫= lines fs)).
Proof.
  intros H. revert printed. induction l as [|p l IH]; intros printed.
  - cbn. by rewrite app_nil_r.
  - cbn [for_each].
    assert (draw fs printed p = Ok (printed ++ lines fs p)) as ->
      by (unfold draw_file; by rewrite (diagram_made _ _ H)).
    rewrite result_bind_Ok, IH, bind_cons. by rewrite <-app_assoc.
Qed.

Lemma diagrams_made fs walk :
  makedirs "visual" = Ok () -> diagrams fs walk = Ok (py_files walk ≫= lines fs).
Proof. intros H. by rewrite diagram_flat, (draw_made _ _ _ H). Qed.

Lemma diagrams_blocked fs walk e :
  makedirs "visual" = Raise e ->
  diagrams fs walk = match py_files walk with [] => Ok [] | _ => Raise e end.
Proof.
  intros H. rewrite diagram_flat. destruct (py_files walk) as [|p l]; [done|].
  cbn [for_each]. unfold draw_file. by rewrite (diagram_blocked _ _ _ H).
Qed.

Lemma lines_unparsed fs file_path e :
  parse (fs file_path) = Raise e ->
  lines fs file_path
  = ["Error generating diagram for " +:+ file_path +:+ ": " +:+ exn_str e].
Proof. intros H. unfold try_file_diagram. by rewrite H. Qed.

Lemma run_Ok fs fs' walk printed :
  run_all fs fs' walk = Ok printed ->
  exists before printed3, diagrams fs' walk = Ok printed3 /\ printed = before ++ printed3.
Proof.
  unfold run. destruct (makedirs "visual") as [[]|]; [|done].
  rewrite result_bind_Ok.
  destruct (analyze fs walk) as [all|]; [|done].
  rewrite result_bind_Ok.
  destruct (find_inconsistent_attributes _ _) as [[inc summary]|]; [|done].
  rewrite result_bind_Ok.
  destruct (save_html_report summary) as [printed1|]; [|done].
  rewrite result_bind_Ok.
  destruct (generate_inconsistent_model_diagram _ _ _ _ _) as [printed2|]; [|done].
  rewrite result_bind_Ok.
  destruct (diagrams fs' walk) as [printed3|]; [|done].
  rewrite result_bind_Ok. intros [= <-].
  exists (printed1 ++ printed2), printed3. by rewrite <-app_assoc.
Qed.

(** C6. A file that does not parse ends the aggregation, and with it
    the run, with an exception (the file's own when the files before it
    parse); in the per-file diagram loop the same failure is caught: that
    file's diagram is replaced by one printed message, and the loop prints
    for the files before and after it what it prints for them anyway. The
    output directory is taken to be there ([os.makedirs] returns), as it
    is when the run reaches the analysis and the loop reaches the parse. *)
Theorem parse_failure_asymmetry (fs fs' : string -> string)
    (walk : list (string * list string)) (l1 l2 : list string) (p : string) :
  makedirs "visual" = Ok () ->
  py_files walk = l1 ++ p :: l2 ->
  (forall e, parse (fs p) = Raise e ->
     (exists e', analyze fs walk = Raise e' /\ run_all fs fs' walk = Raise e')
     /\ (Forall (fun q => exists tree, parse (fs q) = Ok tree) l1 ->
         analyze fs walk = Raise e /\ run_all fs fs' walk = Raise e))
  /\ (forall e, parse (fs' p) = Raise e ->
        let message := "Error generating diagram for " +:+ p +:+ ": " +:+ exn_str e in
        diagram fs' p = Ok [message]
        /\ (forall q, diagram fs' q = Ok (lines fs' q))
        /\ diagrams fs' walk = Ok ((l1 ≫= lines fs') ++ [message] ++ (l2 ≫= lines fs'))
        /\ forall printed,
             run_all fs fs' walk = Ok printed ->
             exists before,
               printed = before ++ (l1 ≫= lines fs') ++ [message] ++ (l2 ≫= lines fs')).
Proof.
  intros Hmk Hwalk. split.
  - intros e Hp. split.
    + destruct (analyze_raise parse fs walk l1 p l2 e Hwalk Hp) as [e' He'].
      exists e'. split; [done|]. unfold run. by rewrite Hmk, result_bind_Ok, He'.
    + intros Hl1.
      pose proof (analyze_raise_first parse fs walk l1 p l2 e Hwalk Hl1 Hp) as He.
      split; [done|]. unfold run. by rewrite Hmk, result_bind_Ok, He.
  - intros e Hp message.
    assert (diagrams fs' walk
            = Ok ((l1 ≫= lines fs') ++ [message] ++ (l2 ≫= lines fs'))) as Hloop.
    { rewrite (diagrams_made _ _ Hmk), Hwalk, bind_app, bind_cons.
      by rewrite (lines_unparsed _ _ _ Hp). }
    split_and!.
    + by rewrite (diagram_made _ _ Hmk), (lines_unparsed _ _ _ Hp).
    + intros q. by apply diagram_made.
    + done.
    + intros printed (before & printed3 & Hd & ->)%run_Ok. exists before.
      rewrite Hloop in Hd. by injection Hd as <-.
Qed.

Lemma extracted_keys fs p e :
  extracted parse fs p e ->
  NoDup (dict_keys (classes e))
  /\ NoDup (dict_keys (file_to_class_map e))
  /\ dict_keys (classes e) = dict_keys (file_to_class_map e).
Proof.
  intros (tree & _ & ->). destruct (extract_tree_keys p tree) as [-> ->].
  split_and!; [apply class_definitions_NoDup..|done].
Qed.

Lemma analyze_keys fs walk all :
  analyze fs walk = Ok all ->
  NoDup (dict_keys (classes all))
  /\ NoDup (dict_keys (file_to_class_map all))
  /\ dict_keys (classes all) = dict_keys (file_to_class_map all).
Proof.
  intros (es & Hes & ->)%analyze_Ok. split_and!.
  - apply (merge_fold_NoDup classes); [done|apply NoDup_nil_2].
  - apply (merge_fold_NoDup file_to_class_map); [done|apply NoDup_nil_2].
  - rewrite (merge_fold_keys classes), (merge_fold_keys file_to_class_map) by done.
    f_equal. clear -Hes. induction Hes as [|p e l es He _ IH]; [done|].
    rewrite !bind_cons, IH. f_equal. by apply (extracted_keys fs p).
Qed.

(** C9. The class table and the class-to-file map have the same keys
    (in the same order) after each file's extraction and, when every
    visited file parses, after the aggregation, which then returns; so the
    detector's lookup of a class's file finds an entry for every class of
    the aggregated table, and the detector returns. *)
Theorem class_table_keys_match :
  (forall file_path tree,
      dict_keys (classes (extract_tree file_path tree))
      = dict_keys (file_to_class_map (extract_tree file_path tree)))
  /\ (forall fs walk,
        Forall (fun q => exists tree, parse (fs q) = Ok tree) (py_files walk) ->
        exists all,
          analyze fs walk = Ok all
          /\ dict_keys (classes all) = dict_keys (file_to_class_map all)
          /\ (forall class_name, class_name ∈ dict_keys (classes all) ->
                                 is_Some (dict_get class_name (file_to_class_map all)))
          /\ exists res,
               find_inconsistent_attributes (classes all) (file_to_class_map all) = Ok res).
Proof.
  split.
  - intros file_path tree. by destruct (extract_tree_keys file_path tree) as [-> ->].
  - intros fs walk [all Hall]%analyze_total. exists all.
    destruct (analyze_keys _ _ _ Hall) as (_ & _ & Hkeys). split_and!.
    + done.
    + done.
    + intros class_name Hin. apply dict_get_is_Some. by rewrite <-Hkeys.
    + apply find_inconsistent_attributes_total. intros class_name. by rewrite Hkeys.
Qed.

Lemma later_file_wins_in (fs : string -> string) (walk : list (string * list string))
    (l1 l2 l3 : list string) (p1 p2 n : string) (all : extraction) :
  py_files walk = l1 ++ p1 :: l2 ++ p2 :: l3 ->
  defines parse fs p1 n ->
  defines parse fs p2 n ->
  (forall p, p ∈ l3 -> ~ defines parse fs p n) ->
  analyze fs walk = Ok all ->
  exists tree1 tree2,
    parse (fs p1) = Ok tree1 /\ parse (fs p2) = Ok tree2
    /\ is_Some (dict_get n (classes all))
    /\ dict_get n (classes all) = dict_get n (classes (extract_tree p2 tree2))
    /\ dict_get n (file_to_class_map all) = Some p2
    /\ NoDup (dict_keys (classes all))
    /\ NoDup (dict_keys (file_to_class_map all))
    /\ (p1 ≠ p2 -> dict_get n (file_to_class_map all) ≠ Some p1)
    /\ (dict_get n (classes (extract_tree p1 tree1))
        ≠ dict_get n (classes (extract_tree p2 tree2)) ->
        dict_get n (classes all) ≠ dict_get n (classes (extract_tree p1 tree1))).
Proof.
  intros Hwalk (tree1 & Hp1 & Hn1) (tree2 & Hp2 & Hn2) Hl3 Hall.
  destruct (analyze_keys _ _ _ Hall) as (Hnd1 & Hnd2 & _).
  apply analyze_Ok in Hall as (es & Hes & ->).
  rewrite Hwalk in Hes.
  replace (l1 ++ p1 :: l2 ++ p2 :: l3) with ((l1 ++ p1 :: l2) ++ p2 :: l3) in Hes
    by (by rewrite <-app_assoc).
  apply Forall2_app_inv_l in Hes as (es1 & es' & _ & Hes' & ->).
  apply Forall2_cons_inv_l in Hes' as (e2 & es3 & (tree2' & Hp2' & ->) & Hes3 & ->).
  rewrite Hp2 in Hp2'. injection Hp2' as <-.
  assert (Forall (fun e => dict_get n (classes e) = None
                           /\ dict_get n (file_to_class_map e) = None) es3) as Habsent.
  { apply (Forall2_Forall_r _ _ _ _ Hes3). apply Forall_forall.
    intros p Hp e (tree & Htree & ->).
    rewrite extract_tree_classes, extract_tree_file_map.
    assert (dict_get n (class_definitions tree) = None) as ->; [|done].
    apply dict_get_None. intros Hin. apply (Hl3 p Hp). by exists tree. }
  apply dict_get_is_Some in Hn2 as [node2 Hnode2].
  assert (dict_get n (classes (fold_left merge (es1 ++ extract_tree p2 tree2 :: es3)
                                         empty_extraction))
          = dict_get n (classes (extract_tree p2 tree2))) as Hclasses.
  { rewrite (extract_tree_classes p2 tree2), Hnode2. cbn [fmap option_fmap option_map].
    apply (merge_fold_last classes); [done| | |].
    - destruct (extract_tree_keys p2 tree2) as [-> _]. apply class_definitions_NoDup.
    - by rewrite extract_tree_classes, Hnode2.
    - eapply Forall_impl; [exact Habsent|]. by intros e [? _]. }
  assert (dict_get n (file_to_class_map
                        (fold_left merge (es1 ++ extract_tree p2 tree2 :: es3)
                                   empty_extraction)) = Some p2) as Hfile.
  { apply (merge_fold_last file_to_class_map); [done| | |].
    - destruct (extract_tree_keys p2 tree2) as [_ ->]. apply class_definitions_NoDup.
    - by rewrite extract_tree_file_map, Hnode2.
    - eapply Forall_impl; [exact Habsent|]. by intros e [_ ?]. }
  exists tree1, tree2. split_and!; try done.
  - rewrite Hclasses, extract_tree_classes, Hnode2. by eexists.
  - rewrite Hfile. congruence.
  - rewrite Hclasses. congruence.
Qed.

(** C7. When two files define a class of the same name, no file visited
    after the second defines it, and every visited file parses, the
    aggregation returns tables in which the class table holds for that name
    the second file's definition and the class-to-file map the second
    file's path; each table has one entry for the name, so the first file's
    definition is not in it. *)
Theorem later_file_wins (fs : string -> string) (walk : list (string * list string))
    (l1 l2 l3 : list string) (p1 p2 n : string) :
  py_files walk = l1 ++ p1 :: l2 ++ p2 :: l3 ->
  Forall (fun q => exists tree, parse (fs q) = Ok tree) (py_files walk) ->
  defines parse fs p1 n ->
  defines parse fs p2 n ->
  (forall p, p ∈ l3 -> ~ defines parse fs p n) ->
  exists all tree1 tree2,
    analyze fs walk = Ok all
    /\ parse (fs p1) = Ok tree1 /\ parse (fs p2) = Ok tree2
    /\ is_Some (dict_get n (classes all))
    /\ dict_get n (classes all) = dict_get n (classes (extract_tree p2 tree2))
    /\ dict_get n (file_to_class_map all) = Some p2
    /\ NoDup (dict_keys (classes all))
    /\ NoDup (dict_keys (file_to_class_map all))
    /\ (p1 ≠ p2 -> dict_get n (file_to_class_map all) ≠ Some p1)
    /\ (dict_get n (classes (extract_tree p1 tree1))
        ≠ dict_get n (classes (extract_tree p2 tree2)) ->
        dict_get n (classes all) ≠ dict_get n (classes (extract_tree p1 tree1))).
Proof.
  intros Hwalk [all Hall]%analyze_total Hp1 Hp2 Hl3.
  destruct (later_file_wins_in fs walk l1 l2 l3 p1 p2 n all Hwalk Hp1 Hp2 Hl3 Hall)
    as (tree1 & tree2 & H).
  by exists all, tree1, tree2.
Qed.

(** C8. A class's FieldRecords are the annotated fields of its body in
    declaration order, name and resolved type, as one file's extraction
    gives them and as the aggregated table keeps them; the label the
    folder-wide diagram draws for a class is, character for character, the
    header row with the class name followed by one row per FieldRecord in
    that same order, each row showing its field's [name: type] in the
    style of the field's classification. *)
Theorem field_order_preserved :
  (forall file_path tree n bases body,
      dict_get n (class_definitions tree) = Some (bases, body) ->
      exists attributes,
        dict_get n (classes (extract_tree file_path tree)) = Some attributes
        /\ field_name <$> attributes = annotated_names body
        /\ field_text <$> attributes = declared_texts body)
  /\ (forall fs walk all n attributes,
        analyze fs walk = Ok all ->
        dict_get n (classes all) = Some attributes ->
        exists file_path tree bases body,
          file_path ∈ py_files walk /\ parse (fs file_path) = Ok tree
          /\ dict_get n (class_definitions tree) = Some (bases, body)
          /\ dict_get n (classes (extract_tree file_path tree)) = Some attributes
          /\ field_name <$> attributes = annotated_names body
          /\ field_text <$> attributes = declared_texts body)
  /\ (forall (classes : dict (list FieldRecord)) relationships inconsistent_attributes
             n attributes,
        (n, attributes) ∈ classes ->
        let rows :=
          (fun attr => styled_row (classify inconsistent_attributes attr) (field_text attr))
            <$> attributes in
        let label :=
          "<<TABLE BORDER='0' CELLBORDER='1' CELLSPACING='0'>"
            +:+ "<TR><TD BGCOLOR='lightblue'><B>" +:+ n +:+ "</B></TD></TR>"
            +:+ join_rows rows
            +:+ "</TABLE>>" in
        class_label inconsistent_attributes n attributes = label
        /\ DotNode n label [("shape", "plaintext")]
           ∈ folder_graph classes relationships inconsistent_attributes
        /\ length rows = length attributes
        /\ forall i attr,
             attributes !! i = Some attr ->
             exists c, rows !! i = Some (styled_row c (attr.1.1 +:+ ": " +:+ attr.1.2))).
Proof.
  split_and!.
  - intros file_path tree n bases body Hget.
    exists (class_fields (class_definitions tree) body). split_and!.
    + by rewrite extract_tree_classes, Hget.
    + apply class_fields_names.
    + apply class_fields_texts.
  - intros fs walk all n attributes (es & Hes & ->)%analyze_Ok Hget.
    apply (merge_fold_origin classes) in Hget; [|done].
    destruct Hget as [Hget|(e & He & Hin)]; [done|].
    apply list_elem_of_lookup in He as [i Hi].
    destruct (Forall2_lookup_r _ _ _ _ _ Hes Hi) as (p & Hp & tree & Htree & ->).
    assert (dict_get n (classes (extract_tree p tree)) = Some attributes) as Hget.
    { apply dict_get_unique; [|done].
      destruct (extract_tree_keys p tree) as [-> _]. apply class_definitions_NoDup. }
    pose proof Hget as Hget'. rewrite extract_tree_classes in Hget'.
    destruct (dict_get n (class_definitions tree)) as [[bases body]|] eqn:Hnode; [|done].
    injection Hget' as <-.
    exists p, tree, bases, body. split_and!; try done.
    + by eapply list_elem_of_lookup_2.
    + apply class_fields_names.
    + apply class_fields_texts.
  - intros classes relationships inc n attributes Hin rows label. subst label rows.
    rewrite <-class_label_text. split_and!.
    + done.
    + by apply folder_graph_nodes.
    + by rewrite length_fmap.
    + intros i attr Hi. exists (classify inc attr).
      apply list_lookup_fmap_Some. by exists attr.
Qed.

End RunFacts.

(** ** The theorems at the sample runs *)

Lemma parse_failure_asymmetry_witness :
  (analyze_models_folder toy_parse broken_fs sample_walk
   = Raise (SyntaxError "invalid syntax")
   /\ run toy_parse toy_render toy_report toy_stem toy_makedirs broken_fs broken_fs
          sample_walk
      = Raise (SyntaxError "invalid syntax"))
  /\ diagram_loop toy_parse toy_render toy_stem toy_makedirs broken_fs sample_walk
     = Ok ["Python file structure diagram saved as visual/python_a.png";
           "Error generating diagram for m/b.py: invalid syntax"].
Proof.
  pose proof (parse_failure_asymmetry toy_parse toy_render toy_report toy_stem toy_makedirs
                broken_fs broken_fs sample_walk ["m/a.py"] [] "m/b.py" eq_refl eq_refl)
    as [Habort Hcaught].
  split.
  - apply (Habort (SyntaxError "invalid syntax") eq_refl).
    repeat constructor. by eexists.
  - exact (proj1 (proj2 (proj2 (Hcaught (SyntaxError "invalid syntax") eq_refl)))).
Defined.

Lemma later_file_wins_witness :
  analyze_models_folder toy_parse sample_fs sample_walk = Ok sample_all
  /\ exists all,
       analyze_models_folder toy_parse sample_fs sample_walk = Ok all
       /\ dict_get "A" (file_to_class_map all) = Some "m/b.py".
Proof.
  split; [vm_compute; reflexivity|].
  destruct (later_file_wins toy_parse sample_fs sample_walk [] [] [] "m/a.py" "m/b.py" "A"
              eq_refl)
    as (all & tree1 & tree2 & Hall & _ & _ & _ & _ & Hfile & _).
  - repeat constructor; by eexists.
  - eexists. split; [reflexivity|]. apply list_elem_of_here.
  - eexists. split; [reflexivity|]. apply list_elem_of_here.
  - intros p Hp. by apply elem_of_nil in Hp.
  - by exists all.
Defined.

Lemma class_table_keys_match_witness :
  exists all,
    analyze_models_folder toy_parse sample_fs sample_walk = Ok all
    /\ dict_keys (classes all) = dict_keys (file_to_class_map all)
    /\ exists res,
         find_inconsistent_attributes (classes all) (file_to_class_map all) = Ok res.
Proof.
  destruct (proj2 (class_table_keys_match toy_parse) sample_fs sample_walk)
    as (all & Hall & Hkeys & _ & Hres).
  - repeat constructor; by eexists.
  - by exists all.
Defined.

Lemma field_order_preserved_witness :
  exists attributes,
    dict_get "P" (classes (extract_tree "m/p.py" [ClassDef "P" [] sample_body]))
    = Some attributes
    /\ field_name <$> attributes = ["a"; "b"]
    /\ field_text <$> attributes = ["a: int"; "b: List[P]"]
    /\ class_label {["a"]} "P" attributes
       = "<<TABLE BORDER='0' CELLBORDER='1' CELLSPACING='0'>"
           +:+ "<TR><TD BGCOLOR='lightblue'><B>P</B></TD></TR>"
           +:+ "<TR><TD ALIGN='LEFT' BGCOLOR='#FFC0C0'><B>a: int</B></TD></TR>"
           +:+ "<TR><TD ALIGN='LEFT' BGCOLOR='lightyellow'><B>b: List[P]</B></TD></TR>"
           +:+ "</TABLE>>".
Proof.
  destruct (field_order_preserved toy_parse) as (Hfile & _ & Hlabel).
  destruct (Hfile "m/p.py" [ClassDef "P" [] sample_body] "P" [] sample_body eq_refl)
    as (attributes & Hget & Hnames & Htexts).
  exists attributes. split_and!; [done|done|done|].
  assert (attributes = [("a", "int", false); ("b", "List[P]", true)]) as ->.
  { vm_compute in Hget. by injection Hget. }
  destruct (Hlabel [("P", [("a", "int", false); ("b", "List[P]", true)])] [] {["a"]} "P"
              [("a", "int", false); ("b", "List[P]", true)])
    as (-> & _); [apply list_elem_of_here|].
  by vm_compute.
Defined.

(** * Further properties of the code *)

(** ** Normalization and the resolver *)

Lemma split_pieces_no_sep c s p : p ∈ PyStr.split c s -> PyStr.contains c p = false.
Proof.
  revert p. induction s as [|a s IH]; intros p; cbn [PyStr.split].
  - by intros ->%list_elem_of_singleton.
  - destruct (Ascii.eqb a c) eqn:Ha.
    + intros [->|Hin]%elem_of_cons; [done|by apply IH].
    + pose proof (split_nonempty c s).
      destruct (PyStr.split c s) as [|q qs]; [done|].
      intros [->|Hin]%elem_of_cons.
      * cbn [PyStr.contains]. rewrite Ha. apply IH, list_elem_of_here.
      * by apply IH, list_elem_of_further.
Qed.

Lemma rstrip_contains c c' s :
  PyStr.contains c' s = false -> PyStr.contains c' (PyStr.rstrip c s) = false.
Proof.
  induction s as [|a s IH]; [done|]. cbn [PyStr.contains PyStr.rstrip].
  destruct (Ascii.eqb a c') eqn:Ha; [done|]. intros Hs.
  destruct (PyStr.rstrip c s) as [|b r] eqn:Hr.
  - destruct (Ascii.eqb a c); [done|]. cbn [PyStr.contains]. by rewrite Ha.
  - cbn [PyStr.contains]. rewrite Ha. by apply IH.
Qed.

Lemma normalize_type_no_open s : PyStr.contains "[" (normalize_type s) = false.
Proof.
  unfold normalize_type. destruct (PyStr.contains "[" s) eqn:Hs; [|done].
  apply rstrip_contains. destruct (split_second _ _ Hs) as [p Hp].
  unfold PyStr.item_1. rewrite Hp. cbn.
  apply (split_pieces_no_sep _ s). by eapply list_elem_of_lookup_2.
Qed.

(** X1. The result of [normalize_type] holds no '[', so normalizing it
    again changes nothing. *)
Theorem normalize_type_idempotent (attr_type : string) :
  PyStr.contains "[" (normalize_type attr_type) = false
  /\ normalize_type (normalize_type attr_type) = normalize_type attr_type.
Proof.
  split; [apply normalize_type_no_open|].
  apply normalize_type_plain, normalize_type_no_open.
Qed.

Lemma recognized_no_open outer :
  outer ∈ recognized_names -> PyStr.contains "[" outer = false.
Proof.
  unfold recognized_names. rewrite !elem_of_cons, elem_of_nil.
  by intros [->|[->|[->|[]]]].
Qed.

(** X2. For a single-level generic over a plain name, normalization
    drops the container: [List[Foo]], [Optional[Foo]], [Dict[Foo]],
    [List[m.Foo]] and [Foo] all normalize to [Foo]. *)
Theorem normalize_type_drops_container (outer foo : string) (value : expr) :
  outer ∈ recognized_names -> bracket_free foo = true ->
  normalize_type (resolve_type (Subscript (Name outer) (Name foo))) = foo
  /\ normalize_type (resolve_type (Subscript (Name outer) (Attribute value foo))) = foo
  /\ normalize_type (resolve_type (Name foo)) = foo
  /\ normalize_type (resolve_type (Attribute value foo)) = foo.
Proof.
  intros Hrec Hfree. pose proof (recognized_no_open _ Hrec) as Houter.
  apply bracket_free_spec in Hfree as Hfoo. destruct Hfoo as [Hopen _].
  split_and!.
  - rewrite (resolve_type_generic outer (Name foo)) by done.
    by apply normalize_type_single_level.
  - rewrite (resolve_type_generic outer (Attribute value foo)) by done.
    by apply normalize_type_single_level.
  - by apply normalize_type_plain.
  - by apply normalize_type_plain.
Qed.

Lemma normalize_type_drops_container_witness :
  normalize_type (resolve_type (Subscript (Name "Optional") (Name "Profile"))) = "Profile".
Proof.
  refine (proj1 (normalize_type_drops_container "Optional" "Profile" (Name "m") _ _)).
  - unfold recognized_names. apply list_elem_of_further, list_elem_of_here.
  - reflexivity.
Defined.

Lemma resolve_type_plain_no_open annotation :
  plain_names annotation = true ->
  ~ (exists outer slice, annotation = Subscript (Name outer) slice
                         /\ outer ∈ recognized_names /\ inner_shape slice) ->
  PyStr.contains "[" (resolve_type annotation) = false.
Proof.
  intros Hplain Hno.
  destruct annotation as [id|value attr|value slice|elts|repr|]; try done.
  - by apply bracket_free_spec in Hplain as [? _].
  - by apply bracket_free_spec in Hplain as [? _].
  - rewrite resolve_type_complex; [done|].
    intros (outer & -> & Hrec & Hshape). apply Hno. by exists outer, slice.
Qed.

Lemma classic_generic_annotation annotation :
  (exists outer slice, annotation = Subscript (Name outer) slice
                       /\ outer ∈ recognized_names /\ inner_shape slice)
  \/ ~ (exists outer slice, annotation = Subscript (Name outer) slice
                           /\ outer ∈ recognized_names /\ inner_shape slice).
Proof.
  destruct annotation as [id|value attr|value slice|elts|repr|];
    try (right; by intros (? & ? & ? & _)).
  destruct (classic_generic value slice) as [(outer & -> & Hrec & Hshape)|Hno].
  - left. by exists outer, slice.
  - right. intros (outer & slice' & [= -> ->] & Hrec & Hshape). apply Hno. by exists outer.
Qed.

Lemma resolve_type_open_iff annotation :
  plain_names annotation = true ->
  (PyStr.contains "[" (resolve_type annotation) = true
   <-> exists outer slice, annotation = Subscript (Name outer) slice
                           /\ outer ∈ recognized_names /\ inner_shape slice).
Proof.
  intros Hplain. split.
  - intros Hopen.
    destruct (classic_generic_annotation annotation) as [Hgen|Hno]; [done|].
    by rewrite (resolve_type_plain_no_open _ Hplain Hno) in Hopen.
  - intros (outer & slice & -> & Hrec & Hshape).
    rewrite resolve_type_generic by done.
    rewrite !contains_app. cbn. by rewrite orb_true_r.
Qed.

(** X3. When the identifiers of an annotation hold no bracket, the
    resolved descriptor holds a '[' exactly when the annotation is a
    recognized container ([List], [Optional], [Dict]) subscripted by a
    name, a subscript or an attribute: these, and only these, annotations
    reach the extractor's generic branch. *)
Theorem resolve_type_generic_iff (annotation : expr) :
  plain_names annotation = true ->
  (PyStr.contains "[" (resolve_type annotation) = true
   <-> exists outer slice, annotation = Subscript (Name outer) slice
                           /\ outer ∈ recognized_names /\ inner_shape slice).
Proof. apply resolve_type_open_iff. Qed.

Lemma resolve_type_generic_iff_witness :
  PyStr.contains "[" (resolve_type list_optional_foo) = true.
Proof.
  apply (resolve_type_generic_iff list_optional_foo eq_refl).
  exists "List", (Subscript (Name "Optional") (Name "Foo")).
  split; [done|]. split; [apply list_elem_of_here|done].
Defined.


(** ** The extractor's tables *)

Lemma dict_keys_update_elem {V} k (d l : list (string * V)) :
  k ∈ dict_keys (dict_update d l) <-> k ∈ dict_keys d \/ k ∈ dict_keys l.
Proof.
  revert d. induction l as [|[k' v'] l IH]; intros d.
  - cbn. split; [by left|]. intros [?|Hin]; [done|]. by apply elem_of_nil in Hin.
  - change (dict_update d ((k', v') :: l)) with (dict_update (dict_set k' v' d) l).
    rewrite IH, dict_keys_set. unfold keys_add, dict_keys. rewrite fmap_cons. cbn [fst].
    rewrite elem_of_cons. case_bool_decide as Hk'.
    + split; [tauto|]. intros [?|[->|?]]; tauto.
    + rewrite elem_of_app, list_elem_of_singleton. tauto.
Qed.

Lemma class_definitions_keys tree n :
  n ∈ dict_keys (class_definitions tree) <-> top_level_class tree n.
Proof.
  unfold class_definitions, top_level_class. rewrite dict_keys_update_elem.
  unfold dict_keys, class_items. split.
  - intros [Hin|Hin]; [by apply elem_of_nil in Hin|].
    apply list_elem_of_fmap in Hin as ([k [bases body]] & -> & Hin).
    apply list_elem_of_omap in Hin as (node & Hnode & Hsome).
    destruct node; simplify_eq. by exists bases, body.
  - intros (bases & body & Hin). right. apply list_elem_of_fmap.
    exists (n, (bases, body)). split; [done|].
    apply list_elem_of_omap. by exists (ClassDef n bases body).
Qed.

(** X4. The class table of a file's extraction has exactly one entry
    for each name that a top-level [class] statement of the file defines,
    and none for any other name (a class defined inside another class's
    body is not collected). *)
Theorem extracted_classes_are_top_level (file_path : string) (tree : list stmt) :
  NoDup (dict_keys (classes (extract_tree file_path tree)))
  /\ forall n, n ∈ dict_keys (classes (extract_tree file_path tree))
               <-> top_level_class tree n.
Proof.
  destruct (extract_tree_keys file_path tree) as [-> _]. split.
  - apply class_definitions_NoDup.
  - apply class_definitions_keys.
Qed.

Lemma is_base_marker_spec base : is_base_marker base = true <-> names_base_model base.
Proof.
  unfold names_base_model. destruct base as [id|value attr| | | |]; cbn.
  - rewrite String.eqb_eq. split; [intros ->; by left|]. by intros [[= ->]|[? ?]].
  - rewrite String.eqb_eq. split; [intros ->; right; by eexists|].
    by intros [?|[? [= _ ->]]].
  - split; [done|]. by intros [?|[? ?]].
  - split; [done|]. by intros [?|[? ?]].
  - split; [done|]. by intros [?|[? ?]].
  - split; [done|]. by intros [?|[? ?]].
Qed.

(** X5. A class is in the base-model set of a file's extraction exactly
    when the definition retained for it lists, among its direct bases,
    [BaseModel] or a qualified [<module>.BaseModel]; a base of a base is
    not looked at. *)
Theorem base_model_iff (file_path : string) (tree : list stmt) (n : string) :
  n ∈ base_models (extract_tree file_path tree)
  <-> exists bases body,
        dict_get n (class_definitions tree) = Some (bases, body)
        /\ exists base, base ∈ bases /\ names_base_model base.
Proof.
  rewrite base_models_spec. split.
  - intros ([bases body] & Hget & Hbase). exists bases, body. split; [done|].
    apply existsb_exists in Hbase as (base & Hin & Hbase).
    exists base. split; [by apply list_elem_of_In|by apply is_base_marker_spec].
  - intros (bases & body & Hget & base & Hin & Hbase). exists (bases, body).
    split; [done|]. apply existsb_exists. exists base.
    split; [by apply list_elem_of_In|by apply is_base_marker_spec].
Qed.

Lemma class_refs_flagged (cds : dict class_node) class_name body :
  ref_field <$> class_refs cds class_name body
  = flagged_fields [(class_name, class_fields cds body)].
Proof.
  unfold flagged_fields. rewrite bind_cons. cbn [mbind list_bind]. rewrite app_nil_r.
  unfold class_refs, class_fields.
  induction body as [|child body IH]; [done|].
  destruct child as [| |target annotation|]; try exact IH.
  destruct target as [attr_name| | | | |]; try exact IH.
  cbn [omap list_omap ref_of field_of].
  destruct (inner_model_truthy _).
  - rewrite fmap_cons, bind_cons. cbn [app]. f_equal. exact IH.
  - rewrite bind_cons. exact IH.
Qed.

Lemma flagged_fields_app (l1 l2 : dict (list FieldRecord)) :
  flagged_fields (l1 ++ l2) = flagged_fields l1 ++ flagged_fields l2.
Proof. unfold flagged_fields. apply bind_app. Qed.

(** X6. In a file's extraction the NestedReferences and the fields
    marked nested correspond one to one and in the same order: the
    (class, field) pairs the references leave from are the pairs whose
    FieldRecord has is-nested = true. *)
Theorem nested_flags_match_references (file_path : string) (tree : list stmt) :
  ref_field <$> nested_relationships (extract_tree file_path tree)
  = flagged_fields (classes (extract_tree file_path tree)).
Proof.
  rewrite extract_tree_eq. cbn [nested_relationships classes].
  generalize (class_definitions tree) at 1 3 as cds.
  induction (class_definitions tree) as [|[class_name [bases body]] l IH]; intros cds.
  - done.
  - rewrite bind_cons, fmap_app, fmap_cons. cbn [fst snd].
    change ((class_name, class_fields cds body) :: ?l')
      with ([(class_name, class_fields cds body)] ++ l').
    rewrite flagged_fields_app, <-class_refs_flagged. f_equal. apply IH.
Qed.

Lemma core_name_non_generic annotation :
  ~ generic_annotation annotation -> core_name annotation = resolve_type annotation.
Proof.
  intros Hno. destruct annotation as [id|value attr|value slice|elts|repr|]; try done.
  destruct value as [outer| | | | |]; try done. cbn [core_name resolve_type].
  destruct (recognized_container outer) eqn:Hrec; [|done].
  apply recognized_container_spec in Hrec.
  destruct slice; try done; exfalso; apply Hno; by eexists _, _.
Qed.

(** What the flag of a field is, for annotations over proper identifiers. *)
Lemma inner_model_truthy_iff (cds : dict class_node) annotation :
  plain_names annotation = true -> PyStr.truthy (core_name annotation) = true ->
  inner_model_truthy (inner_model_of cds (resolve_type annotation)) = true
  <-> generic_annotation annotation \/ resolve_type annotation ∈ dict_keys cds.
Proof.
  intros Hplain Htruthy.
  pose proof (resolve_type_open_iff annotation Hplain) as Hgen.
  fold (generic_annotation annotation) in Hgen.
  destruct (PyStr.contains "[" (resolve_type annotation)) eqn:Hopen.
  - rewrite inner_model_generic by done. cbn [inner_model_truthy].
    pose proof (last_segment_core annotation Hplain EmptyString eq_refl) as Hcore.
    rewrite app_empty_r in Hcore. rewrite Hcore, Htruthy.
    split; [intros _; left; by apply Hgen|done].
  - assert (~ generic_annotation annotation) as Hno.
    { intros H%Hgen. done. }
    rewrite <-dict_in_true. unfold inner_model_of. rewrite Hopen.
    destruct (dict_in (resolve_type annotation) cds).
    + cbn [inner_model_truthy]. rewrite <-core_name_non_generic, Htruthy by done.
      split; [by right|done].
    + cbn [inner_model_truthy]. split; [done|]. by intros [?|?].
Qed.

(** X7. For a field annotated over identifiers that hold no bracket and
    are not empty, the extractor marks the field nested exactly when the
    annotation is a recognized container subscripted by a name, a subscript
    or an attribute, or when its resolved type is the name of a class
    defined at the top level of the same file, before or after the class
    that owns the field. *)
Theorem field_nested_iff (file_path : string) (tree : list stmt) (n : string)
    (bases : list expr) (body : list stmt) (attr_name : string) (annotation : expr) :
  dict_get n (class_definitions tree) = Some (bases, body) ->
  AnnAssign (Name attr_name) annotation ∈ body ->
  plain_names annotation = true -> PyStr.truthy (core_name annotation) = true ->
  exists attributes is_nested,
    dict_get n (classes (extract_tree file_path tree)) = Some attributes
    /\ (attr_name, resolve_type annotation, is_nested) ∈ attributes
    /\ (is_nested = true
        <-> generic_annotation annotation
            \/ top_level_class tree (resolve_type annotation)).
Proof.
  intros Hget Hin Hplain Htruthy.
  exists (class_fields (class_definitions tree) body),
         (inner_model_truthy
            (inner_model_of (class_definitions tree) (resolve_type annotation))).
  split_and!.
  - by rewrite extract_tree_classes, Hget.
  - apply list_elem_of_omap. by exists (AnnAssign (Name attr_name) annotation).
  - rewrite inner_model_truthy_iff by done. by rewrite class_definitions_keys.
Qed.

Lemma field_nested_iff_witness :
  exists attributes,
    dict_get "User" (classes (extract_tree "m/user.py" sample_forward_tree))
    = Some attributes
    /\ ("profile", "Profile", true) ∈ attributes.
Proof.
  destruct (field_nested_iff "m/user.py" sample_forward_tree "User" []
              [AnnAssign (Name "name") (Name "str");
               AnnAssign (Name "profile") (Name "Profile")]
              "profile" (Name "Profile") eq_refl)
    as (attributes & is_nested & Hget & Hin & Hiff).
  - apply list_elem_of_further, list_elem_of_here.
  - reflexivity.
  - reflexivity.
  - exists attributes. split; [done|].
    assert (is_nested = true) as Htrue.
    { apply Hiff. right. exists [Attribute (Name "pydantic") "BaseModel"], [].
      apply list_elem_of_further, list_elem_of_here. }
    rewrite Htrue in Hin. exact Hin.
Defined.

(** ** The aggregated tables *)

Lemma merge_fold_relationships es all :
  nested_relationships (fold_left merge es all)
  = nested_relationships all ++ (es ≫= nested_relationships).
Proof.
  revert all. induction es as [|e es IH]; intros all.
  - by rewrite app_nil_r.
  - cbn [fold_left]. rewrite IH, bind_cons. cbn [merge nested_relationships].
    by rewrite <-app_assoc.
Qed.

Lemma merge_fold_base_models es all :
  base_models (fold_left merge es all) = base_models all ∪ ⋃ (base_models <$> es).
Proof.
  revert all. induction es as [|e es IH]; intros all.
  - cbn. set_solver.
  - cbn [fold_left]. rewrite IH, fmap_cons. cbn [merge base_models union_list foldr].
    set_solver.
Qed.

Lemma merge_fold_class_keys es all k :
  k ∈ dict_keys (classes (fold_left merge es all))
  <-> k ∈ dict_keys (classes all) \/ exists e, e ∈ es /\ k ∈ dict_keys (classes e).
Proof.
  revert all. induction es as [|e es IH]; intros all.
  - cbn. split; [by left|]. intros [?|(e & He & _)]; [done|by apply elem_of_nil in He].
  - cbn [fold_left]. rewrite IH. cbn [merge classes]. rewrite dict_keys_update_elem.
    split.
    + intros [[?|?]|(e' & He' & ?)]; [by left|right..].
      * exists e. split; [apply list_elem_of_here|done].
      * exists e'. split; [by apply list_elem_of_further|done].
    + intros [?|(e' & [->|He']%elem_of_cons & ?)]; [by left; left|by left; right|].
      right. by exists e'.
Qed.

Section AggregatedTables.
Variable parse : string -> result (list stmt).
Variable fs : string -> string.

Lemma analyze_parts walk :
  Forall (fun q => exists tree, parse (fs q) = Ok tree) (py_files walk) ->
  exists all es,
    analyze_models_folder parse fs walk = Ok all
    /\ Forall2 (extracted parse fs) (py_files walk) es
    /\ all = fold_left merge es empty_extraction.
Proof.
  intros [all Hall]%(analyze_total parse fs).
  pose proof Hall as (es & Hes & ->)%analyze_Ok. by eexists _, es.
Qed.

Lemma extracted_of_file walk es p tree :
  Forall2 (extracted parse fs) (py_files walk) es ->
  p ∈ py_files walk -> parse (fs p) = Ok tree ->
  extract_tree p tree ∈ es.
Proof.
  intros Hes [i Hi]%list_elem_of_lookup Hp.
  destruct (Forall2_lookup_l _ _ _ _ _ Hes Hi) as (e & He & tree' & Htree' & ->).
  rewrite Hp in Htree'. injection Htree' as <-. by eapply list_elem_of_lookup_2.
Qed.

Lemma file_of_extracted walk es e :
  Forall2 (extracted parse fs) (py_files walk) es -> e ∈ es ->
  exists p tree, p ∈ py_files walk /\ parse (fs p) = Ok tree /\ e = extract_tree p tree.
Proof.
  intros Hes [i Hi]%list_elem_of_lookup.
  destruct (Forall2_lookup_r _ _ _ _ _ Hes Hi) as (p & Hp & tree & Htree & ->).
  exists p, tree. split; [by eapply list_elem_of_lookup_2|done].
Qed.

(** X8. When every visited file parses, the aggregated relationship
    list is the files' relationship lists one after the other, in visiting
    order, and the aggregated base-model set is the union of the files'
    sets. Nothing is ever withdrawn: a file's NestedReferences and
    base-model flags stay in the result also when a later file redefines
    the class and replaces its entry in the class table. *)
Theorem relationships_and_flags_accumulate (walk : list (string * list string)) :
  Forall (fun q => exists tree, parse (fs q) = Ok tree) (py_files walk) ->
  exists all es,
    analyze_models_folder parse fs walk = Ok all
    /\ Forall2 (extracted parse fs) (py_files walk) es
    /\ nested_relationships all = es ≫= nested_relationships
    /\ base_models all = ⋃ (base_models <$> es)
    /\ forall p tree,
         p ∈ py_files walk -> parse (fs p) = Ok tree ->
         base_models (extract_tree p tree) ⊆ base_models all
         /\ forall r, r ∈ nested_relationships (extract_tree p tree) ->
                      r ∈ nested_relationships all.
Proof.
  intros (all & es & Hall & Hes & ->)%analyze_parts.
  exists (fold_left merge es empty_extraction), es.
  rewrite merge_fold_relationships, merge_fold_base_models.
  cbn [empty_extraction nested_relationships base_models app].
  split_and!; [done|done|done|set_solver|].
  intros p tree Hp Htree. pose proof (extracted_of_file _ _ _ _ Hes Hp Htree) as Hin.
  split.
  - intros n Hn. apply elem_of_union. right. apply elem_of_union_list.
    exists (base_models (extract_tree p tree)). split; [|done].
    apply list_elem_of_fmap. by eexists.
  - intros r Hr. apply list_elem_of_bind. by exists (extract_tree p tree).
Qed.

(** X9. When every visited file parses, every class of the aggregated
    base-model set, and the source class of every aggregated
    NestedReference, has an entry in the aggregated class table. *)
Theorem aggregated_names_are_classes (walk : list (string * list string)) :
  Forall (fun q => exists tree, parse (fs q) = Ok tree) (py_files walk) ->
  exists all,
    analyze_models_folder parse fs walk = Ok all
    /\ (forall n, n ∈ base_models all -> n ∈ dict_keys (classes all))
    /\ (forall r, r ∈ nested_relationships all ->
                  ref_source r ∈ dict_keys (classes all)).
Proof.
  intros (all & es & Hall & Hes & ->)%analyze_parts. eexists. split; [done|].
  split.
  - intros n. rewrite merge_fold_base_models, merge_fold_class_keys.
    intros [Hn|Hn]%elem_of_union; [by apply elem_of_empty in Hn|].
    apply elem_of_union_list in Hn as (X & (e & -> & He)%list_elem_of_fmap & Hn).
    right. exists e. split; [done|].
    destruct (file_of_extracted _ _ _ Hes He) as (p & tree & _ & _ & ->).
    apply base_models_spec in Hn as (node & Hnode & _).
    destruct (extract_tree_keys p tree) as [-> _]. apply dict_get_is_Some. by eexists.
  - intros r. rewrite merge_fold_relationships, merge_fold_class_keys.
    cbn [empty_extraction nested_relationships app].
    intros (e & Hr & He)%list_elem_of_bind. right. exists e. split; [done|].
    destruct (file_of_extracted _ _ _ Hes He) as (p & tree & _ & _ & ->).
    apply nested_relationships_spec in Hr as (node & Hnode & _).
    destruct (extract_tree_keys p tree) as [-> _]. apply dict_get_is_Some. by eexists.
Qed.

(** X10. When every visited file parses, the file that the aggregated
    class-to-file map gives for a class is one of the visited files, and
    that file defines the class at its top level. *)
Theorem class_file_defines_class (walk : list (string * list string)) :
  Forall (fun q => exists tree, parse (fs q) = Ok tree) (py_files walk) ->
  exists all,
    analyze_models_folder parse fs walk = Ok all
    /\ forall n p,
         dict_get n (file_to_class_map all) = Some p ->
         p ∈ py_files walk
         /\ exists tree, parse (fs p) = Ok tree /\ top_level_class tree n.
Proof.
  intros (all & es & Hall & Hes & ->)%analyze_parts. eexists. split; [done|].
  intros n p Hget. apply (merge_fold_origin file_to_class_map) in Hget; [|done].
  destruct Hget as [Hget|(e & He & Hin)]; [done|].
  destruct (file_of_extracted _ _ _ Hes He) as (p' & tree & Hp' & Htree & ->).
  rewrite extract_tree_eq in Hin. cbn [file_to_class_map] in Hin.
  apply list_elem_of_fmap in Hin as ([k node] & [= -> ->] & Hin).
  split; [done|]. exists tree. split; [done|].
  apply class_definitions_keys, list_elem_of_fmap. by exists (k, node).
Qed.

End AggregatedTables.

Lemma models_aggregated :
  analyze_models_folder models_parse models_fs models_walk = Ok models_all.
Proof. by vm_compute. Qed.

Lemma models_parse_all :
  Forall (fun q => exists tree, models_parse (models_fs q) = Ok tree) (py_files models_walk).
Proof. repeat constructor; by eexists. Qed.

(** On the folder of two model files: the class table holds the later
    [User], which has no base and no reference, and still [User] is in the
    base-model set and [(User, profile, Profile)] among the references,
    both from the earlier file. *)
Lemma relationships_and_flags_accumulate_witness :
  exists all,
    analyze_models_folder models_parse models_fs models_walk = Ok all
    /\ dict_get "User" (classes all) = Some [("name", "int", false)]
    /\ base_models (extract_tree "m/order.py" order_tree) = {["Order"]}
    /\ "User" ∈ base_models all
    /\ ("User", "profile", "Profile") ∈ nested_relationships all
    /\ nested_relationships all
       = [("User", "profile", "Profile"); ("Order", "buyer", "User")].
Proof.
  destruct (relationships_and_flags_accumulate models_parse models_fs models_walk
              models_parse_all)
    as (all & es & Hall & Hes & Hrels & Hbase & Hkept).
  exists all. split; [exact Hall|].
  destruct (Hkept "m/user.py" user_tree) as [Hflags Hrefs];
    [apply list_elem_of_here|reflexivity|].
  split_and!.
  - rewrite models_aggregated in Hall. by injection Hall as <-.
  - by vm_compute.
  - apply Hflags. assert (base_models (extract_tree "m/user.py" user_tree)
                          = {["User"; "Profile"]}) as -> by (by vm_compute).
    set_solver.
  - apply Hrefs. apply list_elem_of_here.
  - rewrite Hrels.
    apply Forall2_cons_inv_l in Hes as (e1 & es1 & (t1 & Ht1 & ->) & Hes & ->).
    apply Forall2_cons_inv_l in Hes as (e2 & es2 & (t2 & Ht2 & ->) & Hes & ->).
    apply Forall2_nil_inv_l in Hes as ->.
    vm_compute in Ht1, Ht2. injection Ht1 as <-. injection Ht2 as <-. reflexivity.
Defined.

Lemma aggregated_names_are_classes_witness :
  exists all,
    analyze_models_folder models_parse models_fs models_walk = Ok all
    /\ base_models all = {["User"; "Profile"; "Order"]}
    /\ nested_relationships all
       = [("User", "profile", "Profile"); ("Order", "buyer", "User")]
    /\ dict_keys (classes all) = ["User"; "Profile"; "Order"]
    /\ (forall n, n ∈ base_models all -> n ∈ dict_keys (classes all))
    /\ (forall r, r ∈ nested_relationships all -> ref_source r ∈ dict_keys (classes all)).
Proof.
  destruct (aggregated_names_are_classes models_parse models_fs models_walk
              models_parse_all)
    as (all & Hall & Hbase & Hrefs).
  exists all. split; [exact Hall|].
  assert (all = models_all) as Heq.
  { rewrite models_aggregated in Hall. by injection Hall as <-. }
  split_and!; [by rewrite Heq..|exact Hbase|exact Hrefs].
Defined.

Lemma class_file_defines_class_witness :
  exists all,
    analyze_models_folder toy_parse sample_fs sample_walk = Ok all
    /\ forall n p, dict_get n (file_to_class_map all) = Some p -> p ∈ py_files sample_walk.
Proof.
  destruct (class_file_defines_class toy_parse sample_fs sample_walk)
    as (all & Hall & Hfile).
  - repeat constructor; by eexists.
  - exists all. split; [done|]. intros n p Hget. by apply (Hfile n p).
Defined.

(** ** The detector: when it returns, and what its two results share *)

Section DetectorOutcome.
Variable class_to_file_map : dict string.
Implicit Types (st : list (string * gset string) * list (string * list string)).

Lemma record_attribute_found class_name st attr file :
  dict_get class_name class_to_file_map = Some file ->
  exists st', record_attribute class_to_file_map class_name st attr = Ok st'.
Proof.
  intros Hfile. destruct st as [ty fl], attr as [[attr_name attr_type] nested].
  unfold record_attribute. rewrite Hfile. by eexists.
Qed.

Lemma record_attribute_missing class_name st attr :
  dict_get class_name class_to_file_map = None ->
  record_attribute class_to_file_map class_name st attr = Raise (KeyError class_name).
Proof.
  intros Hfile. destruct st as [ty fl], attr as [[attr_name attr_type] nested].
  unfold record_attribute. by rewrite Hfile.
Qed.

Lemma class_loop_total class_name attributes st :
  has_file class_to_file_map (class_name, attributes) ->
  exists st', for_each (record_attribute class_to_file_map class_name) attributes st = Ok st'.
Proof.
  unfold has_file. cbn [fst snd].
  intros [Hempty|[file Hfile]%dict_get_is_Some]; [subst; by exists st|]. revert st.
  induction attributes as [|attr attributes IH]; intros st; [by exists st|].
  cbn [for_each]. destruct (record_attribute_found class_name st attr file Hfile) as [st' ->].
  exact (IH st').
Qed.

Lemma class_loop_raise class_name attributes st :
  ~ has_file class_to_file_map (class_name, attributes) ->
  for_each (record_attribute class_to_file_map class_name) attributes st
  = Raise (KeyError class_name).
Proof.
  intros Hno. destruct attributes as [|attr attributes].
  - exfalso. apply Hno. by left.
  - cbn [for_each]. rewrite record_attribute_missing; [done|].
    apply dict_get_None. intros Hin. apply Hno. by right.
Qed.

Lemma has_file_dec item :
  has_file class_to_file_map item \/ ~ has_file class_to_file_map item.
Proof.
  unfold has_file. destruct item as [class_name [|attr attributes]]; [by left; left|].
  destruct (decide (class_name ∈ dict_keys class_to_file_map)); [by left; right|].
  right. by intros [?|?].
Qed.

Lemma index_outcome (classes : dict (list FieldRecord)) st :
  (Forall (has_file class_to_file_map) classes
   /\ exists st', for_each (fun st '(class_name, attributes) =>
                              for_each (record_attribute class_to_file_map class_name)
                                       attributes st) classes st = Ok st')
  \/ (exists l1 class_name attributes l2,
        classes = l1 ++ (class_name, attributes) :: l2
        /\ Forall (has_file class_to_file_map) l1
        /\ ~ has_file class_to_file_map (class_name, attributes)
        /\ for_each (fun st '(class_name, attributes) =>
                       for_each (record_attribute class_to_file_map class_name)
                                attributes st) classes st = Raise (KeyError class_name)).
Proof.
  revert st. induction classes as [|[class_name attributes] classes IH]; intros st.
  - left. split; [done|]. by exists st.
  - cbn [for_each].
    destruct (has_file_dec (class_name, attributes)) as [Hhas|Hno].
    + destruct (class_loop_total class_name attributes st Hhas) as [st1 ->].
      rewrite result_bind_Ok.
      destruct (IH st1) as [[Hall [st' Hst']]|(l1 & c & attrs & l2 & -> & Hl1 & Hc & Hraise)].
      * left. split; [by constructor|]. by exists st'.
      * right. exists ((class_name, attributes) :: l1), c, attrs, l2.
        split_and!; [done|by constructor|done|done].
    + right. exists [], class_name, attributes, classes.
      split_and!; [done|done|done|]. by rewrite class_loop_raise.
Qed.

Lemma find_outcome (classes : dict (list FieldRecord)) :
  (Forall (has_file class_to_file_map) classes
   /\ exists res, find_inconsistent_attributes classes class_to_file_map = Ok res)
  \/ (exists l1 class_name attributes l2,
        classes = l1 ++ (class_name, attributes) :: l2
        /\ Forall (has_file class_to_file_map) l1
        /\ ~ has_file class_to_file_map (class_name, attributes)
        /\ find_inconsistent_attributes classes class_to_file_map
           = Raise (KeyError class_name)).
Proof.
  unfold find_inconsistent_attributes, index_attributes.
  destruct (index_outcome classes ([], []))
    as [[Hall [[ty fl] ->]]|(l1 & c & attrs & l2 & -> & Hl1 & Hc & ->)].
  - left. split; [done|]. rewrite result_bind_Ok. by eexists.
  - right. by exists l1, c, attrs, l2.
Qed.

Lemma split_first_missing (l1 l1' l2 l2' : dict (list FieldRecord)) x x' :
  l1 ++ x :: l2 = l1' ++ x' :: l2' ->
  Forall (has_file class_to_file_map) l1 -> ~ has_file class_to_file_map x ->
  Forall (has_file class_to_file_map) l1' -> ~ has_file class_to_file_map x' ->
  x = x'.
Proof.
  revert l1'. induction l1 as [|y l1 IH]; intros [|y' l1'] Heq Hl1 Hx Hl1' Hx';
    simplify_eq/=.
  - done.
  - by apply Forall_cons in Hl1' as [? _].
  - by apply Forall_cons in Hl1 as [? _].
  - apply Forall_cons in Hl1 as [_ Hl1]. apply Forall_cons in Hl1' as [_ Hl1'].
    by apply (IH l1').
Qed.

Lemma find_returns (classes : dict (list FieldRecord)) :
  Forall (has_file class_to_file_map) classes ->
  exists res, find_inconsistent_attributes classes class_to_file_map = Ok res.
Proof.
  intros Hall.
  destruct (find_outcome classes)
    as [[_ Hres]|(l1 & c & attrs & l2 & -> & Hl1 & Hc & Hraise)]; [done|].
  exfalso. apply Hc.
  apply Forall_app in Hall as [_ Hall]. by apply Forall_cons in Hall as [? _].
Qed.

(** X11. The detector returns exactly when every class that has at
    least one field has an entry in the class-to-file map (a class without
    fields is never looked up). Otherwise it raises [KeyError] for the
    first class, in table order, that has a field and no entry. *)
Theorem detector_returns_iff (classes : dict (list FieldRecord)) :
  ((exists res, find_inconsistent_attributes classes class_to_file_map = Ok res)
   <-> Forall (has_file class_to_file_map) classes)
  /\ (forall l1 class_name attributes l2,
        classes = l1 ++ (class_name, attributes) :: l2 ->
        Forall (has_file class_to_file_map) l1 ->
        ~ has_file class_to_file_map (class_name, attributes) ->
        find_inconsistent_attributes classes class_to_file_map
        = Raise (KeyError class_name)).
Proof.
  split.
  - destruct (find_outcome classes)
      as [[Hall Hres]|(l1 & c & attrs & l2 & -> & Hl1 & Hc & Hraise)].
    + done.
    + rewrite Hraise. split; [by intros [? ?]|].
      intros Hall. exfalso. apply Hc.
      apply Forall_app in Hall as [_ Hall]. by apply Forall_cons in Hall as [? _].
  - intros l1 class_name attributes l2 -> Hl1 Hno.
    destruct (find_outcome (l1 ++ (class_name, attributes) :: l2))
      as [[Hall _]|(l1' & c & attrs & l2' & Heq & Hl1' & Hc & Hraise)].
    + exfalso. apply Hno.
      apply Forall_app in Hall as [_ Hall]. by apply Forall_cons in Hall as [? _].
    + rewrite Hraise.
      by pose proof (split_first_missing _ _ _ _ _ _ Heq Hl1 Hno Hl1' Hc) as [= -> _].
Qed.

End DetectorOutcome.

Lemma detector_returns_iff_witness :
  find_inconsistent_attributes
    [("Empty", []); ("User", [("name", "str", false)]); ("Order", [("name", "int", false)])]
    [("Order", "m/order.py")]
  = Raise (KeyError "User").
Proof.
  apply (proj2 (detector_returns_iff [("Order", "m/order.py")] _) [("Empty", [])] "User"
               [("name", "str", false)] [("Order", [("name", "int", false)])] eq_refl).
  - constructor; [by left|constructor].
  - intros [H|H]; [done|]. vm_compute in H.
    apply elem_of_cons in H as [H|H]; [done|by apply elem_of_nil in H].
Defined.

Lemma elem_of_attr_occurrences (classes : dict (list FieldRecord)) class_name attr_name
    attr_type :
  (class_name, attr_name, attr_type) ∈ attr_occurrences classes
  <-> exists attributes nested,
        (class_name, attributes) ∈ classes /\ (attr_name, attr_type, nested) ∈ attributes.
Proof.
  unfold attr_occurrences. rewrite list_elem_of_bind. split.
  - intros ([c attributes] & Ho & Hin).
    apply list_elem_of_bind in Ho as ([[a t] nested] & Ho & Hattr).
    apply list_elem_of_singleton in Ho as [= -> -> ->]. by exists attributes, nested.
  - intros (attributes & nested & Hin & Hattr). exists (class_name, attributes).
    split; [|done]. apply list_elem_of_bind. exists (attr_name, attr_type, nested).
    split; [apply list_elem_of_here|done].
Qed.

Lemma elem_of_observed_types (classes : dict (list FieldRecord)) name x :
  x ∈ observed_types name classes
  <-> exists class_name attributes attr_type nested,
        (class_name, attributes) ∈ classes /\ (name, attr_type, nested) ∈ attributes
        /\ x = normalize_type attr_type.
Proof.
  unfold observed_types, types_of. rewrite elem_of_list_to_set, list_elem_of_bind. split.
  - intros ([[c a] t] & Hx & Ho). cbn [fst snd] in Hx.
    destruct (String.eqb_spec a name) as [->|]; [|by apply elem_of_nil in Hx].
    apply list_elem_of_singleton in Hx as ->.
    apply elem_of_attr_occurrences in Ho as (attributes & nested & ? & ?).
    by exists c, attributes, t, nested.
  - intros (c & attributes & t & nested & Hin & Hattr & ->). exists (c, name, t).
    cbn [fst snd]. rewrite String.eqb_refl. split; [apply list_elem_of_here|].
    apply elem_of_attr_occurrences. by exists attributes, nested.
Qed.

Lemma elem_of_observed_files (class_to_file_map : dict string)
    (classes : dict (list FieldRecord)) name file :
  file ∈ observed_files class_to_file_map name classes
  <-> exists class_name attributes attr_type nested,
        (class_name, attributes) ∈ classes /\ (name, attr_type, nested) ∈ attributes
        /\ dict_get class_name class_to_file_map = Some file.
Proof.
  unfold observed_files, files_of. rewrite elem_of_list_to_set, list_elem_of_bind. split.
  - intros ([[c a] t] & Hx & Ho). cbn [fst snd] in Hx.
    destruct (String.eqb_spec a name) as [->|]; [|by apply elem_of_nil in Hx].
    destruct (dict_get c class_to_file_map) as [file'|] eqn:Hfile;
      [|by apply elem_of_nil in Hx].
    apply list_elem_of_singleton in Hx as ->.
    apply elem_of_attr_occurrences in Ho as (attributes & nested & ? & ?).
    by exists c, attributes, t, nested.
  - intros (c & attributes & t & nested & Hin & Hattr & Hfile). exists (c, name, t).
    cbn [fst snd]. rewrite String.eqb_refl, Hfile. split; [apply list_elem_of_here|].
    apply elem_of_attr_occurrences. by exists attributes, nested.
Qed.

Lemma size_gt_1_iff (X : gset string) :
  1 < size X <-> exists x y, x ∈ X /\ y ∈ X /\ x ≠ y.
Proof.
  split.
  - intros Hsize.
    destruct (set_choose_L X) as [x Hx].
    { intros ->. rewrite size_empty in Hsize. lia. }
    destruct (set_choose_L (X ∖ {[x]})) as [y Hy].
    { intros Hempty. assert (X = {[x]}) as HX.
      { apply set_eq. intros z. rewrite elem_of_singleton. split; [|by intros ->].
        intros Hz. destruct (decide (z = x)) as [|Hne]; [done|].
        assert (z ∈ X ∖ {[x]}) as Hz' by (apply elem_of_difference; split;
          [done|by rewrite elem_of_singleton]).
        rewrite Hempty in Hz'. by apply elem_of_empty in Hz'. }
      rewrite HX, size_singleton in Hsize. lia. }
    exists x, y. set_solver.
  - intros (x & y & Hx & Hy & Hne).
    assert (size ({[x; y]} : gset string) ≤ size X) as Hle
      by (apply subseteq_size; set_solver).
    rewrite size_union, !size_singleton in Hle by set_solver. lia.
Qed.

Lemma conflicting_fields_iff (classes : dict (list FieldRecord)) name :
  1 < size (observed_types name classes) <-> conflicting_fields classes name.
Proof.
  rewrite size_gt_1_iff. unfold conflicting_fields. split.
  - intros (x & y & (c1 & a1 & t1 & b1 & ? & ? & ->)%elem_of_observed_types
              & (c2 & a2 & t2 & b2 & ? & ? & ->)%elem_of_observed_types & Hne).
    by exists c1, a1, t1, b1, c2, a2, t2, b2.
  - intros (c1 & a1 & t1 & b1 & c2 & a2 & t2 & b2 & ? & ? & ? & ? & Hne).
    exists (normalize_type t1), (normalize_type t2).
    split_and!; [| |done].
    + apply elem_of_observed_types. by exists c1, a1, t1, b1.
    + apply elem_of_observed_types. by exists c2, a2, t2, b2.
Qed.

Lemma summary_NoDup (classes : dict (list FieldRecord)) (class_to_file_map : dict string)
    inconsistent_attributes inconsistency_summary :
  find_inconsistent_attributes classes class_to_file_map
  = Ok (inconsistent_attributes, inconsistency_summary) ->
  NoDup (dict_keys inconsistency_summary).
Proof.
  unfold find_inconsistent_attributes.
  destruct (index_attributes classes class_to_file_map) as [[ty fl]|]; [|done].
  rewrite result_bind_Ok. intros [= _ <-]. apply NoDup_dict_update, NoDup_nil_2.
Qed.

(** X12. When the detector returns, its two results tell the same
    story: the inconsistent set is the set of the summary's keys, the
    summary has one entry per name, and a name is in them exactly when the
    table holds two fields of that name, in any classes, whose normalized
    types differ. *)
Theorem detector_results_agree (classes : dict (list FieldRecord))
    (class_to_file_map : dict string) :
  Forall (has_file class_to_file_map) classes ->
  exists inconsistent_attributes inconsistency_summary,
    find_inconsistent_attributes classes class_to_file_map
    = Ok (inconsistent_attributes, inconsistency_summary)
    /\ inconsistent_attributes = list_to_set (dict_keys inconsistency_summary)
    /\ NoDup (dict_keys inconsistency_summary)
    /\ forall name, name ∈ inconsistent_attributes <-> conflicting_fields classes name.
Proof.
  intros Hall. apply (find_returns class_to_file_map) in Hall as [[inc summary] Hfind].
  exists inc, summary. pose proof (summary_characterised _ _ _ _ Hfind) as Hchar.
  split_and!.
  - done.
  - apply set_eq. intros name. rewrite elem_of_list_to_set.
    destruct (Hchar name) as (-> & -> & _). done.
  - by eapply summary_NoDup.
  - intros name. destruct (Hchar name) as (_ & -> & _). apply conflicting_fields_iff.
Qed.

Lemma sample_classes_have_files : Forall (has_file sample_file_map) sample_classes.
Proof.
  apply Forall_cons. split.
  { right. vm_compute. apply list_elem_of_here. }
  apply Forall_cons. split; [|apply Forall_nil_2].
  right. vm_compute. apply list_elem_of_further, list_elem_of_here.
Qed.

Lemma detector_results_agree_witness :
  exists inconsistent_attributes inconsistency_summary,
    find_inconsistent_attributes sample_classes sample_file_map
    = Ok (inconsistent_attributes, inconsistency_summary)
    /\ inconsistent_attributes = list_to_set (dict_keys inconsistency_summary).
Proof.
  destruct (detector_results_agree sample_classes sample_file_map)
    as (inc & summary & Hfind & Hkeys & _).
  - apply sample_classes_have_files.
  - exists inc, summary. exact (conj Hfind Hkeys).
Defined.

(** X13. Reordering the class table changes neither whether the
    detector returns nor, when it returns, its answer: the same
    inconsistent set, and summaries with the same entry for every name.
    When it raises, it raises [KeyError] on both tables, each time for a
    class of the table that has a field and no entry in the class-to-file
    map; the class named is the first such one in table order, so it need
    not be the same on both. *)
Theorem detector_order_independent (classes classes' : dict (list FieldRecord))
    (class_to_file_map : dict string) :
  classes ≡ₚ classes' ->
  match find_inconsistent_attributes classes class_to_file_map,
        find_inconsistent_attributes classes' class_to_file_map with
  | Ok (inconsistent_attributes, inconsistency_summary),
    Ok (inconsistent_attributes', inconsistency_summary') =>
      inconsistent_attributes = inconsistent_attributes'
      /\ forall name,
           dict_get name inconsistency_summary = dict_get name inconsistency_summary'
  | Raise e, Raise e' =>
      exists class_name attributes class_name' attributes',
        e = KeyError class_name /\ e' = KeyError class_name'
        /\ (class_name, attributes) ∈ classes /\ (class_name', attributes') ∈ classes
        /\ attributes ≠ [] /\ attributes' ≠ []
        /\ dict_get class_name class_to_file_map = None
        /\ dict_get class_name' class_to_file_map = None
  | _, _ => False
  end.
Proof.
  intros Hperm.
  assert (forall (l : dict (list FieldRecord)) c attrs,
            ~ has_file class_to_file_map (c, attrs) ->
            attrs ≠ [] /\ dict_get c class_to_file_map = None) as Hmissing.
  { intros l c attrs Hno. split.
    - intros ->. apply Hno. by left.
    - apply dict_get_None. intros Hin. apply Hno. by right. }
  destruct (find_outcome class_to_file_map classes)
    as [[Hall [[inc summary] Hfind]]|(l1 & c & attrs & l2 & Heq & _ & Hc & Hraise)];
    destruct (find_outcome class_to_file_map classes')
      as [[Hall' [[inc' summary'] Hfind']]|(l1' & c' & attrs' & l2' & Heq' & _ & Hc' & Hraise')].
  - rewrite Hfind, Hfind'.
    assert (forall name, observed_types name classes = observed_types name classes') as Hty.
    { intros name. apply set_eq. intros x. rewrite !elem_of_observed_types.
      by setoid_rewrite Hperm. }
    assert (forall name, observed_files class_to_file_map name classes
                         = observed_files class_to_file_map name classes') as Hfl.
    { intros name. apply set_eq. intros x. rewrite !elem_of_observed_files.
      by setoid_rewrite Hperm. }
    split.
    + apply set_eq. intros name.
      destruct (summary_lookup _ _ _ _ name Hfind) as [_ ->].
      destruct (summary_lookup _ _ _ _ name Hfind') as [_ ->]. by rewrite Hty.
    + intros name.
      destruct (summary_lookup _ _ _ _ name Hfind) as [-> _].
      destruct (summary_lookup _ _ _ _ name Hfind') as [-> _]. by rewrite Hty, Hfl.
  - exfalso. apply Hc'. rewrite Forall_forall in Hall. apply Hall.
    rewrite Hperm, Heq'. apply elem_of_app. right. apply list_elem_of_here.
  - exfalso. apply Hc. rewrite Forall_forall in Hall'. apply Hall'.
    rewrite <-Hperm, Heq. apply elem_of_app. right. apply list_elem_of_here.
  - rewrite Hraise, Hraise'.
    destruct (Hmissing classes c attrs Hc) as [Hattrs Hget].
    destruct (Hmissing classes c' attrs' Hc') as [Hattrs' Hget'].
    exists c, attrs, c', attrs'. split_and!; try done.
    + rewrite Heq. apply elem_of_app. right. apply list_elem_of_here.
    + rewrite Hperm, Heq'. apply elem_of_app. right. apply list_elem_of_here.
Qed.

Lemma detector_order_independent_witness :
  (exists inconsistent_attributes inconsistency_summary inconsistency_summary',
     find_inconsistent_attributes sample_classes sample_file_map
     = Ok (inconsistent_attributes, inconsistency_summary)
     /\ find_inconsistent_attributes (reverse sample_classes) sample_file_map
        = Ok (inconsistent_attributes, inconsistency_summary')
     /\ dict_get "name" inconsistency_summary = dict_get "name" inconsistency_summary'
     /\ "name" ∈ inconsistent_attributes)
  /\ (exists class_name class_name',
        find_inconsistent_attributes unmapped_classes [] = Raise (KeyError class_name)
        /\ find_inconsistent_attributes (reverse unmapped_classes) []
           = Raise (KeyError class_name')
        /\ class_name = "A" /\ class_name' = "B").
Proof.
  split.
  - pose proof (detector_order_independent sample_classes (reverse sample_classes)
                  sample_file_map (symmetry (reverse_Permutation sample_classes))) as H.
    destruct (find_inconsistent_attributes sample_classes sample_file_map)
      as [[inc summary]|e] eqn:Hfind;
      [|exfalso; vm_compute in Hfind; discriminate Hfind].
    destruct (find_inconsistent_attributes (reverse sample_classes) sample_file_map)
      as [[inc' summary']|e'] eqn:Hfind'; [|destruct H].
    destruct H as [<- Hsummary].
    exists inc, summary, summary'. split_and!; [reflexivity|reflexivity|apply Hsummary|].
    destruct (summary_lookup _ _ _ _ "name" Hfind) as [_ Hin]. apply Hin.
    vm_compute. reflexivity.
  - pose proof (detector_order_independent unmapped_classes (reverse unmapped_classes) []
                  (symmetry (reverse_Permutation unmapped_classes))) as H.
    destruct (find_inconsistent_attributes unmapped_classes []) as [[inc summary]|e] eqn:Hfind;
      [exfalso; vm_compute in Hfind; discriminate Hfind|].
    destruct (find_inconsistent_attributes (reverse unmapped_classes) [])
      as [[inc' summary']|e'] eqn:Hfind'; [destruct H|].
    destruct H as (c & attrs & c' & attrs' & -> & -> & _).
    exists c, c'. split_and!; [reflexivity|reflexivity| |].
    + vm_compute in Hfind. by injection Hfind.
    + vm_compute in Hfind'. by injection Hfind'.
Defined.

(** ** The per-file graph *)

Lemma first_pass_fold file_name tree dot (classes : dict class_node) :
  fold_left (first_pass file_name) tree (dot, classes)
  = (dot ++ (tree ≫= child_stmts file_name), dict_update classes (class_items tree)).
Proof.
  revert dot classes. induction tree as [|node tree IH]; intros dot classes.
  - by rewrite app_nil_r.
  - cbn [fold_left]. rewrite bind_cons.
    destruct node as [name bases body|name| |]; cbn [first_pass child_stmts];
      rewrite IH, <-?app_assoc; done.
Qed.

Lemma inheritance_bases_fold (classes : dict class_node) class_name bases dot :
  fold_left (fun dot base =>
               match base with
               | Name base_name =>
                   if dict_in base_name classes then
                     dot ++ [DotEdge ("class_" +:+ base_name) ("class_" +:+ class_name)
                                     [("style", "dashed"); ("color", "darkgreen");
                                      ("arrowhead", "empty")]]
                   else dot
               | _ => dot
               end) bases dot
  = dot ++ (base ← bases;
            match base with
            | Name base_name =>
                if dict_in base_name classes then [inheritance_edge base_name class_name]
                else []
            | _ => []
            end).
Proof.
  revert dot. induction bases as [|base bases IH]; intros dot.
  - by rewrite app_nil_r.
  - cbn [fold_left]. rewrite IH, bind_cons.
    destruct base as [base_name| | | | |]; try done.
    destruct (dict_in base_name classes); [|done]. by rewrite <-app_assoc.
Qed.

Lemma inheritance_fold (classes l : dict class_node) dot :
  fold_left (inheritance_edges classes) l dot = dot ++ (l ≫= inheritance_of classes).
Proof.
  revert dot. induction l as [|[class_name [bases body]] l IH]; intros dot.
  - by rewrite app_nil_r.
  - cbn [fold_left]. rewrite IH, bind_cons. unfold inheritance_edges.
    rewrite inheritance_bases_fold, <-app_assoc. done.
Qed.

(** The graph of a file: the layout, the file node, then what the first
    pass draws for each top-level statement in order, then the
    inheritance edges class by class. *)
Lemma file_graph_eq file_name tree :
  file_graph file_name tree
  = [layout_attrs; file_node file_name]
      ++ (tree ≫= child_stmts file_name)
      ++ (class_definitions tree ≫= inheritance_of (class_definitions tree)).
Proof.
  unfold file_graph. rewrite first_pass_fold, inheritance_fold.
  by rewrite <-app_assoc.
Qed.

Lemma child_stmts_elem file_name tree x :
  x ∈ tree ≫= child_stmts file_name
  <-> (exists name bases body,
         ClassDef name bases body ∈ tree
         /\ (x = DotNode ("class_" +:+ name) (file_class_label name body)
                         [("shape", "plaintext")]
             \/ x = DotEdge file_name ("class_" +:+ name) tree_edge_attrs))
      \/ (exists name,
            FunctionDef name ∈ tree
            /\ (x = DotNode ("func_" +:+ name) (file_function_label name)
                            [("shape", "plaintext")]
                \/ x = DotEdge file_name ("func_" +:+ name) tree_edge_attrs)).
Proof.
  rewrite list_elem_of_bind. split.
  - intros (node & Hx & Hin). destruct node as [name bases body|name| |];
      cbn [child_stmts] in Hx; try (by apply elem_of_nil in Hx).
    + left. exists name, bases, body. split; [done|].
      apply elem_of_cons in Hx as [->|Hx]; [by left|].
      apply list_elem_of_singleton in Hx as ->. by right.
    + right. exists name. split; [done|].
      apply elem_of_cons in Hx as [->|Hx]; [by left|].
      apply list_elem_of_singleton in Hx as ->. by right.
  - intros [(name & bases & body & Hin & Hx)|(name & Hin & Hx)].
    + exists (ClassDef name bases body). split; [|done]. cbn [child_stmts].
      destruct Hx as [-> | ->]; [apply list_elem_of_here|].
      apply list_elem_of_further, list_elem_of_here.
    + exists (FunctionDef name). split; [|done]. cbn [child_stmts].
      destruct Hx as [-> | ->]; [apply list_elem_of_here|].
      apply list_elem_of_further, list_elem_of_here.
Qed.

Lemma inheritance_elem (classes l : dict class_node) x :
  x ∈ l ≫= inheritance_of classes
  <-> exists class_name bases body base_name,
        (class_name, (bases, body)) ∈ l /\ Name base_name ∈ bases
        /\ base_name ∈ dict_keys classes
        /\ x = inheritance_edge base_name class_name.
Proof.
  rewrite list_elem_of_bind. split.
  - intros ([class_name [bases body]] & Hx & Hin). unfold inheritance_of in Hx.
    cbn [fst snd] in Hx. apply list_elem_of_bind in Hx as (base & Hx & Hbase).
    destruct base as [base_name| | | | |]; try (by apply elem_of_nil in Hx).
    destruct (dict_in base_name classes) eqn:Hdict; [|by apply elem_of_nil in Hx].
    apply list_elem_of_singleton in Hx as ->. apply dict_in_true in Hdict.
    by exists class_name, bases, body, base_name.
  - intros (class_name & bases & body & base_name & Hin & Hbase & Hkey & ->).
    exists (class_name, (bases, body)). split; [|done].
    unfold inheritance_of. cbn [fst snd]. apply list_elem_of_bind.
    exists (Name base_name). split; [|done].
    apply dict_in_true in Hkey. rewrite Hkey. apply list_elem_of_here.
Qed.

(** X14. In a file's structure graph, a dashed inheritance edge runs
    from class [b] to class [c] exactly when the definition retained for
    [c] lists the bare name [b] among its bases and [b] is a top-level
    class of the same file. A base written [module.b], or a base defined in
    another file, gives no edge. *)
Theorem inheritance_edge_iff (file_name : string) (tree : list stmt) (b c : string) :
  inheritance_edge b c ∈ file_graph file_name tree
  <-> exists bases body,
        dict_get c (class_definitions tree) = Some (bases, body)
        /\ Name b ∈ bases /\ top_level_class tree b.
Proof.
  rewrite file_graph_eq, !elem_of_app, inheritance_elem.
  setoid_rewrite class_definitions_keys. split.
  - intros [Hin|[Hin|(c' & bases & body & b' & Hin & Hbase & Hkey & Heq)]].
    + apply elem_of_cons in Hin as [?|Hin]; [done|].
      by apply list_elem_of_singleton in Hin.
    + apply child_stmts_elem in Hin
        as [(? & ? & ? & _ & [?|?])|(? & _ & [?|?])]; done.
    + assert (b = b' /\ c = c') as [-> ->].
      { injection Heq as Hb Hc. split; [exact Hb|exact Hc]. }
      exists bases, body. split_and!; [|done|done].
      apply dict_get_unique; [apply class_definitions_NoDup|done].
  - intros (bases & body & Hget%dict_get_elem_of & Hbase & Htop).
    right. right. by exists c, bases, body, b.
Qed.

Lemma child_stmts_draws_class file_name tree name bases body :
  ClassDef name bases body ∈ tree ->
  DotNode ("class_" +:+ name) (file_class_label name body) [("shape", "plaintext")]
  ∈ file_graph file_name tree.
Proof.
  intros Hin. rewrite file_graph_eq, !elem_of_app. right. left.
  apply child_stmts_elem. left. exists name, bases, body. split; [done|by left].
Qed.

(** X15. A file's structure graph is closed: every edge, tree edge or
    inheritance edge, starts and ends at a node that the graph draws. *)
Theorem file_graph_closed (file_name : string) (tree : list stmt)
    (tail head : string) (attrs : list (string * string)) :
  DotEdge tail head attrs ∈ file_graph file_name tree ->
  draws (file_graph file_name tree) tail /\ draws (file_graph file_name tree) head.
Proof.
  assert (draws (file_graph file_name tree) file_name) as Hroot.
  { eexists _, _. rewrite file_graph_eq. apply list_elem_of_further, list_elem_of_here. }
  assert (forall name, top_level_class tree name ->
                       draws (file_graph file_name tree) ("class_" +:+ name)) as Hclass.
  { intros name (bases & body & Hin). eexists _, _.
    by eapply child_stmts_draws_class. }
  intros Hedge. pose proof Hedge as Hedge'.
  rewrite file_graph_eq, !elem_of_app in Hedge'.
  destruct Hedge' as [Hin|[Hin|Hin]].
  - apply elem_of_cons in Hin as [?|Hin]; [done|].
    by apply list_elem_of_singleton in Hin.
  - apply child_stmts_elem in Hin
      as [(name & bases & body & Hin & [?|[= -> -> ->]])
         |(name & Hin & [?|[= -> -> ->]])]; try done.
    + split; [done|]. apply Hclass. by exists bases, body.
    + split; [done|]. eexists _, _. rewrite file_graph_eq, !elem_of_app. right. left.
      apply child_stmts_elem. right. exists name. split; [done|by left].
  - apply inheritance_elem in Hin
      as (c & bases & body & b & Hin & Hbase & Hkey & [= -> -> ->]).
    split; apply Hclass, class_definitions_keys; [done|].
    apply list_elem_of_fmap. by exists (c, (bases, body)).
Qed.

Lemma file_graph_closed_witness :
  draws (file_graph "user" [ClassDef "Base" [] []; ClassDef "User" [Name "Base"] []])
        "class_Base".
Proof.
  refine (proj1 (file_graph_closed "user"
                   [ClassDef "Base" [] []; ClassDef "User" [Name "Base"] []]
                   "class_Base" "class_User" dashed_attrs _)).
  vm_compute. do 6 apply list_elem_of_further. apply list_elem_of_here.
Defined.

Lemma method_rows_fold body label :
  fold_left (fun class_label item =>
               match item with
               | FunctionDef name => class_label +:+ method_row name
               | _ => class_label
               end) body label
  = label +:+ join_rows (method_row <$> method_names body).
Proof.
  revert label. induction body as [|item body IH]; intros label.
  - cbn. by rewrite app_empty_r.
  - cbn [fold_left]. rewrite IH. unfold method_names.
    destruct item; try done. cbn [omap list_omap]. rewrite fmap_cons.
    cbn [join_rows foldr]. by rewrite app_assoc_str.
Qed.

(** The label of a class in a file's graph, character for character. *)
Lemma file_class_label_text name body :
  file_class_label name body
  = "<<TABLE BORDER='0' CELLBORDER='1' CELLSPACING='0'>"
      +:+ "<TR><TD BGCOLOR='lightblue'><B>" +:+ name +:+ "</B></TD></TR>"
      +:+ join_rows ((fun method =>
                        "<TR><TD ALIGN='LEFT' BGCOLOR='lightyellow'>" +:+ method
                          +:+ "()</TD></TR>") <$> method_names body)
      +:+ "</TABLE>>".
Proof.
  unfold file_class_label. rewrite method_rows_fold.
  unfold table_open, header_row, table_close.
  rewrite (list_fmap_ext method_row
             (fun method => "<TR><TD ALIGN='LEFT' BGCOLOR='lightyellow'>" +:+ method
                              +:+ "()</TD></TR>")) by done.
  by rewrite !app_assoc_str.
Qed.

(** X16. For every top-level class statement of a file, the structure
    graph draws a node whose label is, character for character, a header
    row with the class name followed by one row [name()] per method of the
    class body, in body order (fields and other statements give no row),
    and an edge from the file's node to it; a class stated twice is drawn
    twice. *)
Theorem file_graph_class_node (file_name : string) (tree : list stmt)
    (name : string) (bases : list expr) (body : list stmt) :
  ClassDef name bases body ∈ tree ->
  let rows :=
    (fun method => "<TR><TD ALIGN='LEFT' BGCOLOR='lightyellow'>" +:+ method
                     +:+ "()</TD></TR>") <$> method_names body in
  let label :=
    "<<TABLE BORDER='0' CELLBORDER='1' CELLSPACING='0'>"
      +:+ "<TR><TD BGCOLOR='lightblue'><B>" +:+ name +:+ "</B></TD></TR>"
      +:+ join_rows rows
      +:+ "</TABLE>>" in
  file_class_label name body = label
  /\ DotNode ("class_" +:+ name) label [("shape", "plaintext")] ∈ file_graph file_name tree
  /\ DotEdge file_name ("class_" +:+ name)
             [("color", "darkgreen"); ("arrowhead", "vee"); ("arrowsize", "1")]
     ∈ file_graph file_name tree.
Proof.
  intros Hin rows label. subst label rows. rewrite <-file_class_label_text.
  split_and!; [done|by eapply child_stmts_draws_class|].
  rewrite file_graph_eq, !elem_of_app. right. left.
  apply child_stmts_elem. left. exists name, bases, body. split; [done|by right].
Qed.

Lemma file_graph_class_node_witness :
  let tree := [ClassDef "User" [] [FunctionDef "save"; AnnAssign (Name "name") (Name "str");
                                   FunctionDef "load"]] in
  file_class_label "User" [FunctionDef "save"; AnnAssign (Name "name") (Name "str");
                           FunctionDef "load"]
  = "<<TABLE BORDER='0' CELLBORDER='1' CELLSPACING='0'>"
      +:+ "<TR><TD BGCOLOR='lightblue'><B>User</B></TD></TR>"
      +:+ "<TR><TD ALIGN='LEFT' BGCOLOR='lightyellow'>save()</TD></TR>"
      +:+ "<TR><TD ALIGN='LEFT' BGCOLOR='lightyellow'>load()</TD></TR>"
      +:+ "</TABLE>>"
  /\ DotEdge "user" "class_User"
             [("color", "darkgreen"); ("arrowhead", "vee"); ("arrowsize", "1")]
     ∈ file_graph "user" tree.
Proof.
  intros tree.
  destruct (file_graph_class_node "user" tree "User" []
              [FunctionDef "save"; AnnAssign (Name "name") (Name "str"); FunctionDef "load"])
    as (Hlabel & _ & Hedge); [apply list_elem_of_here|].
  split; [|exact Hedge]. rewrite Hlabel. by vm_compute.
Defined.

(** ** Which files are visited *)

Lemma endswith_cons a s suffix :
  PyStr.endswith s suffix = true -> PyStr.endswith (String a s) suffix = true.
Proof.
  unfold PyStr.endswith. cbn [String.length].
  destruct (Nat.leb (String.length suffix) (String.length s)) eqn:Hle; [|done].
  apply Nat.leb_le in Hle.
  rewrite (proj2 (Nat.leb_le _ _)) by lia.
  replace (S (String.length s) - String.length suffix)
    with (S (String.length s - String.length suffix)) by lia.
  done.
Qed.

Lemma endswith_app s t suffix :
  PyStr.endswith t suffix = true -> PyStr.endswith (s +:+ t) suffix = true.
Proof.
  intros Ht. induction s as [|a s IH]; [done|].
  rewrite app_cons. by apply endswith_cons.
Qed.

Lemma os_path_join_suffix root file suffix :
  PyStr.endswith file suffix = true ->
  PyStr.endswith (os_path_join root file) suffix = true.
Proof.
  intros Hfile. unfold os_path_join.
  destruct (PyStr.startswith file "/"); [done|].
  destruct (negb (PyStr.truthy root) || PyStr.endswith root "/").
  - by apply endswith_app.
  - by apply endswith_app, endswith_app.
Qed.

Lemma elem_of_py_files walk p :
  p ∈ py_files walk
  <-> exists root files file,
        (root, files) ∈ walk /\ file ∈ files
        /\ PyStr.endswith file ".py" = true /\ p = os_path_join root file.
Proof.
  unfold py_files. rewrite list_elem_of_bind. split.
  - intros ([root files] & Hp & Hin).
    apply list_elem_of_bind in Hp as (file & Hp & Hfile).
    destruct (PyStr.endswith file ".py") eqn:Hpy; [|by apply elem_of_nil in Hp].
    apply list_elem_of_singleton in Hp as ->. by exists root, files, file.
  - intros (root & files & file & Hin & Hfile & Hpy & ->). exists (root, files).
    split; [|done]. apply list_elem_of_bind. exists file. split; [|done].
    rewrite Hpy. apply list_elem_of_here.
Qed.

Lemma for_each_ext {S A} (f g : S -> A -> result S) l s :
  (forall s' x, x ∈ l -> f s' x = g s' x) -> for_each f l s = for_each g l s.
Proof.
  revert s. induction l as [|x l IH]; intros s Hfg; [done|].
  cbn [for_each]. rewrite (Hfg s x) by apply list_elem_of_here.
  destruct (g s x) as [s'|e]; [|done]. rewrite !result_bind_Ok.
  apply IH. intros s'' y Hy. by apply Hfg, list_elem_of_further.
Qed.

Lemma bind_ext_in {A B} (f g : A -> list B) (l : list A) :
  (forall x, x ∈ l -> f x = g x) -> l ≫= f = l ≫= g.
Proof.
  induction l as [|x l IH]; intros Hfg; [done|].
  rewrite !bind_cons, (Hfg x) by apply list_elem_of_here.
  f_equal. apply IH. intros y Hy. by apply Hfg, list_elem_of_further.
Qed.

Section Visits.
Variable parse : string -> result (list stmt).
Variable render : list dot_stmt -> string -> result ().
Variable save_html_report : dict summary_entry -> result (list string).
Variable file_stem : string -> string.
Variable makedirs : string -> result ().

Local Abbreviation analyze := (analyze_models_folder parse).
Local Abbreviation lines := (try_file_diagram parse render file_stem).
Local Abbreviation diagram := (generate_python_file_diagram parse render file_stem makedirs).
Local Abbreviation diagrams := (diagram_loop parse render file_stem makedirs).
Local Abbreviation run_all := (run parse render save_html_report file_stem makedirs).

(** X17. The aggregator and the diagram loop read only files whose
    name ends in [.py]: every path they visit is the join of a walked
    folder and such a file name, it ends in [.py] itself, and what they
    return is the same on two file systems that agree on those paths. *)
Theorem only_py_files_are_read (walk : list (string * list string))
    (fs fs2 : string -> string) :
  (forall p, p ∈ py_files walk -> fs p = fs2 p) ->
  (forall p, p ∈ py_files walk -> PyStr.endswith p ".py" = true)
  /\ analyze fs walk = analyze fs2 walk
  /\ diagrams fs walk = diagrams fs2 walk.
Proof.
  intros Hagree. split_and!.
  - intros p (root & files & file & _ & _ & Hpy & ->)%elem_of_py_files.
    by apply os_path_join_suffix.
  - rewrite !analyze_flat. apply for_each_ext. intros all p Hp.
    unfold merge_file, extract_classes_with_nested_models. by rewrite (Hagree p Hp).
  - rewrite !diagram_flat. apply for_each_ext. intros printed p Hp.
    unfold draw_file, generate_python_file_diagram, try_file_diagram.
    by rewrite (Hagree p Hp).
Qed.

Lemma lines_one_line fs p : exists line, lines fs p = [line].
Proof.
  unfold try_file_diagram.
  destruct (parse (fs p)) as [tree|e]; [|by eexists]. rewrite result_bind_Ok.
  destruct (render _ _) as [[]|e]; by eexists.
Qed.

Lemma lines_per_file fs l :
  length (l ≫= lines fs) = length l
  /\ forall i p, l !! i = Some p -> lines fs p = option_list ((l ≫= lines fs) !! i).
Proof.
  induction l as [|q l [IHlen IHnth]]; [by split; [|intros []]|].
  rewrite bind_cons. destruct (lines_one_line fs q) as [line Hq]. rewrite Hq. split.
  - cbn [app length]. by rewrite IHlen.
  - intros [|i] p Hp; cbn in Hp.
    + by injection Hp as <-.
    + cbn [app lookup list_lookup]. by apply IHnth.
Qed.

(** X18. The only exception that leaves [generate_python_file_diagram]
    is that of [os.makedirs], which is called before the [try] statement:
    the call then prints nothing, and the diagram loop ends at its first
    file. When [os.makedirs] returns, the call returns and has printed
    exactly one line, whether the file parses or not and whether the
    renderer succeeds or not, and the loop prints one line per visited
    file, in visiting order. *)
Theorem one_line_per_file (fs : string -> string) (walk : list (string * list string)) :
  match makedirs "visual" with
  | Raise e =>
      (forall p, diagram fs p = Raise e)
      /\ diagrams fs walk = match py_files walk with [] => Ok [] | _ => Raise e end
  | Ok _ =>
      (forall p, exists line, diagram fs p = Ok [line])
      /\ exists printed,
           diagrams fs walk = Ok printed
           /\ length printed = length (py_files walk)
           /\ forall i p, py_files walk !! i = Some p ->
                          diagram fs p = Ok (option_list (printed !! i))
  end.
Proof.
  destruct (makedirs "visual") as [[]|e] eqn:Hmk.
  - split.
    + intros p. destruct (lines_one_line fs p) as [line Hline]. exists line.
      by rewrite (diagram_made _ _ _ _ _ _ Hmk), Hline.
    + exists (py_files walk ≫= lines fs).
      destruct (lines_per_file fs (py_files walk)) as [Hlen Hnth].
      split_and!; [by apply diagrams_made|done|].
      intros i p Hp. by rewrite (diagram_made _ _ _ _ _ _ Hmk), (Hnth i p Hp).
  - split; [intros p; by apply diagram_blocked|by apply diagrams_blocked].
Qed.

(** X19. A renderer failure on one file's graph is caught like a parse
    failure: that file's line is the error message naming the file, and
    the loop prints for the other files what it prints for them anyway.
    The output directory is taken to be there ([os.makedirs] returns), as
    it is when the renderer is reached. *)
Theorem render_failure_isolated (fs : string -> string) (walk : list (string * list string))
    (l1 l2 : list string) (p : string) (tree : list stmt) (e : exn) :
  makedirs "visual" = Ok () ->
  py_files walk = l1 ++ p :: l2 ->
  parse (fs p) = Ok tree ->
  render (file_graph (file_stem p) tree)
         (os_path_join "visual" ("python_" +:+ file_stem p)) = Raise e ->
  let message := "Error generating diagram for " +:+ p +:+ ": " +:+ exn_str e in
  diagram fs p = Ok [message]
  /\ (forall q, diagram fs q = Ok (lines fs q))
  /\ diagrams fs walk = Ok ((l1 ≫= lines fs) ++ [message] ++ (l2 ≫= lines fs)).
Proof.
  intros Hmk Hwalk Hp Hrender message.
  assert (lines fs p = [message]) as Hone.
  { unfold try_file_diagram. rewrite Hp, result_bind_Ok. by rewrite Hrender. }
  split_and!.
  - by rewrite (diagram_made _ _ _ _ _ _ Hmk), Hone.
  - intros q. by apply diagram_made.
  - by rewrite (diagrams_made _ _ _ _ _ _ Hmk), Hwalk, bind_app, bind_cons, Hone.
Qed.

(** X20. When every visited file parses, the aggregation and the
    detector both return, and the run depends on [os.makedirs], the report
    writer and the renderer of the folder-wide graph only: an exception of
    [os.makedirs] ends the run before the analysis, one of the report
    writer or of the folder-wide rendering ends it before any per-file
    diagram is drawn, and otherwise the run prints the report's lines, the
    folder diagram's line and the per-file lines, in that order. *)
Theorem run_outcome (fs fs' : string -> string) (walk : list (string * list string)) :
  Forall (fun q => exists tree, parse (fs q) = Ok tree) (py_files walk) ->
  exists all inconsistent_attributes inconsistency_summary,
    analyze fs walk = Ok all
    /\ find_inconsistent_attributes (classes all) (file_to_class_map all)
       = Ok (inconsistent_attributes, inconsistency_summary)
    /\ let graph := folder_graph (classes all) (nested_relationships all)
                                 inconsistent_attributes in
       (forall e, makedirs "visual" = Raise e -> run_all fs fs' walk = Raise e)
       /\ (makedirs "visual" = Ok () ->
           (forall e, save_html_report inconsistency_summary = Raise e ->
                      run_all fs fs' walk = Raise e)
           /\ (forall printed e,
                 save_html_report inconsistency_summary = Ok printed ->
                 render graph "visual/folder_model_diagram" = Raise e ->
                 run_all fs fs' walk = Raise e)
           /\ (forall printed,
                 save_html_report inconsistency_summary = Ok printed ->
                 render graph "visual/folder_model_diagram" = Ok () ->
                 diagrams fs' walk = Ok (py_files walk ≫= lines fs')
                 /\ run_all fs fs' walk
                    = Ok (printed
                            ++ ["Folder-wide diagram saved as visual/folder_model_diagram.png"]
                            ++ (py_files walk ≫= lines fs')))).
Proof.
  intros [all Hall]%(analyze_total parse fs).
  destruct (analyze_keys parse fs walk all Hall) as (_ & _ & Hkeys).
  destruct (find_inconsistent_attributes_total (classes all) (file_to_class_map all))
    as [[inc summary] Hfind].
  { intros class_name. by rewrite Hkeys. }
  exists all, inc, summary. split; [done|]. split; [done|].
  cbn zeta. split.
  { intros e Hmk. unfold run. by rewrite Hmk. }
  intros Hmk. unfold run.
  rewrite Hmk, result_bind_Ok, Hall, result_bind_Ok, Hfind, result_bind_Ok.
  unfold generate_inconsistent_model_diagram. rewrite Hmk, result_bind_Ok.
  change (os_path_join "visual" "folder_model_diagram") with "visual/folder_model_diagram".
  split_and!.
  - by intros e ->.
  - intros printed e -> Hrender. by rewrite result_bind_Ok, Hrender.
  - intros printed -> Hrender.
    pose proof (diagrams_made parse render file_stem makedirs fs' walk Hmk) as Hloop.
    split; [done|]. by rewrite result_bind_Ok, Hrender, !result_bind_Ok, Hloop.
Qed.


End Visits.

Lemma only_py_files_are_read_witness :
  analyze_models_folder toy_parse sample_fs sample_walk
  = analyze_models_folder toy_parse
      (fun p => if String.eqb p "m/notes.txt" then "changed" else sample_fs p) sample_walk.
Proof.
  refine (proj1 (proj2 (only_py_files_are_read toy_parse toy_render toy_stem toy_makedirs
                          sample_walk sample_fs _ _))).
  intros p Hp. vm_compute in Hp.
  apply elem_of_cons in Hp as [->|Hp]; [done|].
  apply elem_of_cons in Hp as [->|Hp]; [done|]. by apply elem_of_nil in Hp.
Defined.

Lemma one_line_per_file_witness :
  diagram_loop toy_parse toy_render toy_stem blocked_makedirs broken_fs sample_walk
  = Raise (OtherError "[Errno 17] File exists: 'visual'")
  /\ exists printed,
       diagram_loop toy_parse toy_render toy_stem toy_makedirs broken_fs sample_walk
       = Ok printed
       /\ length printed = 2.
Proof.
  split.
  - exact (proj2 (one_line_per_file toy_parse toy_render toy_stem blocked_makedirs
                    broken_fs sample_walk)).
  - destruct (proj2 (one_line_per_file toy_parse toy_render toy_stem toy_makedirs
                       broken_fs sample_walk)) as (printed & Hloop & Hlen & _).
    exists printed. exact (conj Hloop Hlen).
Defined.

Lemma render_failure_isolated_witness :
  diagram_loop toy_parse picky_render toy_stem toy_makedirs sample_fs sample_walk
  = Ok ["Python file structure diagram saved as visual/python_a.png";
        "Error generating diagram for m/b.py: dot: not found"].
Proof.
  exact (proj2 (proj2 (render_failure_isolated toy_parse picky_render toy_stem toy_makedirs
                         sample_fs sample_walk ["m/a.py"] [] "m/b.py" _
                         (OtherError "dot: not found") eq_refl eq_refl eq_refl eq_refl))).
Defined.

Lemma run_outcome_witness :
  run toy_parse toy_render toy_report toy_stem toy_makedirs sample_fs sample_fs sample_walk
  = Ok ["Folder-wide diagram saved as visual/folder_model_diagram.png";
        "Python file structure diagram saved as visual/python_a.png";
        "Python file structure diagram saved as visual/python_b.png"]
  /\ run toy_parse toy_render toy_report toy_stem blocked_makedirs sample_fs sample_fs
         sample_walk
     = Raise (OtherError "[Errno 17] File exists: 'visual'").
Proof.
  split.
  - destruct (run_outcome toy_parse toy_render toy_report toy_stem toy_makedirs
                sample_fs sample_fs sample_walk)
      as (all & inc & summary & _ & _ & _ & Hrun).
    + repeat constructor; by eexists.
    + destruct (Hrun eq_refl) as (_ & _ & Hok). exact (proj2 (Hok [] eq_refl eq_refl)).
  - destruct (run_outcome toy_parse toy_render toy_report toy_stem blocked_makedirs
                sample_fs sample_fs sample_walk)
      as (all & inc & summary & _ & _ & Hblocked & _).
    + repeat constructor; by eexists.
    + exact (Hblocked _ eq_refl).
Defined.


(** ** The report's tables and chart data *)

Section ReportFacts.
Variable set_order : list string -> list string.
Hypothesis set_order_NoDup : forall adds, NoDup (set_order adds).
Hypothesis set_order_elem : forall adds t, t ∈ set_order adds <-> t ∈ adds.

Local Abbreviation make_datasets := (Report.make_datasets set_order).

Lemma bump_get n i (type_data : dict (list nat)) t t' :
  dict_get t' (Report.bump n i type_data t)
  = if bool_decide (t' = t)
    then Some (alter S i (default (replicate n 0) (dict_get t type_data)))
    else dict_get t' type_data.
Proof.
  unfold Report.bump. case_bool_decide as Heq.
  - subst. apply dict_get_set_eq.
  - by apply dict_get_set_ne.
Qed.

(** The loop over the types of one entry. *)
Lemma types_loop n i ts (labels : list string) (type_data : dict (list nat)) :
  NoDup ts ->
  let out := fold_left (fun '(type_labels, type_data) t =>
                          (type_labels ++ [t], Report.bump n i type_data t))
                       ts (labels, type_data) in
  out.1 = labels ++ ts
  /\ forall t, dict_get t out.2
               = if bool_decide (t ∈ ts)
                 then Some (alter S i (default (replicate n 0) (dict_get t type_data)))
                 else dict_get t type_data.
Proof.
  revert labels type_data. induction ts as [|t0 ts IH]; intros labels type_data Hnd.
  - cbn. split; [by rewrite app_nil_r|].
    intros t. by rewrite bool_decide_eq_false_2 by apply not_elem_of_nil.
  - apply NoDup_cons in Hnd as [Ht0 Hnd]. cbn [fold_left].
    destruct (IH (labels ++ [t0]) (Report.bump n i type_data t0) Hnd) as [Hlabels Hdata].
    cbn zeta in *. split.
    + by rewrite Hlabels, <-app_assoc.
    + intros t. rewrite Hdata, !bump_get.
      destruct (decide (t = t0)) as [->|Hne].
      * rewrite (bool_decide_eq_false_2 (t0 ∈ ts)) by done.
        rewrite (bool_decide_eq_true_2 (t0 = t0)) by done.
        by rewrite (bool_decide_eq_true_2 (t0 ∈ t0 :: ts)) by apply list_elem_of_here.
      * rewrite (bool_decide_eq_false_2 (t = t0)) by done.
        destruct (decide (t ∈ ts)) as [Hin|Hnin].
        -- rewrite (bool_decide_eq_true_2 (t ∈ ts)) by done.
           by rewrite (bool_decide_eq_true_2 (t ∈ t0 :: ts)) by (by apply list_elem_of_further).
        -- rewrite (bool_decide_eq_false_2 (t ∈ ts)) by done.
           by rewrite (bool_decide_eq_false_2 (t ∈ t0 :: ts)) by (by apply not_elem_of_cons).
Qed.

Lemma all_types_snoc (done : dict Report.details) item :
  Report.all_types (done ++ [item]) = Report.all_types done ++ Report.types item.2.
Proof.
  unfold Report.all_types. rewrite bind_app, bind_cons. cbn [mbind list_bind].
  by rewrite app_nil_r.
Qed.

Lemma elem_of_all_types (done : dict Report.details) t :
  t ∈ Report.all_types done <-> exists item, item ∈ done /\ t ∈ Report.types item.2.
Proof.
  unfold Report.all_types. rewrite list_elem_of_bind. split.
  - intros (item & Ht & Hin). by exists item.
  - intros (item & Hin & Ht). by exists item.
Qed.

Lemma indicator_absent t (done : dict Report.details) :
  t ∉ Report.all_types done ->
  Report.indicator t <$> done = replicate (length done) 0.
Proof.
  induction done as [|item done IH]; [done|]. intros Hnin.
  rewrite fmap_cons. cbn [length replicate]. f_equal.
  - unfold Report.indicator. rewrite bool_decide_eq_false_2; [done|].
    intros Hin. apply Hnin, elem_of_all_types. exists item.
    split; [apply list_elem_of_here|done].
  - apply IH. intros Hin. apply Hnin.
    apply elem_of_all_types in Hin as (item' & Hitem' & Ht).
    apply elem_of_all_types. exists item'. split; [by apply list_elem_of_further|done].
Qed.

Lemma scan_entry_step n (done : dict Report.details) item st :
  length done < n -> NoDup (Report.types item.2) -> tables_after n done st ->
  tables_after n (done ++ [item]) (Report.scan_entry n st item).
Proof.
  intros Hlt Hnd (Hindex & Hattrs & Hlabels & Hdata).
  destruct item as [attr_name details]. cbn [snd] in Hnd. unfold Report.scan_entry.
  pose proof (types_loop n (Report.index st) (Report.types details)
                (Report.type_labels st) (Report.type_data st) Hnd) as Hloop.
  cbn zeta in Hloop.
  destruct (fold_left _ (Report.types details) _) as [labels' data'].
  destruct Hloop as [Hlabels' Hdata']. cbn [fst snd] in Hlabels', Hdata'.
  unfold tables_after.
  cbn [Report.index Report.attributes Report.type_labels Report.table_rows Report.type_data].
  rewrite length_app, all_types_snoc. cbn [length fst snd].
  split_and!.
  - lia.
  - unfold dict_keys. by rewrite Hattrs, fmap_app.
  - by rewrite Hlabels', Hlabels.
  - intros t. rewrite Hdata', Hdata, Hindex, fmap_app.
    change (Report.indicator t <$> [(attr_name, details)])
      with [Report.indicator t (attr_name, details)].
    replace (n - length done) with (S (n - (length done + 1))) by lia.
    rewrite replicate_S.
    assert (default (replicate n 0)
              (if bool_decide (t ∈ Report.all_types done)
               then Some ((Report.indicator t <$> done)
                            ++ 0 :: replicate (n - (length done + 1)) 0)
               else None)
            = (Report.indicator t <$> done) ++ 0 :: replicate (n - (length done + 1)) 0)
      as Hbase.
    { case_bool_decide as Hin; [done|]. cbn.
      rewrite (indicator_absent _ _ Hin), <-replicate_S, <-replicate_add.
      f_equal. lia. }
    destruct (decide (t ∈ Report.types details)) as [Hin|Hnin].
    + rewrite (bool_decide_eq_true_2 (t ∈ Report.types details)) by done.
      rewrite (bool_decide_eq_true_2 (t ∈ Report.all_types done ++ Report.types details))
        by (apply elem_of_app; by right).
      rewrite Hbase. f_equal.
      replace (length done) with (length (Report.indicator t <$> done) + 0)
        at 1 by (rewrite length_fmap; lia).
      rewrite alter_app_r, <-app_assoc. cbn. f_equal. f_equal.
      unfold Report.indicator. cbn [snd]. by rewrite bool_decide_eq_true_2.
    + rewrite (bool_decide_eq_false_2 (t ∈ Report.types details)) by done.
      assert (Report.indicator t (attr_name, details) = 0) as Hzero.
      { unfold Report.indicator. cbn [snd]. by rewrite bool_decide_eq_false_2. }
      case_bool_decide as Hdone.
      * rewrite bool_decide_eq_true_2 by (apply elem_of_app; by left).
        by rewrite <-app_assoc, Hzero.
      * rewrite bool_decide_eq_false_2; [done|].
        intros [?|?]%elem_of_app; done.
Qed.

Lemma scan_entries n (done rest : dict Report.details) st :
  length (done ++ rest) <= n -> Report.well_formed rest -> tables_after n done st ->
  tables_after n (done ++ rest) (fold_left (Report.scan_entry n) rest st).
Proof.
  revert done st. induction rest as [|item rest IH]; intros done st Hlen Hwf Hinv.
  - by rewrite app_nil_r.
  - apply Forall_cons in Hwf as [Hitem Hwf].
    cbn [fold_left]. replace (done ++ item :: rest) with ((done ++ [item]) ++ rest)
      by (by rewrite <-app_assoc).
    apply IH; [by rewrite <-app_assoc|done|].
    apply scan_entry_step; [|done|done]. rewrite length_app in Hlen. cbn in Hlen. lia.
Qed.

Lemma report_tables_spec (inconsistency_summary : dict Report.details) :
  Report.well_formed inconsistency_summary ->
  tables_after (length inconsistency_summary) inconsistency_summary
               (Report.report_tables inconsistency_summary).
Proof.
  intros Hwf. apply (scan_entries _ [] inconsistency_summary); [done|done|].
  by split_and!.
Qed.

Lemma make_datasets_fold n (type_data : dict (list nat)) labels datasets i :
  fold_left (fun '(datasets, i) type_label =>
               (datasets ++ [{| Report.label := type_label;
                                Report.data := default (replicate n 0)
                                                       (dict_get type_label type_data);
                                Report.backgroundColor :=
                                  default "" (Report.colors
                                                !! (i mod length Report.colors)) |}],
                S i))
            labels (datasets, i)
  = (datasets
       ++ imap (fun k type_label =>
                  {| Report.label := type_label;
                     Report.data := default (replicate n 0) (dict_get type_label type_data);
                     Report.backgroundColor :=
                       default "" (Report.colors !! ((i + k) mod length Report.colors)) |})
               labels,
     i + length labels).
Proof.
  revert datasets i. induction labels as [|type_label labels IH]; intros datasets i.
  - cbn. by rewrite app_nil_r, Nat.add_0_r.
  - cbn [fold_left]. rewrite IH, imap_cons, <-app_assoc. cbn [app length].
    rewrite Nat.add_0_r. f_equal; [|lia]. f_equal. f_equal.
    apply imap_ext. intros k x _. unfold compose.
    by replace (S i + k) with (i + S k) by lia.
Qed.

(** X22. The report's chart data, on a summary whose sets each list
    their elements once, whatever order each set lists them in: the axis
    labels are the summary's attribute names in summary order; the
    datasets' labels are the types added to [type_labels] in the order that
    set lists them, so there is one dataset per type that occurs in the
    summary, each type once; a dataset's data has one entry per attribute,
    1 where the attribute has the dataset's type and 0 elsewhere; and the
    datasets take the five colours in turn. *)
Theorem chart_data_marks_types (inconsistency_summary : dict Report.details) :
  Report.well_formed inconsistency_summary ->
  let t := Report.report_tables inconsistency_summary in
  let datasets :=
    make_datasets (length inconsistency_summary) (Report.type_labels t)
                  (Report.type_data t) in
  Report.attributes t = dict_keys inconsistency_summary
  /\ Report.label <$> datasets = set_order (Report.all_types inconsistency_summary)
  /\ NoDup (Report.label <$> datasets)
  /\ (forall type, type ∈ Report.label <$> datasets
                   <-> exists item, item ∈ inconsistency_summary
                                    /\ type ∈ Report.types item.2)
  /\ (forall d, d ∈ datasets ->
                length (Report.data d) = length inconsistency_summary
                /\ Report.data d = Report.indicator (Report.label d) <$> inconsistency_summary)
  /\ (forall i d, datasets !! i = Some d ->
                  Report.colors !! (i mod 5) = Some (Report.backgroundColor d)).
Proof.
  intros Hwf t datasets.
  destruct (report_tables_spec inconsistency_summary Hwf) as (_ & Hattrs & Hlabels & Hdata).
  fold t in Hattrs, Hlabels, Hdata.
  assert (datasets
          = imap (fun k type_label =>
                    {| Report.label := type_label;
                       Report.data := default (replicate (length inconsistency_summary) 0)
                                              (dict_get type_label (Report.type_data t));
                       Report.backgroundColor :=
                         default "" (Report.colors !! ((0 + k) mod length Report.colors)) |})
                 (set_order (Report.all_types inconsistency_summary))) as Hds.
  { subst datasets. unfold Report.make_datasets.
    by rewrite make_datasets_fold, Hlabels. }
  assert (Report.label <$> datasets = set_order (Report.all_types inconsistency_summary))
    as Hnames.
  { rewrite Hds, fmap_imap. rewrite <-(list_fmap_id (set_order _)) at 2.
    rewrite <-imap_const. by apply imap_ext. }
  assert (forall d, d ∈ datasets ->
            Report.data d = Report.indicator (Report.label d) <$> inconsistency_summary)
    as Hmarks.
  { intros d Hd. rewrite Hds in Hd.
    apply elem_of_lookup_imap_1 in Hd as (k & type_label & -> & Hk).
    cbn [Report.data Report.label]. rewrite Hdata.
    rewrite bool_decide_eq_true_2.
    - cbn. by rewrite Nat.sub_diag, app_nil_r.
    - apply set_order_elem. by eapply list_elem_of_lookup_2. }
  split_and!; [done|done| | | |].
  - rewrite Hnames. apply set_order_NoDup.
  - intros type. by rewrite Hnames, set_order_elem, elem_of_all_types.
  - intros d Hd. rewrite (Hmarks d Hd). by rewrite length_fmap.
  - intros i d. rewrite Hds, list_lookup_imap.
    destruct (set_order _ !! i) as [type_label|]; [|done].
    intros [= <-]. cbn [Report.backgroundColor].
    change (length Report.colors) with 5.
    pose proof (Nat.mod_upper_bound i 5) as Hlt.
    destruct (lookup_lt_is_Some_2 Report.colors (i mod 5)) as [c Hc];
      [apply Hlt; lia|].
    change (4 - (Nat.divmod i 4 0 4).2) with (i mod 5). by rewrite Hc.
Qed.

End ReportFacts.

Lemma latest_first_NoDup adds : NoDup (Report.latest_first adds).
Proof.
  unfold Report.latest_first. rewrite reverse_Permutation. apply NoDup_remove_dups.
Qed.

Lemma latest_first_elem adds t : t ∈ Report.latest_first adds <-> t ∈ adds.
Proof. unfold Report.latest_first. by rewrite elem_of_reverse, elem_of_remove_dups. Qed.

Lemma sample_summary_well_formed : Report.well_formed Report.sample_summary.
Proof.
  repeat (apply Forall_cons; split); try apply Forall_nil_2; cbn [snd Report.types];
    repeat (apply NoDup_cons; split); try apply NoDup_nil_2;
    rewrite ?elem_of_cons; try apply not_elem_of_nil; intros H; decompose [or] H;
    (discriminate || by eapply not_elem_of_nil).
Qed.

Lemma chart_data_marks_types_witness :
  let t := Report.report_tables Report.sample_summary in
  let datasets :=
    Report.make_datasets Report.latest_first 2 (Report.type_labels t) (Report.type_data t) in
  Report.attributes t = ["name"; "id"]
  /\ Report.label <$> datasets = ["UUID"; "int"; "str"]
  /\ Report.data <$> datasets = [[0; 1]; [1; 1]; [1; 0]]
  /\ Forall (fun d => Report.data d = Report.indicator (Report.label d)
                                        <$> Report.sample_summary) datasets.
Proof.
  intros t datasets.
  destruct (chart_data_marks_types Report.latest_first latest_first_NoDup latest_first_elem
              Report.sample_summary sample_summary_well_formed)
    as (Hattrs & Hlabels & _ & _ & Hmarks & _).
  split_and!.
  - exact Hattrs.
  - exact Hlabels.
  - vm_compute. reflexivity.
  - apply Forall_forall. intros d Hd. by apply Hmarks.
Defined.
